(** * OpenApiValidator: a shallow embedding of src/OpenApiValidator.ts

    The development follows the source file top-down: JavaScript values and
    the primitives the source relies on, the Ajv keyword registry and the
    keyword code registered by the validator, [resolveResponse], the
    constructor, [validate], [validateResponse] and [_getResponseObject].

    Stateful code is written with explicit state passing: the validator
    instance is a record and every method returns the instance it leaves
    behind.  Code that can throw lives in the [Exec] monad. *)

From Stdlib Require Import ZArith String Ascii Bool Lia.
From stdpp Require Import base option gmap strings list.

Set Warnings "-register-all".
Open Scope string_scope.

(** ** JavaScript values *)

(** JSON-shaped JavaScript values.  Numbers are the integer-valued doubles
    (the only numbers the keywords of this file look at are of JSON type
    [integer]): [JNum z] stands for a value of the program when [z] is a
    double, see [is_double] below.  An object is the list of its own
    properties, in insertion order; what it inherits from
    [Object.prototype] is accounted for where a key is computed at run
    time, see [Get]. *)
Inductive JsValue : Type :=
  | JUndefined
  | JNull
  | JBool (b : bool)
  | JNum (z : Z)
  | JStr (s : string)
  | JArr (items : list JsValue)
  | JObj (props : list (string * JsValue)).

Inductive JsError : Type :=
  | TypeError (msg : string)
  | SyntaxError (msg : string)
  | Error (msg : string).

(** Outcome of running a piece of JavaScript: a value, an exception, or
    [Unmodelled] when the run leaves the fragment of the language that this
    development gives a meaning to (non-integer numeric strings, property
    reads on primitives, ...). *)
Inductive Exec (A : Type) : Type :=
  | Ret (a : A)
  | Throw (e : JsError)
  | Unmodelled.
Arguments Ret {A} a.
Arguments Throw {A} e.
Arguments Unmodelled {A}.

#[global] Instance Exec_ret : MRet Exec := fun _ a => Ret a.
#[global] Instance Exec_bind : MBind Exec := fun _ _ f m =>
  match m with
  | Ret a => f a
  | Throw e => Throw e
  | Unmodelled => Unmodelled
  end.

Definition is_nullish (v : JsValue) : bool :=
  match v with JUndefined | JNull => true | _ => false end.

(** [ToBoolean]: the falsy values are undefined, null, false, 0 and "". *)
Definition truthy (v : JsValue) : bool :=
  match v with
  | JUndefined | JNull => false
  | JBool b => b
  | JNum z => negb (z =? 0)%Z
  | JStr s => negb (s =? "")
  | JArr _ | JObj _ => true
  end.

(** [a || b] *)
Definition js_or (a b : JsValue) : JsValue := if truthy a then a else b.

(** [a === b] on primitives; two object or array literals of a decoded
    payload are distinct allocations and never identical. *)
Definition strict_eq (a b : JsValue) : bool :=
  match a, b with
  | JUndefined, JUndefined | JNull, JNull => true
  | JBool x, JBool y => Bool.eqb x y
  | JNum x, JNum y => (x =? y)%Z
  | JStr x, JStr y => (x =? y)
  | _, _ => false
  end.

(** *** Objects *)

Fixpoint assoc (k : string) (props : list (string * JsValue)) : option JsValue :=
  match props with
  | [] => None
  | (k', v) :: rest => if k' =? k then Some v else assoc k rest
  end.

(** [o[k]] on an object: a missing property reads as undefined. *)
Definition obj_get (props : list (string * JsValue)) (k : string) : JsValue :=
  default JUndefined (assoc k props).

(** [v.k] for a key [k] that is written in the source and is not a member
    of [Object.prototype]: reading a property of undefined or null
    throws. *)
Definition GetV (v : JsValue) (k : string) : Exec JsValue :=
  match v with
  | JObj props => Ret (obj_get props k)
  | JUndefined => Throw (TypeError "Cannot read properties of undefined")
  | JNull => Throw (TypeError "Cannot read properties of null")
  | _ => Unmodelled
  end.

(** The names every object inherits from [Object.prototype]. *)
Definition Object_prototype_names : list string :=
  ["constructor"; "toString"; "toLocaleString"; "valueOf"; "hasOwnProperty";
   "isPrototypeOf"; "propertyIsEnumerable"; "__proto__"; "__defineGetter__";
   "__defineSetter__"; "__lookupGetter__"; "__lookupSetter__"].

Definition inherited (k : string) : bool :=
  existsb (String.eqb k) Object_prototype_names.

(** [v[k]] for a key that is computed at run time.  An object that has no
    property [k] of its own reads as undefined unless [k] names a member of
    [Object.prototype]: then the read yields that member, a value that is
    not modelled. *)
Definition Get (v : JsValue) (k : string) : Exec JsValue :=
  match v with
  | JObj props =>
      match assoc k props with
      | Some x => Ret x
      | None => if inherited k then Unmodelled else Ret JUndefined
      end
  | JUndefined =>
      Throw (TypeError ("Cannot read properties of undefined (reading '" +:+ k +:+ "')"))
  | JNull =>
      Throw (TypeError ("Cannot read properties of null (reading '" +:+ k +:+ "')"))
  | _ => Unmodelled
  end.

(** [o[k] = v] on an object literal under construction. *)
Fixpoint obj_set (k : string) (v : JsValue) (props : list (string * JsValue))
  : list (string * JsValue) :=
  match props with
  | [] => [(k, v)]
  | (k', v') :: rest =>
      if k' =? k then (k, v) :: rest else (k', v') :: obj_set k v rest
  end.

(** [{...a, ...b}] *)
Definition obj_spread (a b : list (string * JsValue)) : list (string * JsValue) :=
  fold_left (fun acc kv => obj_set kv.1 kv.2 acc) b a.

(** lodash [_.get(object, path, defaultValue)] for an array path. *)
Fixpoint baseGet (object : JsValue) (path : list string) : Exec JsValue :=
  match path with
  | [] => Ret object
  | k :: rest =>
      if is_nullish object then Ret JUndefined
      else object' ← GetV object k; baseGet object' rest
  end.

Definition lodash_get (object : JsValue) (path : list string) (defaultValue : JsValue)
  : Exec JsValue :=
  result ← baseGet object path;
  Ret (match result with JUndefined => defaultValue | _ => result end).

(** lodash [_.has(object, path)]: every step is an own property. *)
Fixpoint lodash_has (object : JsValue) (path : list string) : Exec bool :=
  match path with
  | [] => Ret true
  | k :: rest =>
      match object with
      | JObj props =>
          match assoc k props with
          | Some v => lodash_has v rest
          | None => Ret false
          end
      | JUndefined | JNull => Ret false
      | _ => Unmodelled
      end
  end.

(** ** Numbers and strings *)

Definition digit_char (d : Z) : ascii := ascii_of_nat (48 + Z.to_nat d).

(** Decimal digits of a non-negative integer, most significant first. *)
Fixpoint decimal_digits (fuel : nat) (n : Z) (acc : string) : string :=
  match fuel with
  | O => acc
  | S fuel' =>
      let acc' := String (digit_char (n mod 10)) acc in
      if (n / 10 =? 0)%Z then acc' else decimal_digits fuel' (n / 10) acc'
  end.

Definition decimal (z : Z) : string :=
  if (z <? 0)%Z then "-" +:+ decimal_digits 22 (- z) "" else decimal_digits 22 z "".

(** [String(n)] for an integer-valued number: plain decimal notation below
    10^21; from there on JavaScript switches to exponent notation.  The
    digits are the exact ones, which are the digits JavaScript prints up to
    2^53; above, JavaScript prints the shortest digits that read back as the
    same double (2^64 prints as 18446744073709552000), so that nothing is
    stated here about the text of a number above 2^53. *)
Definition NumberToString (z : Z) : Exec string :=
  if (Z.abs z <? 10 ^ 21)%Z then Ret (decimal z) else Unmodelled.

(** [ToString] on primitives. *)
Definition ToString (v : JsValue) : Exec string :=
  match v with
  | JUndefined => Ret "undefined"
  | JNull => Ret "null"
  | JBool true => Ret "true"
  | JBool false => Ret "false"
  | JNum z => NumberToString z
  | JStr s => Ret s
  | JArr _ | JObj _ => Unmodelled
  end.

(** [a + b] when one operand is known to be a string: concatenation. *)
Definition js_concat (a b : JsValue) : Exec JsValue :=
  sa ← ToString a; sb ← ToString b; Ret (JStr (sa +:+ sb)).

Definition digit_of (c : ascii) : option Z :=
  let n := nat_of_ascii c in
  if (48 <=? n)%nat && (n <=? 57)%nat then Some (Z.of_nat (n - 48)) else None.

Fixpoint parse_digits (s : string) (acc : Z) : option Z :=
  match s with
  | EmptyString => Some acc
  | String c rest =>
      match digit_of c with
      | Some d => parse_digits rest (10 * acc + d)%Z
      | None => None
      end
  end.

(** Characters that occur in some StringNumericLiteral: digits, sign, dot,
    exponent and radix markers, hexadecimal digits, the letters of
    "Infinity", white space, and every non-ASCII byte (which may belong to a
    Unicode white-space character). *)
Definition numeric_alphabet (c : ascii) : bool :=
  let n := nat_of_ascii c in
  (128 <=? n)%nat || (n <=? 32)%nat ||
  match digit_of c with Some _ => true | None => false end ||
  existsb (Ascii.eqb c)
    (list_ascii_of_string "+-.eExXoObBaAcCdDfFInity").

Fixpoint all_chars (p : ascii -> bool) (s : string) : bool :=
  match s with
  | EmptyString => true
  | String c rest => p c && all_chars p rest
  end.

(** [s.split(c)] for a one-character separator. *)
Fixpoint split_on (sep : ascii) (s : string) : list string :=
  match s with
  | EmptyString => [""]
  | String c rest =>
      let parts := split_on sep rest in
      if Ascii.eqb c sep then "" :: parts
      else match parts with
           | p :: ps => String c p :: ps
           | [] => [String c EmptyString]
           end
  end.

(** What a string denotes as a numeric literal, as far as this development
    goes: the empty string, an optionally signed run of decimal digits, a
    string that is certainly no numeric literal, or anything else. *)
Inductive StrClass : Type :=
  | SInt (z : Z)
  | SNotNumeric
  | SOther.

Definition classify (s : string) : StrClass :=
  match s with
  | EmptyString => SInt 0
  | String c rest =>
      let signed (neg : bool) :=
        match rest with
        | EmptyString => SNotNumeric
        | _ => match parse_digits rest 0 with
               | Some z => SInt (if neg then - z else z)
               | None => if all_chars numeric_alphabet rest then SOther else SNotNumeric
               end
        end in
      if Ascii.eqb c "-" then signed true
      else if Ascii.eqb c "+" then signed false
      else match parse_digits s 0 with
           | Some z => SInt z
           | None => if all_chars numeric_alphabet s then SOther else SNotNumeric
           end
  end.

(** An IEEE-754 double that is NaN or holds an integer. *)
Inductive Number : Type :=
  | NaN
  | Fin (z : Z).

(** Round an integer to the nearest double (53-bit significand, ties to
    even).  Integers below 2^53 in magnitude are doubles already. *)
Definition round_to_double (z : Z) : Z :=
  let a := Z.abs z in
  if (a <? 2 ^ 53)%Z then z
  else
    let e := (Z.log2 a - 52)%Z in
    let q := Z.shiftr a e in
    let r := Z.land a (Z.ones e) in
    let half := (2 ^ (e - 1))%Z in
    let q' := if (r <? half)%Z then q
              else if (half <? r)%Z then (q + 1)%Z
              else if Z.even q then q else (q + 1)%Z in
    (Z.sgn z * Z.shiftl q' e)%Z.

(** The integers that are doubles.  A number of the program is a double:
    a [JNum z] stands for a value of the program only if [is_double z]. *)
Definition is_double (z : Z) : bool := (round_to_double z =? z)%Z.

(** [StringToNumber]: the decimal value rounded to a double; literals that
    overflow the double range are left out. *)
Definition StringToNumber (s : string) : Exec Number :=
  match classify s with
  | SInt z => if (Z.abs z <? 2 ^ 1023)%Z then Ret (Fin (round_to_double z)) else Unmodelled
  | SNotNumeric => Ret NaN
  | SOther => Unmodelled
  end.

(** [StringToBigInt], as used by [BigInt(string)]: exact, and a SyntaxError
    where the string is no integer literal. *)
Definition StringToBigInt (s : string) : Exec Z :=
  match classify s with
  | SInt z => Ret z
  | SNotNumeric => Throw (SyntaxError ("Cannot convert " +:+ s +:+ " to a BigInt"))
  | SOther => Unmodelled
  end.

(** [ToNumber] *)
Definition ToNumber (v : JsValue) : Exec Number :=
  match v with
  | JUndefined => Ret NaN
  | JNull => Ret (Fin 0)
  | JBool b => Ret (Fin (if b then 1 else 0))
  | JNum z => if is_double z then Ret (Fin z) else Unmodelled
  | JStr s => StringToNumber s
  | JArr _ | JObj _ => Unmodelled
  end.

(** The abstract relational comparison [x < y]; [None] is the undefined
    result that a NaN operand produces.  Two strings are compared as
    strings (by code unit, which for ASCII text is the byte order), every
    other pair as numbers. *)
Definition IsLessThan (x y : JsValue) : Exec (option bool) :=
  match x, y with
  | JStr sx, JStr sy => Ret (Some (String.ltb sx sy))
  | _, _ =>
      nx ← ToNumber x; ny ← ToNumber y;
      Ret (match nx, ny with
           | Fin a, Fin b => Some (a <? b)%Z
           | _, _ => None
           end)
  end.

(** [x >= y] is "not (x < y)", and false when the comparison is undefined. *)
Definition js_ge (x y : JsValue) : Exec bool :=
  r ← IsLessThan x y; Ret (match r with Some false => true | _ => false end).

(** [x <= y] is "not (y < x)", and false when the comparison is undefined. *)
Definition js_le (x y : JsValue) : Exec bool :=
  r ← IsLessThan y x; Ret (match r with Some false => true | _ => false end).

(** ** Ajv: errors, keyword definitions and the keyword registry *)

(** One failure record of a validator (the instance path and the schema path
    of Ajv's error objects are not tracked). *)
Record ErrorObject : Type := mkError { keyword : string; message : string }.

Inductive JSONType : Type :=
  | TString | TNumber | TInteger | TBoolean | TNull | TObject | TArray.

(** The keyword code this file registers, one constructor per [code(cxt)]
    function of the source. *)
Inductive KeywordCode : Type :=
  | Code_x_empty
  | Code_x_range
  | Code_x_key
  | Code_readOnly.

(** A keyword definition as passed to [addKeyword]: the data types it applies
    to (none: all) and its code ([None]: the keyword was added by name only
    and validates nothing). *)
Record KeywordDefinition : Type := mkKeyword {
  kw_type : list JSONType;
  kw_code : option KeywordCode
}.

Definition annotation : KeywordDefinition := mkKeyword [] None.

Record Ajv : Type := mkAjv {
  allErrors : bool;
  RULES : gmap string KeywordDefinition
}.

(** [ajv.addKeyword]: defining a keyword twice throws. *)
Definition addKeyword (kw : string) (def : KeywordDefinition) (ajv : Ajv) : Exec Ajv :=
  match RULES ajv !! kw with
  | Some _ => Throw (Error ("Keyword " +:+ kw +:+ " is already defined"))
  | None => Ret (mkAjv (allErrors ajv) (<[kw := def]> (RULES ajv)))
  end.

(** [ajv.removeKeyword]: removing an unknown keyword does nothing. *)
Definition removeKeyword (kw : string) (ajv : Ajv) : Ajv :=
  mkAjv (allErrors ajv) (delete kw (RULES ajv)).

Fixpoint addKeywords (kws : list string) (ajv : Ajv) : Exec Ajv :=
  match kws with
  | [] => Ret ajv
  | kw :: rest => ajv' ← addKeyword kw annotation ajv; addKeywords rest ajv'
  end.

(** A fresh [new Ajv(options)]: the metadata vocabulary is predefined as
    annotations (the validation vocabulary is built into [compile_schema]
    below). *)
Definition new_Ajv (opt_allErrors : bool) : Ajv :=
  mkAjv opt_allErrors
    (list_to_map
       (map (fun kw => (kw, annotation))
          ["title"; "description"; "default"; "deprecated"; "readOnly";
           "writeOnly"; "examples"])).

(** The JSON type test Ajv guards a typed keyword with. *)
Definition has_type (t : JSONType) (data : JsValue) : bool :=
  match t, data with
  | TString, JStr _ => true
  | TNumber, JNum _ | TInteger, JNum _ => true
  | TBoolean, JBool _ => true
  | TNull, JNull => true
  | TObject, JObj _ => true
  | TArray, JArr _ => true
  | _, _ => false
  end.

Definition applies (types : list JSONType) (data : JsValue) : bool :=
  match types with
  | [] => true
  | _ => existsb (fun t => has_type t data) types
  end.

(** [cxt.pass(condition)]: report the keyword's error unless the condition
    holds. *)
Definition pass (err : ErrorObject) (condition : bool) : list ErrorObject :=
  if condition then [] else [err].

(** ** Keyword code registered by the validator *)

Definition dquote : string := String (ascii_of_nat 34) EmptyString.

(** *** x-empty (constructor) *)

Definition x_empty_error : ErrorObject :=
  mkError "x-empty"
    ("An " +:+ dquote +:+ "empty" +:+ dquote +:+ " value must be represented as "
       +:+ dquote +:+ "[null]" +:+ dquote +:+ ", See RFC7951").

(** [cxt.pass(data.length===1 && data[0]===null)] *)
Definition x_empty (data : JsValue) : Exec (list ErrorObject) :=
  match data with
  | JArr items =>
      Ret (pass x_empty_error
             ((length items =? 1)%nat && strict_eq (nth 0 items JUndefined) JNull))
  | _ => Unmodelled
  end.

(** *** x-range (constructor) *)

(** What the generated variable [num] can hold. *)
Inductive Local : Type :=
  | LData (v : JsValue)
  | LNumber (n : Number)
  | LBigInt (z : Z).

(** [data >= range.min && data <= range.max] *)
Definition in_range (data range : JsValue) : Exec bool :=
  lo ← GetV range "min";
  ge ← js_ge data lo;
  if ge : bool then hi ← GetV range "max"; js_le data hi else Ret false.

(** [for (const range of schemaValue) if (...) { valid = true; break }] *)
Fixpoint x_range_loop (data : JsValue) (ranges : list JsValue) (valid : bool)
  : Exec bool :=
  match ranges with
  | [] => Ret valid
  | range :: rest =>
      hit ← in_range data range;
      if hit : bool then Ret true else x_range_loop data rest valid
  end.

(** [schemaValue.map(range => range.min + ' .. ' + range.max).join(' | ')] *)
Fixpoint ranges_text (ranges : list JsValue) : Exec string :=
  match ranges with
  | [] => Ret ""
  | range :: rest =>
      lo ← GetV range "min"; hi ← GetV range "max";
      a ← js_concat lo (JStr " .. "); b ← js_concat a hi; s ← ToString b;
      match rest with
      | [] => Ret s
      | _ => t ← ranges_text rest; Ret (s +:+ " | " +:+ t)
      end
  end.

Definition x_range_error (data : JsValue) (ranges : list JsValue) : Exec ErrorObject :=
  d ← ToString data; t ← ranges_text ranges;
  Ret (mkError "x-range"
         ("Value " +:+ d +:+ " does not meet the range restrictions: " +:+ t)).

(** The generated code of the keyword: [num] receives the converted value,
    the loop compares [data]. *)
Definition x_range (schemaValue parentSchema data : JsValue) : Exec (list ErrorObject) :=
  let valid := false in
  let num := LData data in
  num ← match data with
        | JStr s =>
            xType ← GetV parentSchema "x-type";
            if strict_eq xType (JStr "int64") || strict_eq xType (JStr "uint64")
            then z ← StringToBigInt s; Ret (LBigInt z)
            else n ← StringToNumber s; Ret (LNumber n)
        | _ => Ret num
        end;
  match schemaValue with
  | JArr ranges =>
      valid ← x_range_loop data ranges valid;
      if valid : bool then Ret []
      else err ← x_range_error data ranges; Ret [err]
  | _ => Unmodelled
  end.

(** *** x-key (validate, validateResponse) *)

Definition x_key_missing (key : string) : ErrorObject :=
  mkError "x-key" ("Key '" +:+ key +:+ "' is not present in array item").

Definition x_key_redundant (id : string) : ErrorObject :=
  mkError "x-key" ("Array item has redundant key '" +:+ id +:+ "'").

(** The inner loop [for (const i in keys)] on one item, entered at index [i]
    with the identifier built so far.  It ends with the identifier and, when
    it was left through the missing-key branch, that branch's error. *)
Fixpoint x_key_id (item : JsValue) (keys : list string) (i : nat) (id : JsValue)
  : Exec (JsValue * option ErrorObject) :=
  match keys with
  | [] => Ret (id, None)
  | key :: rest =>
      v ← Get item key;
      if is_nullish v then Ret (id, Some (x_key_missing key))
      else
        id' ← (if (i =? 0)%nat then Ret v
               else t ← js_concat id (JStr ","); js_concat t v);
        x_key_id item rest (S i) id'
  end.

(** [idSet.has(id)] *)
Definition Set_has (idSet : list JsValue) (id : JsValue) : bool :=
  existsb (strict_eq id) idSet.

(** The outer loop [for (const item of data)].  Without [allErrors] the
    first reported error is returned at once; with [allErrors] errors
    accumulate, the missing-key branch only leaves the inner loop and the
    redundant-key branch leaves the outer one. *)
Fixpoint x_key_items (all : bool) (keys : list string) (items idSet : list JsValue)
  : Exec (list ErrorObject) :=
  match items with
  | [] => Ret []
  | item :: rest =>
      r ← x_key_id item keys 0 (JStr "");
      match r.2, all with
      | Some e, false => Ret [e]
      | missing, _ =>
          let errs := option_list missing in
          if Set_has idSet r.1
          then s ← ToString r.1; Ret (errs ++ [x_key_redundant s])%list
          else more ← x_key_items all keys rest (r.1 :: idSet); Ret (errs ++ more)%list
      end
  end.

Definition x_key (all : bool) (schema data : JsValue) : Exec (list ErrorObject) :=
  match schema, data with
  | JStr s, JArr items => x_key_items all (split_on "," s) items []
  | _, _ => Unmodelled
  end.

(** *** readOnly (validate, write methods): [cxt.error()] *)

Definition readOnly_error : ErrorObject :=
  mkError "readOnly"
    ("must pass " +:+ dquote +:+ "readOnly" +:+ dquote +:+ " keyword validation").

Definition run_code (all : bool) (c : KeywordCode) (schemaValue parentSchema data : JsValue)
  : Exec (list ErrorObject) :=
  match c with
  | Code_x_empty => x_empty data
  | Code_x_range => x_range schemaValue parentSchema data
  | Code_x_key => x_key all schemaValue data
  | Code_readOnly => Ret [readOnly_error]
  end.

(** One rule of a keyword applied to a value, as the registry defines it
    at the time of compilation: the code of the keyword, run on a value of
    one of its types.  A keyword that is registered for several types has
    one rule in the group of each type, and the validator of a schema runs
    the rule of every group whose type the value has ([run_group] below);
    the type of the annotation is checked when the schema is compiled
    ([check_schemaTypes] below). *)
Definition keyword_eval (ajv : Ajv) (kw : string) (schemaValue parentSchema data : JsValue)
  : Exec (list ErrorObject) :=
  match RULES ajv !! kw with
  | None => Unmodelled
  | Some def =>
      match kw_code def with
      | None => Ret []
      | Some c =>
          if applies (kw_type def) data
          then run_code (allErrors ajv) c schemaValue parentSchema data
          else Ret []
      end
  end.

(** ** Ajv: compiling and running a schema *)

(** Sequencing of two checks: without [allErrors] the validator returns at
    the first error. *)
Definition and_then (all : bool) (first : Exec (list ErrorObject))
    (next : Exec (list ErrorObject)) : Exec (list ErrorObject) :=
  e1 ← first;
  match e1, all with
  | _ :: _, false => Ret e1
  | _, _ => e2 ← next; Ret (e1 ++ e2)%list
  end.

Fixpoint all_of (all : bool) (checks : list (Exec (list ErrorObject)))
  : Exec (list ErrorObject) :=
  match checks with
  | [] => Ret []
  | check :: rest => and_then all check (all_of all rest)
  end.

(** The keywords of Ajv's draft-07 vocabularies that are given a meaning
    here, and the ones that are not: a schema that uses one of the latter
    is outside the model. *)
Definition modelled_vocabulary : list string :=
  ["type"; "required"; "properties"; "items"].

Definition unmodelled_vocabulary : list string :=
  ["$schema"; "$id"; "$defs"; "$vocabulary"; "$comment"; "definitions"; "id"; "$ref";
   "maximum"; "minimum"; "exclusiveMaximum"; "exclusiveMinimum"; "multipleOf";
   "maxLength"; "minLength"; "pattern"; "maxProperties"; "minProperties";
   "maxItems"; "minItems"; "uniqueItems"; "nullable"; "const"; "enum";
   "not"; "anyOf"; "oneOf"; "allOf"; "if"; "then"; "else"; "propertyNames";
   "additionalProperties"; "dependencies"; "patternProperties";
   "additionalItems"; "contains"; "format";
   "contentMediaType"; "contentEncoding"; "contentSchema"].

Definition mem (k : string) (l : list string) : bool := existsb (String.eqb k) l.

Definition JSONType_of_name (t : string) : option JSONType :=
  if t =? "object" then Some TObject
  else if t =? "array" then Some TArray
  else if t =? "string" then Some TString
  else if t =? "integer" then Some TInteger
  else if t =? "number" then Some TNumber
  else if t =? "boolean" then Some TBoolean
  else if t =? "null" then Some TNull
  else None.

Definition JSONType_eqb (a b : JSONType) : bool :=
  match a, b with
  | TString, TString | TNumber, TNumber | TInteger, TInteger | TBoolean, TBoolean
  | TNull, TNull | TObject, TObject | TArray, TArray => true
  | _, _ => false
  end.

(** The rule groups of an Ajv instance, in the order the generated code
    visits them: the group of untyped rules, the four groups every instance
    starts with, and the groups that the typed keywords of this file add
    ("integer" by x-range in the constructor, "boolean" and "null" by
    readOnly). *)
Definition rule_groups : list (option JSONType) :=
  [None; Some TNumber; Some TString; Some TArray; Some TObject;
   Some TInteger; Some TBoolean; Some TNull].

(** The vocabulary rules of a group that are modelled, in the order Ajv
    registers them. *)
Definition vocabulary_rules (g : option JSONType) : list string :=
  match g with
  | Some TObject => ["required"; "properties"]
  | Some TArray => ["items"]
  | _ => []
  end.

(** The keywords with code that this file registers, in the order they are
    registered: x-empty and x-range by the constructor, readOnly and then
    x-key by every call of [validate] (and x-key again, last, by
    [validateResponse]). *)
Definition registration_order : list string :=
  ["x-empty"; "x-range"; "readOnly"; "x-key"].

Definition in_group (g : option JSONType) (def : KeywordDefinition) : bool :=
  match kw_code def, g with
  | None, _ => false
  | Some _, None => match kw_type def with [] => true | _ => false end
  | Some _, Some t => existsb (JSONType_eqb t) (kw_type def)
  end.

(** [schema[keyword] !== undefined] *)
Definition uses (keywords : list (string * JsValue)) (kw : string) : bool :=
  negb (strict_eq (obj_get keywords kw) JUndefined).

(** The registered rules of group [g] that the schema uses. *)
Definition registered_rules (ajv : Ajv) (keywords : list (string * JsValue))
    (g : option JSONType) : list string :=
  List.filter (fun kw => match RULES ajv !! kw with
                    | Some def => in_group g def && uses keywords kw
                    | None => false
                    end) registration_order.

(** [shouldUseGroup] *)
Definition group_used (ajv : Ajv) (keywords : list (string * JsValue))
    (g : option JSONType) : bool :=
  existsb (uses keywords) (vocabulary_rules g)
  || match registered_rules ajv keywords g with [] => false | _ => true end.

(** The [schemaType] each keyword code is registered with, and the test
    Ajv makes on the annotation when it generates the code. *)
Definition code_schemaType (c : KeywordCode) : string :=
  match c with
  | Code_x_empty | Code_readOnly => "boolean"
  | Code_x_range => "array"
  | Code_x_key => "string"
  end.

Definition validSchemaType (c : KeywordCode) (schemaValue : JsValue) : bool :=
  match c, schemaValue with
  | Code_x_empty, JBool _ | Code_readOnly, JBool _ => true
  | Code_x_range, JArr _ => true
  | Code_x_key, JStr _ => true
  | _, _ => false
  end.

Definition schemaType_error (kw : string) (c : KeywordCode) : JsError :=
  Error (kw +:+ " value must be [" +:+ dquote +:+ code_schemaType c +:+ dquote +:+ "]").

Definition unknown_keyword (kw : string) : JsError :=
  Error ("strict mode: unknown keyword: " +:+ dquote +:+ kw +:+ dquote).

(** [checkUnknownRules] in strict mode, over the keys of one schema object
    in their order.  A keyword of the vocabulary that is not modelled, or a
    keyword with code whose place in its rule group is not known, puts the
    schema outside the model. *)
Fixpoint checkUnknownRules (ajv : Ajv) (keywords : list (string * JsValue)) : Exec unit :=
  match keywords with
  | [] => Ret tt
  | (kw, _) :: rest =>
      if mem kw modelled_vocabulary then checkUnknownRules ajv rest
      else if mem kw unmodelled_vocabulary then Unmodelled
      else
        match RULES ajv !! kw with
        | None => Throw (unknown_keyword kw)
        | Some def =>
            match kw_code def with
            | Some _ =>
                if mem kw registration_order then checkUnknownRules ajv rest
                else Unmodelled
            | None => checkUnknownRules ajv rest
            end
        end
  end.

(** The check of the annotation of each registered rule of a group, made
    when the code of the rule is generated. *)
Fixpoint check_schemaTypes (ajv : Ajv) (keywords : list (string * JsValue))
    (kws : list string) : Exec unit :=
  match kws with
  | [] => Ret tt
  | kw :: rest =>
      match RULES ajv !! kw with
      | Some (mkKeyword _ (Some c)) =>
          if validSchemaType c (obj_get keywords kw)
          then check_schemaTypes ajv keywords rest
          else Throw (schemaType_error kw c)
      | _ => check_schemaTypes ajv keywords rest
      end
  end.

(** The declared type of a schema object: none, or one type name.  A list
    of type names is not modelled. *)
Definition schema_type (keywords : list (string * JsValue)) : Exec (option (string * JSONType)) :=
  match obj_get keywords "type" with
  | JUndefined => Ret None
  | JStr t => match JSONType_of_name t with
              | Some ty => Ret (Some (t, ty))
              | None => Unmodelled
              end
  | _ => Unmodelled
  end.

Definition type_error (t : string) : ErrorObject := mkError "type" ("must be " +:+ t).

(** The four groups whose rules carry the type check of a schema that
    declares exactly that type. *)
Definition core_group (t : JSONType) : bool :=
  match t with
  | TNumber | TString | TArray | TObject => true
  | _ => false
  end.

(** [required]: every listed property of an object must be defined. *)
Fixpoint check_required (all : bool) (names : list JsValue) (data : JsValue)
  : Exec (list ErrorObject) :=
  match names with
  | [] => Ret []
  | JStr name :: rest =>
      and_then all
        (v ← Get data name;
         Ret (pass (mkError "required" ("must have required property '" +:+ name +:+ "'"))
                (negb (strict_eq v JUndefined))))
        (check_required all rest data)
  | _ :: _ => Unmodelled
  end.

Fixpoint strings_of (names : list JsValue) : option (list string) :=
  match names with
  | [] => Some []
  | JStr s :: rest => option_map (cons s) (strings_of rest)
  | _ :: _ => None
  end.

Fixpoint distinct (l : list string) : bool :=
  match l with
  | [] => true
  | x :: rest => negb (mem x rest) && distinct rest
  end.

(** The meta-schema asks for a list of distinct strings. *)
Definition valid_required (sv : JsValue) : bool :=
  match sv with
  | JArr names => match strings_of names with
                  | Some l => distinct l
                  | None => false
                  end
  | _ => false
  end.

(** What [compile] has generated for the subschemas of one schema object:
    one validator per property of [properties], one for [items]. *)
Definition ValidateFunction : Type := JsValue -> Exec (list ErrorObject).

(** [properties]: a property that is present is validated against its
    subschema. *)
Fixpoint run_properties (all : bool) (subs : list (string * ValidateFunction))
    (data : JsValue) : Exec (list ErrorObject) :=
  match subs with
  | [] => Ret []
  | (name, validator) :: rest =>
      and_then all
        (v ← Get data name;
         if strict_eq v JUndefined then Ret [] else validator v)
        (run_properties all rest data)
  end.

(** [items]: every element is validated against the subschema. *)
Fixpoint run_items (all : bool) (validator : ValidateFunction) (elements : list JsValue)
  : Exec (list ErrorObject) :=
  match elements with
  | [] => Ret []
  | d :: rest => and_then all (validator d) (run_items all validator rest)
  end.

(** One rule of a group applied to a value of the type of the group. *)
Definition run_rule (ajv : Ajv) (keywords : list (string * JsValue))
    (properties : list (string * ValidateFunction)) (items : ValidateFunction)
    (rule : string) (data : JsValue) : Exec (list ErrorObject) :=
  if rule =? "required" then
    match obj_get keywords "required" with
    | JArr names => check_required (allErrors ajv) names data
    | _ => Unmodelled
    end
  else if rule =? "properties" then run_properties (allErrors ajv) properties data
  else if rule =? "items" then
    match data with
    | JArr elements => run_items (allErrors ajv) items elements
    | _ => Ret []
    end
  else keyword_eval ajv rule (obj_get keywords rule) (JObj keywords) data.

(** The code generated for one rule group: the rules run on a value of the
    type of the group; for a value of another type the group reports the
    type error when it is the group of the one declared type. *)
Definition run_group (ajv : Ajv) (keywords : list (string * JsValue))
    (properties : list (string * ValidateFunction)) (items : ValidateFunction)
    (declared : option (string * JSONType)) (g : option JSONType) (data : JsValue)
  : Exec (list ErrorObject) :=
  if group_used ajv keywords g then
    let rules := (List.filter (uses keywords) (vocabulary_rules g)
                    ++ registered_rules ajv keywords g)%list in
    let run := all_of (allErrors ajv)
                 (map (fun rule => run_rule ajv keywords properties items rule data) rules) in
    match g with
    | None => run
    | Some t =>
        if has_type t data then run
        else
          match declared with
          | Some (name, ty) =>
              if JSONType_eqb ty t && core_group t then Ret [type_error name] else Ret []
          | None => Ret []
          end
    end
  else Ret [].

(** The type check made before the groups, unless the group of the one
    declared type makes it. *)
Definition check_type (ajv : Ajv) (keywords : list (string * JsValue))
    (declared : option (string * JSONType)) (data : JsValue) : list ErrorObject :=
  match declared with
  | Some (name, ty) =>
      if core_group ty && group_used ajv keywords (Some ty) then []
      else pass (type_error name) (has_type ty data)
  | None => []
  end.

Definition run_schema (ajv : Ajv) (keywords : list (string * JsValue))
    (properties : list (string * ValidateFunction)) (items : ValidateFunction)
    (declared : option (string * JSONType)) : ValidateFunction :=
  fun data =>
    and_then (allErrors ajv) (Ret (check_type ajv keywords declared data))
      (all_of (allErrors ajv)
         (map (fun g => run_group ajv keywords properties items declared g data)
            rule_groups)).

Definition false_schema : ErrorObject := mkError "false schema" "boolean schema is false".

(** The code Ajv generates for a schema and its subschemas, with the
    keyword definitions of [ajv].  The outer [Exec] is the compilation: it
    throws for a keyword that is not known and for an annotation of the
    wrong type, in the order Ajv meets them (the keys of the schema object
    first, then group by group, the subschema of [items] in the array group
    and the ones of [properties] in the object group). *)
Fixpoint compile_schema (ajv : Ajv) (schema : JsValue) {struct schema}
  : Exec ValidateFunction :=
  match schema with
  | JBool true => Ret (fun _ => Ret [])
  | JBool false => Ret (fun _ => Ret [false_schema])
  | JObj keywords =>
      let subschemas :=
        (fix each_keyword (kws : list (string * JsValue))
           : option (Exec (list (string * ValidateFunction)))
             * option (Exec ValidateFunction) :=
           match kws with
           | [] => (None, None)
           | (kw, sv) :: rest =>
               let found := each_keyword rest in
               if kw =? "properties" then
                 (Some match sv with
                       | JObj subs =>
                           (fix each_property (subs : list (string * JsValue))
                              : Exec (list (string * ValidateFunction)) :=
                              match subs with
                              | [] => Ret []
                              | (name, sub) :: subs' =>
                                  validator ← compile_schema ajv sub;
                                  others ← each_property subs';
                                  Ret ((name, validator) :: others)
                              end) subs
                       | _ => Unmodelled
                       end, found.2)
               else if kw =? "items" then
                 (found.1, Some match sv with
                                | JArr _ => Unmodelled
                                | _ => compile_schema ajv sv
                                end)
               else found
           end) keywords in
      _ ← checkUnknownRules ajv keywords;
      declared ← schema_type keywords;
      _ ← (if uses keywords "required" && negb (valid_required (obj_get keywords "required"))
           then Unmodelled else Ret tt);
      _ ← check_schemaTypes ajv keywords (registered_rules ajv keywords None);
      _ ← check_schemaTypes ajv keywords (registered_rules ajv keywords (Some TNumber));
      _ ← check_schemaTypes ajv keywords (registered_rules ajv keywords (Some TString));
      items ← default (Ret (fun _ => Ret [])) subschemas.2;
      _ ← check_schemaTypes ajv keywords (registered_rules ajv keywords (Some TArray));
      properties ← default (Ret []) subschemas.1;
      _ ← check_schemaTypes ajv keywords (registered_rules ajv keywords (Some TObject));
      _ ← check_schemaTypes ajv keywords (registered_rules ajv keywords (Some TInteger));
      _ ← check_schemaTypes ajv keywords (registered_rules ajv keywords (Some TBoolean));
      _ ← check_schemaTypes ajv keywords (registered_rules ajv keywords (Some TNull));
      Ret (run_schema ajv keywords properties items declared)
  | _ => Unmodelled
  end.

(** The schemas that pass the validation against the meta-schema which
    [compile] makes first, as far as this development can tell: the
    keywords of the vocabulary are the modelled ones and their annotations,
    and those of the metadata keywords, have the shape the meta-schema asks
    for.  What an ill-shaped schema makes [compile] throw is not modelled. *)
Fixpoint well_shaped (schema : JsValue) {struct schema} : bool :=
  match schema with
  | JBool _ => true
  | JObj keywords =>
      (fix each_keyword (kws : list (string * JsValue)) : bool :=
         match kws with
         | [] => true
         | (kw, sv) :: rest =>
             (if kw =? "type" then
                match sv with
                | JStr t => match JSONType_of_name t with Some _ => true | None => false end
                | _ => false
                end
              else if kw =? "required" then valid_required sv
              else if kw =? "properties" then
                match sv with
                | JObj subs =>
                    (fix each_property (subs : list (string * JsValue)) : bool :=
                       match subs with
                       | [] => true
                       | (_, sub) :: subs' => well_shaped sub && each_property subs'
                       end) subs
                | _ => false
                end
              else if kw =? "items" then
                match sv with
                | JArr _ => false
                | _ => well_shaped sv
                end
              else if (kw =? "title") || (kw =? "description") then
                match sv with JStr _ => true | _ => false end
              else if (kw =? "readOnly") || (kw =? "writeOnly") || (kw =? "deprecated") then
                match sv with JBool _ => true | _ => false end
              else if kw =? "examples" then
                match sv with JArr _ => true | _ => false end
              else negb (mem kw unmodelled_vocabulary))
             && each_keyword rest
         end) keywords
  | _ => false
  end.

(** [ajv.compile(schema)]: the validator closes over the keyword definitions
    that are registered when it is compiled. *)
Definition compile (ajv : Ajv) (schema : JsValue) : Exec ValidateFunction :=
  match schema with
  | JUndefined | JNum _ | JStr _ => Throw (Error "schema must be object or boolean")
  | _ => if well_shaped schema then compile_schema ajv schema else Unmodelled
  end.

(** ** resolveResponse *)

Record ResolvedResponse : Type := mkResolved {
  statusCode : Z;
  body : JsValue;
  headers : JsValue
}.

Definition resolveResponse (res : JsValue) : Exec ResolvedResponse :=
  if is_nullish res then
    s ← ToString res; Throw (TypeError ("Response was " +:+ s))
  else
    sc ← GetV res "statusCode";
    code ← (if truthy sc then Ret sc else GetV res "status");
    statusCodeNum ← ToNumber code;
    let statusCode := match statusCodeNum with NaN => None | Fin z => Some z end in
    b ← GetV res "body";
    body ← (if truthy b then Ret b else GetV res "data");
    headers ← GetV res "headers";
    match statusCode with
    | Some statusCode =>
        if is_nullish body || is_nullish headers
        then Throw (TypeError "statusCode, body or header values not found from response")
        else Ret (mkResolved statusCode body headers)
    | None => Throw (TypeError "statusCode, body or header values not found from response")
    end.

(** ** semver.satisfies(version, "^3.0.0") *)

Record SemVer : Type := mkSemVer {
  major : Z; minor : Z; patch : Z;
  prerelease : list string;
  build : list string
}.

Definition MAX_SAFE_INTEGER : Z := 9007199254740991.

(** [0|[1-9]\d*], at most [MAX_SAFE_INTEGER]. *)
Definition numeric_identifier (s : string) : option Z :=
  match s with
  | EmptyString => None
  | String c rest =>
      if Ascii.eqb c "0" && negb (rest =? "") then None
      else match parse_digits s 0 with
           | Some z => if (z <=? MAX_SAFE_INTEGER)%Z then Some z else None
           | None => None
           end
  end.

(** [[0-9A-Za-z-]] *)
Definition identifier_char (c : ascii) : bool :=
  let n := nat_of_ascii c in
  ((48 <=? n) && (n <=? 57) || (65 <=? n) && (n <=? 90) ||
   (97 <=? n) && (n <=? 122) || (n =? 45))%nat.

Definition build_identifier (s : string) : bool :=
  negb (s =? "") && all_chars identifier_char s.

(** A numeric identifier, or [\d*[a-zA-Z-][a-zA-Z0-9-]*]. *)
Definition prerelease_identifier (s : string) : bool :=
  build_identifier s &&
  match parse_digits s 0 with
  | Some _ => match numeric_identifier s with Some _ => true | None => false end
  | None => true
  end.

(** The part of [s] before the first [sep], and the part after it if any. *)
Fixpoint break_at (sep : ascii) (s : string) : string * option string :=
  match s with
  | EmptyString => (EmptyString, None)
  | String c rest =>
      if Ascii.eqb c sep then (EmptyString, Some rest)
      else let r := break_at sep rest in (String c r.1, r.2)
  end.

(** [new SemVer(s)] in strict mode, [None] where it throws; [s] holds no
    white space to trim. *)
Definition parse_SemVer (s : string) : option SemVer :=
  if (256 <? String.length s)%nat then None
  else
    let s := match s with
             | String c rest => if Ascii.eqb c "v" then rest else s
             | _ => s
             end in
    let (front, bld) := break_at "+" s in
    let (core, pre) := break_at "-" front in
    match split_on "." core with
    | [a; b; c] =>
        match numeric_identifier a, numeric_identifier b, numeric_identifier c with
        | Some ma, Some mi, Some pa =>
            let pres := match pre with Some p => split_on "." p | None => [] end in
            let blds := match bld with Some p => split_on "." p | None => [] end in
            if forallb prerelease_identifier pres && forallb build_identifier blds
            then Some (mkSemVer ma mi pa pres blds)
            else None
        | _, _, _ => None
        end
    | _ => None
    end.

(** Precedence of the main version triple. *)
Definition compareMain (a b : SemVer) : comparison :=
  match (major a ?= major b)%Z with
  | Eq => match (minor a ?= minor b)%Z with
          | Eq => (patch a ?= patch b)%Z
          | c => c
          end
  | c => c
  end.

(** The range [^3.0.0] is the comparator set [>=3.0.0 <4.0.0-0].  A version
    with a prerelease tag satisfies a comparator set only if some comparator
    with a prerelease tag has its main triple; the only such comparator is
    [4.0.0-0], and no prerelease of 4.0.0 is below [4.0.0-0].  A release
    version is below [4.0.0-0] exactly when its main triple is below 4.0.0. *)
Definition satisfies_caret_3_0_0 (v : SemVer) : bool :=
  match prerelease v with
  | [] =>
      match compareMain v (mkSemVer 3 0 0 [] []) with Lt => false | _ => true end &&
      match compareMain v (mkSemVer 4 0 0 ["0"] []) with Lt => true | _ => false end
  | _ :: _ => false
  end.

Definition no_white_space (s : string) : bool :=
  all_chars (fun c => (32 <? nat_of_ascii c)%nat && (nat_of_ascii c <? 128)%nat) s.

(** [semver.satisfies(version, "^3.0.0")]: false for a falsy or unparsable
    version. *)
Definition semver_satisfies (version : JsValue) : Exec bool :=
  if negb (truthy version) then Ret false
  else match version with
       | JStr s =>
           if no_white_space s
           then Ret (match parse_SemVer s with
                     | Some v => satisfies_caret_3_0_0 v
                     | None => false
                     end)
           else Unmodelled
       | _ => Unmodelled
       end.

(** ** The validator instance and its constructor *)

Record ValidatorConfig : Type := mkConfig {
  ajvOptions_allErrors : bool;
  option_disallowAdditionalPropertiesByDefault : JsValue
}.

Record OpenApiValidator : Type := mkValidator {
  _ajv : Ajv;
  _document : JsValue;
  disallowAdditionalPropertiesByDefault : bool
}.

Definition ignoredExtensionKeywords : list string :=
  ["x-identity"; "x-fraction-digits"; "x-length"; "x-mandatory"; "x-anyxml";
   "x-anydata"; "x-choice"; "x-path"; "x-augmentation"; "x-type"; "x-union";
   "x-unions"; "x-choices"].

Definition x_empty_keyword : KeywordDefinition := mkKeyword [TArray] (Some Code_x_empty).
Definition x_range_keyword : KeywordDefinition :=
  mkKeyword [TString; TInteger] (Some Code_x_range).
Definition x_key_keyword : KeywordDefinition := mkKeyword [TArray] (Some Code_x_key).
Definition readOnly_keyword : KeywordDefinition :=
  mkKeyword [TString; TNumber; TInteger; TBoolean; TNull; TObject; TArray]
    (Some Code_readOnly).

(** The Ajv instance the constructor sets up: [new Ajv(ajvOptions)] and the
    [addKeyword] calls that follow it. *)
Definition constructor_ajv (opt_allErrors : bool) : Exec Ajv :=
  let ajv := new_Ajv opt_allErrors in
  ajv ← addKeywords ["example"; "xml"; "externalDocs"] ajv;
  ajv ← addKeywords ignoredExtensionKeywords ajv;
  ajv ← addKeyword "x-empty" x_empty_keyword ajv;
  addKeyword "x-range" x_range_keyword ajv.

Definition constructor (openApiDocument : JsValue) (options : ValidatorConfig)
  : Exec OpenApiValidator :=
  openapi ← GetV openApiDocument "openapi";
  supported ← semver_satisfies openapi;
  if negb supported then
    version ← (if truthy openapi then Ret openapi else GetV openApiDocument "swagger");
    s ← ToString version;
    Throw (Error ("Unsupported OpenAPI / Swagger version=" +:+ s))
  else
    ajv ← constructor_ajv (ajvOptions_allErrors options);
    Ret (mkValidator ajv openApiDocument
           (strict_eq (option_disallowAdditionalPropertiesByDefault options) (JBool true))).

(** ** validate, validateResponse and their helpers *)

(** What a handler tells express: [next()] or [next(err)] with a
    ValidationError that carries the failure records. *)
Inductive Outcome : Type :=
  | Next
  | NextError (errors : list ErrorObject).

(** lodash [_.isEmpty] *)
Definition lodash_isEmpty (v : JsValue) : bool :=
  match v with
  | JUndefined | JNull | JBool _ | JNum _ => true
  | JStr s => s =? ""
  | JArr items => match items with [] => true | _ => false end
  | JObj props => match props with [] => true | _ => false end
  end.

(** [Object.keys(v).length] *)
Definition Object_keys_length (v : JsValue) : Exec nat :=
  match v with
  | JUndefined | JNull => Throw (TypeError "Cannot convert undefined or null to object")
  | JBool _ | JNum _ => Ret 0%nat
  | JStr s => Ret (String.length s)
  | JArr items => Ret (length items)
  | JObj props => Ret (length props)
  end.

(** The properties an object spread [{...v}] copies. *)
Definition spread_of (v : JsValue) : Exec (list (string * JsValue)) :=
  match v with
  | JObj props => Ret props
  | JUndefined | JNull | JBool _ | JNum _ => Ret []
  | JStr _ | JArr _ => Unmodelled
  end.

(** lodash [_.pick(object, ...keys)] *)
Fixpoint lodash_pick (props : list (string * JsValue)) (keys : list string)
  : list (string * JsValue) :=
  match keys with
  | [] => []
  | k :: rest =>
      match assoc k props with
      | Some v => (k, v) :: lodash_pick props rest
      | None => lodash_pick props rest
      end
  end.

Definition yang_path : list string :=
  ["content"; "application/yang-data+json"; "schema"].

Definition JStrings (l : list string) : JsValue := JArr (map JStr l).

(** The object literal [schema] of [validate] and the two pushes onto its
    [required] list. *)
Definition request_required (parametersSchema requestBodyObject : JsValue)
  : Exec (list string) :=
  let required := ["query"; "headers"; "params"] in
  cookies ← GetV parametersSchema "cookies";
  many ← (if negb (lodash_isEmpty cookies)
          then n ← Object_keys_length cookies; Ret (1 <? n)%nat
          else Ret false);
  let required := if many : bool then (required ++ ["cookies"])%list else required in
  declared ← lodash_get requestBodyObject ["required"] JUndefined;
  Ret (if strict_eq declared (JBool true) then (required ++ ["body"])%list else required).

Definition request_schema (body parametersSchema requestBodyObject : JsValue)
  : Exec JsValue :=
  fragments ← spread_of parametersSchema;
  required ← request_required parametersSchema requestBodyObject;
  Ret (JObj [("type", JStr "object");
             ("properties", JObj (obj_spread [("body", body)] fragments));
             ("required", JStrings required)]).

(** The keyword definitions [validate] installs for [method] before it
    compiles. *)
Definition validate_keywords (method : string) (ajv : Ajv) : Exec Ajv :=
  ajv ← (if (method =? "post") || (method =? "patch") || (method =? "put")
         then addKeyword "readOnly" readOnly_keyword (removeKeyword "readOnly" ajv)
         else addKeyword "readOnly" annotation (removeKeyword "readOnly" ajv));
  if method =? "patch"
  then addKeyword "x-key" annotation (removeKeyword "x-key" ajv)
  else addKeyword "x-key" x_key_keyword (removeKeyword "x-key" ajv).

(** The handler [validate] returns, given the compiled validator. *)
Definition request_handler (validator : ValidateFunction) (req : JsValue) : Exec Outcome :=
  picked ← (match req with
            | JObj props => Ret (lodash_pick props ["query"; "headers"; "params"; "body"])
            | _ => Unmodelled
            end);
  cookies ← GetV req "cookies";
  cookies ← (if truthy cookies
             then a ← spread_of cookies;
                  signed ← GetV req "signedCookies";
                  b ← spread_of signed;
                  Ret (JObj (obj_spread a b))
             else Ret JUndefined);
  let reqToValidate := JObj (obj_set "cookies" cookies picked) in
  errors ← validator reqToValidate;
  Ret (match errors with [] => Next | _ => NextError errors end).

Section Collaborators.

(** The imports of the source file that are not part of it. *)
Variable resolveReference : JsValue -> JsValue -> Exec JsValue.
Variable mapOasSchemaToJsonSchema : JsValue -> JsValue -> bool -> bool -> Exec JsValue.
Variable parameters_resolve : JsValue -> JsValue -> JsValue -> Exec JsValue.
Variable parameters_buildSchema : JsValue -> Exec JsValue.

Definition _getPathItemObject (this : OpenApiValidator) (path : string) : Exec JsValue :=
  found ← lodash_has (_document this) ["paths"; path];
  if found : bool then
    paths ← GetV (_document this) "paths"; GetV paths path
  else Throw (Error ("Path=" +:+ path +:+ " not found from OpenAPI document")).

Definition _getOperationObject (this : OpenApiValidator) (method path : string)
  : Exec JsValue :=
  found ← lodash_has (_document this) ["paths"; path; method];
  if found : bool then
    paths ← GetV (_document this) "paths";
    item ← GetV paths path;
    GetV item method
  else Throw (Error ("Path=" +:+ path +:+ " with method=" +:+ method
                       +:+ " not found from OpenAPI document")).

Definition _getResponseObject (this : OpenApiValidator) (op : JsValue) (statusCode : Z)
  : Exec JsValue :=
  statusCodeStr ← NumberToString statusCode;
  responseObject ← lodash_get op ["responses"; statusCodeStr] JNull;
  responseObject ←
    (if strict_eq responseObject JNull then
       let field := substring 0 1 statusCodeStr +:+ "XX" in
       lodash_get op ["responses"; field] JNull
     else Ret responseObject);
  responseObject ←
    (if strict_eq responseObject JNull
     then lodash_get op ["responses"; "default"] JNull
     else Ret responseObject);
  if strict_eq responseObject JNull then
    Throw (Error ("No response object found with statusCode=" +:+ statusCodeStr))
  else resolveReference (_document this) responseObject.

(** The request schema [validate] hands to the schema mapper. *)
Definition validate_schema_for (this : OpenApiValidator) (method path : string)
  : Exec JsValue :=
  pathItemObject ← _getPathItemObject this path;
  operation ← _getOperationObject this method path;
  declared ← lodash_get operation ["requestBody"] (JObj []);
  requestBodyObject ← resolveReference (_document this) declared;
  bodySchema ← lodash_get requestBodyObject yang_path (JObj []);
  pathParameters ← GetV pathItemObject "parameters";
  operationParameters ← GetV operation "parameters";
  params ← parameters_resolve (_document this) pathParameters operationParameters;
  parametersSchema ← parameters_buildSchema params;
  body ← resolveReference (_document this) bodySchema;
  request_schema body parametersSchema requestBodyObject.

Definition validate (this : OpenApiValidator) (method path : string)
  : Exec (OpenApiValidator * (JsValue -> Exec Outcome)) :=
  schema ← validate_schema_for this method path;
  jsonSchema ← mapOasSchemaToJsonSchema schema (_document this)
                 (disallowAdditionalPropertiesByDefault this)
                 ((method =? "put") || (method =? "post"));
  ajv ← validate_keywords method (_ajv this);
  validator ← compile ajv jsonSchema;
  Ret (mkValidator ajv (_document this) (disallowAdditionalPropertiesByDefault this),
       request_handler validator).

(** The instance a call of [validate] leaves behind, whether the call
    returns or throws: the keywords are replaced once the schema is mapped,
    and [compile], which comes last, can still throw. *)
Definition validate_leaves (this : OpenApiValidator) (method path : string)
  : OpenApiValidator :=
  match (schema ← validate_schema_for this method path;
         _ ← mapOasSchemaToJsonSchema schema (_document this)
               (disallowAdditionalPropertiesByDefault this)
               ((method =? "put") || (method =? "post"));
         validate_keywords method (_ajv this)) with
  | Ret ajv => mkValidator ajv (_document this) (disallowAdditionalPropertiesByDefault this)
  | _ => this
  end.

(** The handler [validateResponse] returns.  It reads [this._ajv] when it
    runs, so it takes the instance as it is at that time. *)
Definition response_handler (operation : JsValue) (this : OpenApiValidator)
    (req : JsValue) : Exec Outcome :=
  resolved ← resolveResponse req;
  responseObject ← _getResponseObject this operation (statusCode resolved);
  bodySchema ← lodash_get responseObject yang_path (JObj []);
  let headersSchema := JObj [("type", JStr "object"); ("properties", JObj [])] in
  bodySchema ← resolveReference (_document this) bodySchema;
  schema ← mapOasSchemaToJsonSchema
             (JObj [("type", JStr "object");
                    ("properties", JObj [("body", bodySchema); ("headers", headersSchema)]);
                    ("required", JStrings ["headers"; "body"])])
             (_document this) (disallowAdditionalPropertiesByDefault this) true;
  validator ← compile (_ajv this) schema;
  let response := JObj [("body", body resolved); ("headers", headers resolved)] in
  errors ← validator response;
  Ret (match errors with [] => Next | _ => NextError errors end).

Definition validateResponse (this : OpenApiValidator) (method path : string)
  : Exec (OpenApiValidator * (OpenApiValidator -> JsValue -> Exec Outcome)) :=
  operation ← _getOperationObject this method path;
  ajv ← addKeyword "x-key" x_key_keyword (removeKeyword "x-key" (_ajv this));
  Ret (mkValidator ajv (_document this) (disallowAdditionalPropertiesByDefault this),
       response_handler operation).

End Collaborators.


(** ** match *)

Fixpoint string_map (f : ascii -> ascii) (s : string) : string :=
  match s with
  | EmptyString => EmptyString
  | String c rest => String (f c) (string_map f rest)
  end.

Definition lower_ascii (c : ascii) : ascii :=
  let n := nat_of_ascii c in
  if (65 <=? n)%nat && (n <=? 90)%nat then ascii_of_nat (n + 32) else c.

(** [s.toLowerCase()] on ASCII text. *)
Definition toLowerCase (s : string) : Exec string :=
  if all_chars (fun c => (nat_of_ascii c <? 128)%nat) s
  then Ret (string_map lower_ascii s)
  else Unmodelled.

(** A key made of decimal digits; JavaScript lists integer keys before the
    other keys of an object, whatever the insertion order. *)
Definition integer_key (k : string) : bool :=
  negb (k =? "") && match parse_digits k 0 with Some _ => true | None => false end.

(** lodash [_.keys(object)]: the own keys in property order, which is the
    insertion order when no key is an integer. *)
Definition lodash_keys (object : JsValue) : Exec (list string) :=
  match object with
  | JUndefined | JNull => Ret []
  | JObj props =>
      if existsb (fun kv => integer_key kv.1) props then Unmodelled
      else Ret (map fst props)
  | _ => Unmodelled
  end.

(** The argument of [match]; [allowNoMatch] is read for its truth value. *)
Record MatchOptions : Type := mkMatchOptions { allowNoMatch : JsValue }.

(** What the handler of [match] tells express: [next()], [next(err)] with a
    ValidationError, or [next(err)] with a plain Error. *)
Inductive MatchOutcome : Type :=
  | MNext
  | MValidationError (errors : list ErrorObject)
  | MError (e : JsError).

Definition of_outcome (o : Outcome) : MatchOutcome :=
  match o with
  | Next => MNext
  | NextError errors => MValidationError errors
  end.

Section Match.

Variable resolveReference : JsValue -> JsValue -> Exec JsValue.
Variable mapOasSchemaToJsonSchema : JsValue -> JsValue -> bool -> bool -> Exec JsValue.
Variable parameters_resolve : JsValue -> JsValue -> JsValue -> Exec JsValue.
Variable parameters_buildSchema : JsValue -> Exec JsValue.

(** [pathToRegexp(oasPathToExpressPath(path))], as the test it yields on the
    value of [req.path]; both functions are imports of the source file. *)
Variable pathToRegexp : string -> Exec (JsValue -> bool).

(** [_.keys(...).map(path => ({path, regex}))] *)
Fixpoint path_regexps (templates : list string) : Exec (list (string * (JsValue -> bool))) :=
  match templates with
  | [] => Ret []
  | path :: rest =>
      regex ← pathToRegexp path;
      more ← path_regexps rest;
      Ret ((path, regex) :: more)
  end.

(** The handler [match] returns.  It calls [this.validate] when it runs, so
    it takes the instance as it is at that time and returns the instance it
    leaves behind. *)
Definition matchAndValidate (options : MatchOptions)
    (paths : list (string * (JsValue -> bool)))
    (this : OpenApiValidator) (req : JsValue)
  : Exec (OpenApiValidator * MatchOutcome) :=
  reqPath ← GetV req "path";
  let found := find (fun p => p.2 reqPath) paths in
  m ← GetV req "method";
  method ← (match m with
            | JStr s => toLowerCase s
            | JUndefined => Throw (TypeError "Cannot read properties of undefined")
            | JNull => Throw (TypeError "Cannot read properties of null")
            | _ => Throw (TypeError "req.method.toLowerCase is not a function")
            end);
  match found with
  | Some p =>
      r ← validate resolveReference mapOasSchemaToJsonSchema parameters_resolve
            parameters_buildSchema this method p.1;
      outcome ← r.2 req;
      Ret (r.1, of_outcome outcome)
  | None =>
      if negb (truthy (allowNoMatch options)) then
        s ← ToString reqPath;
        Ret (this, MError (Error ("Path=" +:+ s +:+ " with method=" +:+ method
                                    +:+ " not found from OpenAPI document")))
      else Ret (this, MNext)
  end.

Definition match_ (this : OpenApiValidator) (options : MatchOptions)
  : Exec (OpenApiValidator -> JsValue -> Exec (OpenApiValidator * MatchOutcome)) :=
  documentPaths ← GetV (_document this) "paths";
  templates ← lodash_keys documentPaths;
  paths ← path_regexps templates;
  Ret (matchAndValidate options paths).

End Match.
(** * Specification-side definitions and sample inputs *)

(** The keyword definitions in place when the constructor returns. *)
Definition constructed_RULES : gmap string KeywordDefinition :=
  <["x-range" := x_range_keyword]>
    (<["x-empty" := x_empty_keyword]>
       (list_to_map
          (map (fun kw => (kw, annotation))
             (["title"; "description"; "default"; "deprecated"; "readOnly";
               "writeOnly"; "examples"; "example"; "xml"; "externalDocs"]
                ++ ignoredExtensionKeywords)))).

Definition config_default : ValidatorConfig := mkConfig false JUndefined.

(** A minimal supported document and the instance constructed from it. *)
Definition doc_3_0_0 : JsValue := JObj [("openapi", JStr "3.0.0"); ("paths", JObj [])].

Definition new_3_0_0 : OpenApiValidator :=
  mkValidator (mkAjv false constructed_RULES) doc_3_0_0 false.

(** *** x-range as the specification words it *)

(** A range [{min, max}] with integer bounds. *)
Definition range_obj (r : Z * Z) : JsValue :=
  JObj [("min", JNum r.1); ("max", JNum r.2)].


Definition in_interval (r : Z * Z) (z : Z) : bool := (r.1 <=? z)%Z && (z <=? r.2)%Z.


Definition is_64bit_hint (xType : JsValue) : bool :=
  strict_eq xType (JStr "int64") || strict_eq xType (JStr "uint64").

(** The value is converted first (exactly, as a BigInt, under an [int64] or
    [uint64] type hint; as a Number otherwise) and it is the converted value
    that has to lie in one of the closed intervals. *)
Definition x_range_specified (xType : JsValue) (ranges : list (Z * Z)) (data : JsValue)
  : Exec bool :=
  match data with
  | JNum z => Ret (existsb (fun r => in_interval r z) ranges)
  | JStr s =>
      if is_64bit_hint xType
      then z ← StringToBigInt s; Ret (existsb (fun r => in_interval r z) ranges)
      else n ← StringToNumber s;
           Ret (match n with
                | Fin z => existsb (fun r => in_interval r z) ranges
                | NaN => false
                end)
  | _ => Unmodelled
  end.

Definition ranges_1_5_10_20 : list (Z * Z) := [(1, 5); (10, 20)]%Z.

(** A schema node [{type: string, x-type: int64, x-range: [{min: 0, max: 2^53}]}]. *)
Definition int64_parent : JsValue :=
  JObj [("type", JStr "string"); ("x-type", JStr "int64");
        ("x-range", JArr [range_obj (0, 9007199254740992)%Z])].

(** *** x-key: the walk over the elements of a keyed list *)

(** The primitive values that have a text: undefined, null, a boolean, a
    string, or an integer that prints in plain decimal notation. *)
Definition key_leaf (v : JsValue) : bool :=
  match v with
  | JUndefined | JNull | JBool _ | JStr _ => true
  | JNum z => (Z.abs z <? 10 ^ 21)%Z
  | JArr _ | JObj _ => false
  end.

(** The values of key fields: a missing or null field, a boolean, a string,
    or a safe integer (a double that prints as its exact decimal digits). *)
Definition key_value (v : JsValue) : bool :=
  match v with
  | JNum z => (Z.abs z <=? MAX_SAFE_INTEGER)%Z
  | _ => key_leaf v
  end.

(** An array element that is an object whose key fields hold key values,
    for key names that no object inherits from [Object.prototype]. *)
Definition keyed_item (keys : list string) (item : JsValue) : bool :=
  match item with
  | JObj props => forallb (fun k => negb (inherited k) && key_value (obj_get props k)) keys
  | _ => false
  end.

Definition fields (item : JsValue) : list (string * JsValue) :=
  match item with JObj props => props | _ => [] end.

(** The text of a key leaf inside an identifier. *)
Definition text (v : JsValue) : string :=
  match ToString v with Ret s => s | _ => "" end.

(** The first named field, in declared order, that the element lacks. *)
Definition first_missing (keys : list string) (item : JsValue) : option string :=
  find (fun k => is_nullish (obj_get (fields item) k)) keys.

(** The identifier of an element: the text of its values for the named
    fields, in declared order, joined by commas, when several fields are
    named; the value of the field itself, and not its text, when one field
    is named. *)
Definition composite_id (keys : list string) (item : JsValue) : JsValue :=
  match map (obj_get (fields item)) keys with
  | [] => JStr ""
  | [v] => v
  | vs => JStr (String.concat "," (map text vs))
  end.

Inductive KeyFailure : Type :=
  | MissingKey (key : string)
  | RedundantKey (id : JsValue).

Definition report (f : KeyFailure) : ErrorObject :=
  match f with
  | MissingKey key => x_key_missing key
  | RedundantKey id => x_key_redundant (text id)
  end.

(** The walk over the elements in their natural order, each checked for a
    missing key field first and then against every identifier seen before
    it; two identifiers are the same when they are the same value (a number
    and a string never are). *)
Fixpoint first_failure (keys : list string) (items seen : list JsValue)
  : option KeyFailure :=
  match items with
  | [] => None
  | item :: rest =>
      match first_missing keys item with
      | Some key => Some (MissingKey key)
      | None =>
          let id := composite_id keys item in
          if Set_has seen id then Some (RedundantKey id)
          else first_failure keys rest (id :: seen)
      end
  end.

(** The identifier as the specification words it: the text of the values of
    the named fields, in declared order, joined by commas, for one named
    field as for several. *)
Definition joined_id (keys : list string) (item : JsValue) : string :=
  String.concat "," (map (fun k => text (obj_get (fields item) k)) keys).

(** The walk of the specification with that identifier. *)
Fixpoint first_failure_joined (keys : list string) (items : list JsValue)
    (seen : list string) : option KeyFailure :=
  match items with
  | [] => None
  | item :: rest =>
      match first_missing keys item with
      | Some key => Some (MissingKey key)
      | None =>
          let id := joined_id keys item in
          if existsb (String.eqb id) seen then Some (RedundantKey (JStr id))
          else first_failure_joined keys rest (id :: seen)
      end
  end.

(** The x-key keyword as the registry of [ajv] defines it, applied to an
    array. *)
Definition x_key_of (ajv : Ajv) (annotation_value : string) (items : list JsValue)
  : Exec (list ErrorObject) :=
  keyword_eval ajv "x-key" (JStr annotation_value) (JObj []) (JArr items).

(** *** Keyword variants by method *)

Definition is_write_method (method : string) : bool :=
  (method =? "post") || (method =? "patch") || (method =? "put").

(** The registry [validate] compiles with: the registry it finds, with
    readOnly and x-key replaced by the variants of the method. *)
Definition keywords_for (method : string) (rules : gmap string KeywordDefinition)
  : gmap string KeywordDefinition :=
  <["x-key" := if method =? "patch" then annotation else x_key_keyword]>
    (delete "x-key"
       (<["readOnly" := if is_write_method method then readOnly_keyword else annotation]>
          (delete "readOnly" rules))).

(** The validator [compile] returns for a schema, as a function that fails
    the way the compilation does when it does not return one. *)
Definition compiled (ajv : Ajv) (schema : JsValue) : ValidateFunction :=
  fun data => validator ← compile ajv schema; validator data.

(** *** Stand-ins for the collaborators, for documents without references
        and operations without parameters *)

Definition resolve_id (document node : JsValue) : Exec JsValue := Ret node.
Definition map_id (schema document : JsValue) (disallow requireAll : bool) : Exec JsValue :=
  Ret schema.
Definition no_parameters (document pathLevel operationLevel : JsValue) : Exec JsValue :=
  Ret (JArr []).
Definition no_fragments (params : JsValue) : Exec JsValue := Ret (JObj []).

(** An item list whose [id] is read-only, offered under /items for every
    method this development looks at. *)
Definition items_schema : JsValue :=
  JObj [("type", JStr "object");
        ("properties",
         JObj [("id", JObj [("type", JStr "string"); ("readOnly", JBool true)]);
               ("name", JObj [("type", JStr "string")])])].

Definition items_content : JsValue :=
  JObj [("application/yang-data+json", JObj [("schema", items_schema)])].

Definition items_operation : JsValue :=
  JObj [("requestBody", JObj [("content", items_content)]);
        ("responses", JObj [("200", JObj [("content", items_content)])])].

(** A list keyed by [id], returned by GET /list. *)
Definition list_schema : JsValue :=
  JObj [("type", JStr "array"); ("x-key", JStr "id");
        ("items", JObj [("type", JStr "object")])].

Definition list_operation : JsValue :=
  JObj [("responses",
         JObj [("200",
                JObj [("content",
                       JObj [("application/yang-data+json",
                              JObj [("schema", list_schema)])])])])].

Definition items_doc : JsValue :=
  JObj [("openapi", JStr "3.0.0");
        ("paths",
         JObj [("/items",
                JObj [("get", items_operation); ("post", items_operation);
                      ("put", items_operation); ("patch", items_operation)]);
               ("/list",
                JObj [("get", list_operation); ("patch", list_operation)])])].

Definition items_validator : OpenApiValidator :=
  mkValidator (mkAjv false constructed_RULES) items_doc false.

Definition keyed_1_2 : list JsValue :=
  [JObj [("id", JStr "a")]; JObj [("id", JStr "b")]].

(** A list keyed by [id], sent to /keyed under POST and PATCH. *)
Definition keyed_operation : JsValue :=
  JObj [("requestBody",
         JObj [("content",
                JObj [("application/yang-data+json",
                       JObj [("schema", list_schema)])])])].

Definition keyed_doc : JsValue :=
  JObj [("openapi", JStr "3.0.0");
        ("paths",
         JObj [("/keyed",
                JObj [("post", keyed_operation); ("patch", keyed_operation)])])].

Definition keyed_validator : OpenApiValidator :=
  mkValidator (mkAjv false constructed_RULES) keyed_doc false.

Definition request_with_body (body : JsValue) : JsValue :=
  JObj [("query", JObj []); ("headers", JObj []); ("params", JObj []);
        ("body", body)].

Definition keyed_a_a : list JsValue :=
  [JObj [("id", JStr "a")]; JObj [("id", JStr "a")]].

Definition keyed_1_text_1 : list JsValue :=
  [JObj [("id", JNum 1)]; JObj [("id", JStr "1")]].

(** The schema node of a keyed list. *)
Definition x_key_node (ks : string) : JsValue :=
  JObj [("type", JStr "array"); ("x-key", JStr ks)].

(** The request schema of /items and what [validate] leaves behind for POST. *)
Definition items_request_schema : JsValue :=
  JObj [("type", JStr "object");
        ("properties", JObj [("body", items_schema)]);
        ("required", JStrings ["query"; "headers"; "params"])].

Definition items_after (method : string) : OpenApiValidator :=
  mkValidator (mkAjv false (keywords_for method constructed_RULES)) items_doc false.

(** Requests and responses for /items and /list. *)
Definition request_with_id : JsValue :=
  JObj [("query", JObj []); ("headers", JObj []); ("params", JObj []);
        ("body", JObj [("id", JStr "7"); ("name", JStr "seven")])].

Definition response_with_id : JsValue :=
  JObj [("statusCode", JNum 200); ("headers", JObj []);
        ("body", JObj [("id", JStr "7"); ("name", JStr "seven")])].

Definition response_with_duplicates : JsValue :=
  JObj [("statusCode", JNum 200); ("headers", JObj []);
        ("body", JArr [JObj [("id", JStr "a")]; JObj [("id", JStr "a")]])].

(** Run [validate] and hand a request to the handler it returns. *)
Definition validate_then_run (this : OpenApiValidator) (method path : string)
    (req : JsValue) : Exec Outcome :=
  r ← validate resolve_id map_id no_parameters no_fragments this method path;
  r.2 req.

(** A call of one of the two public methods on the instance. *)
Inductive Call : Type :=
  | CallValidate (method path : string)
  | CallValidateResponse (method path : string).

Section Calls.

Variable resolveReference : JsValue -> JsValue -> Exec JsValue.
Variable mapOasSchemaToJsonSchema : JsValue -> JsValue -> bool -> bool -> Exec JsValue.
Variable parameters_resolve : JsValue -> JsValue -> JsValue -> Exec JsValue.
Variable parameters_buildSchema : JsValue -> Exec JsValue.

(** The instance a call leaves behind.  A call of [validate] that throws
    in [compile] has replaced the keywords already; a call that throws
    before it touches the registry leaves the instance as it was. *)
Definition after_call (this : OpenApiValidator) (c : Call) : OpenApiValidator :=
  match c with
  | CallValidate method path =>
      validate_leaves resolveReference mapOasSchemaToJsonSchema parameters_resolve
        parameters_buildSchema this method path
  | CallValidateResponse method path =>
      match validateResponse resolveReference mapOasSchemaToJsonSchema
              this method path with
      | Ret r => r.1
      | _ => this
      end
  end.

Definition after_calls (this : OpenApiValidator) (calls : list Call) : OpenApiValidator :=
  fold_left after_call calls this.

(** Run the handler that [validateResponse] returned for (method, path) on
    [this], at a time when the instance has gone through [calls]. *)
Definition respond_after (this : OpenApiValidator) (method path : string)
    (calls : list Call) (res : JsValue) : Exec Outcome :=
  r ← validateResponse resolveReference mapOasSchemaToJsonSchema this method path;
  r.2 (after_calls r.1 calls) res.

End Calls.

(** Two instances that differ at most in the readOnly and x-key keywords. *)
Definition same_base (a b : OpenApiValidator) : Prop :=
  _document a = _document b /\
  disallowAdditionalPropertiesByDefault a = disallowAdditionalPropertiesByDefault b /\
  allErrors (_ajv a) = allErrors (_ajv b) /\
  forall kw, kw <> "readOnly" -> kw <> "x-key" ->
             RULES (_ajv a) !! kw = RULES (_ajv b) !! kw.

Definition defined (v : JsValue) : bool := negb (strict_eq v JUndefined).

(** *** Response selection as the specification words it *)

(** The first decimal digit of a non-negative integer: drop last digits
    until one digit is left. *)
Fixpoint leading_digit (fuel : nat) (n : Z) : Z :=
  match fuel with
  | O => n
  | S fuel' => if (n <? 10)%Z then n else leading_digit fuel' (n / 10)
  end.

(** The status-class token: first digit, then "XX". *)
Definition status_class (statusCode : Z) : string :=
  String (digit_char (leading_digit 22 statusCode)) "XX".

(** The response entry declared under a key, if there is one. *)
Definition declared (responses : list (string * JsValue)) (key : string) : option JsValue :=
  match assoc key responses with
  | Some v => if is_nullish v then None else Some v
  | None => None
  end.

(** Exact status code, else status class, else "default". *)
Definition select_response (responses : list (string * JsValue)) (statusCode : Z)
  : option JsValue :=
  match declared responses (decimal statusCode) with
  | Some r => Some r
  | None =>
      match declared responses (status_class statusCode) with
      | Some r => Some r
      | None => declared responses "default"
      end
  end.

Definition entry (name : string) : JsValue := JObj [("description", JStr name)].

Definition operation_404_4XX_default : JsValue :=
  JObj [("responses",
         JObj [("404", entry "exact"); ("4XX", entry "class");
               ("default", entry "fallback")])].

Definition operation_404_only : JsValue :=
  JObj [("responses", JObj [("404", entry "exact")])].

(** *** The required list of the request schema *)

(** The number of own keys of a value, as [_.isEmpty] and [Object.keys]
    see them. *)
Definition own_keys (v : JsValue) : nat :=
  match v with
  | JObj props => length props
  | JArr items => length items
  | JStr s => String.length s
  | _ => 0%nat
  end.

(** A parameter definition of an operation. *)
Record ParameterObject : Type := mkParameter {
  p_name : string;
  p_in : string;
  p_required : bool;
  p_schema : JsValue
}.

(** Modelled from the spec: one schema fragment of [parameters.buildSchema]
    (src/parameters.ts is not among the sources), "an object schema whose
    properties are the parameter names and whose required list contains
    parameters marked required". *)
Definition fragment (location : string) (params : list ParameterObject) : JsValue :=
  let here := filter (fun p => p_in p =? location) params in
  JObj [("type", JStr "object");
        ("properties", JObj (map (fun p => (p_name p, p_schema p)) here));
        ("required", JStrings (map p_name (filter p_required here)))].

(** Modelled from the spec: [parameters.buildSchema] (src/parameters.ts is
    not among the sources).  "Given a merged parameter list, produces four
    independent schema fragments keyed by location: query, headers,
    path-params, cookies." *)
Definition buildSchema (params : list ParameterObject) : JsValue :=
  JObj [("query", fragment "query" params);
        ("headers", fragment "header" params);
        ("params", fragment "path" params);
        ("cookies", fragment "cookie" params)].

(** The number of cookie parameters declared. *)
Definition cookie_parameters (params : list ParameterObject) : nat :=
  length (filter (fun p => p_in p =? "cookie") params).

Definition session_cookie : ParameterObject :=
  mkParameter "session" "cookie" true (JObj [("type", JStr "string")]).

(** *** Supported versions *)

(** A release version with major number 3. *)
Definition release_3 (v : SemVer) : bool :=
  (major v =? 3)%Z && match prerelease v with [] => true | _ => false end.

(** Whether the constructor accepts the [openapi] field. *)
Definition supported (openapi : JsValue) : bool :=
  match openapi with
  | JStr s => match parse_SemVer s with Some v => release_3 v | None => false end
  | _ => false
  end.

(** The [openapi] fields this development gives a meaning to: a falsy value
    (in particular a missing field) or a string without white space. *)
Definition version_modelled (openapi : JsValue) : bool :=
  negb (truthy openapi) || match openapi with JStr s => no_white_space s | _ => false end.

(** The 3.0.x versions. *)
Definition is_3_0_x (openapi : JsValue) : bool :=
  match openapi with
  | JStr s => match parse_SemVer s with
              | Some v => (major v =? 3)%Z && (minor v =? 0)%Z
              | None => false
              end
  | _ => false
  end.

Definition doc_with_version (version : string) : JsValue :=
  JObj [("openapi", JStr version); ("paths", JObj [])].

(** *** Response normalization as the specification words it *)

(** The values that JavaScript's [||] passes over: undefined, null, false,
    0 and the empty string. *)
Definition falsy (v : JsValue) : bool :=
  match v with
  | JUndefined | JNull | JBool false | JNum 0 | JStr EmptyString => true
  | _ => false
  end.

(** Of two named fields, the first unless it is falsy, else the second. *)
Definition first_not_falsy (res : JsValue) (a b : string) : JsValue :=
  let x := obj_get (fields res) a in
  if falsy x then obj_get (fields res) b else x.

(** The status code of a response-like value: what [statusCode], or
    [status] when that is falsy, converts to, unless that is NaN. *)
Definition status_of (res : JsValue) : option Z :=
  match ToNumber (first_not_falsy res "statusCode" "status") with
  | Ret (Fin z) => Some z
  | _ => None
  end.

(** Its body: [body], or [data] when that is falsy. *)
Definition body_of (res : JsValue) : JsValue := first_not_falsy res "body" "data".

Definition headers_of (res : JsValue) : JsValue := obj_get (fields res) "headers".

(** The response-like values this development gives a meaning to: undefined,
    null, and objects whose status field converts to a number or to NaN. *)
Definition response_like (res : JsValue) : bool :=
  match res with
  | JUndefined | JNull => true
  | JObj props =>
      match ToNumber (first_not_falsy res "statusCode" "status") with
      | Ret _ => true
      | _ => false
      end
  | _ => false
  end.

(** The specification's reading: a field can be determined when one of its
    names holds a value, the first name before the second; the status code
    must also be a number. *)
Definition present (v : JsValue) : bool := negb (is_nullish v).

Definition first_present (res : JsValue) (a b : string) : JsValue :=
  let x := obj_get (fields res) a in
  if present x then x else obj_get (fields res) b.

Definition determined (res : JsValue) : bool :=
  present res
  && present (first_present res "statusCode" "status")
  && match ToNumber (first_present res "statusCode" "status") with
     | Ret (Fin _) => true
     | _ => false
     end
  && present (first_present res "body" "data")
  && present (headers_of res).

Definition not_found_message : string :=
  "statusCode, body or header values not found from response".

Definition response_empty_body : JsValue :=
  JObj [("statusCode", JNum 204); ("body", JStr ""); ("headers", JObj [])].

Definition response_data_shape : JsValue :=
  JObj [("status", JStr "200"); ("data", JObj [("id", JStr "7")]); ("headers", JObj [])].

Definition response_null_status : JsValue :=
  JObj [("status", JNull); ("body", JObj [("id", JStr "7")]); ("headers", JObj [])].

Definition response_zero_body : JsValue :=
  JObj [("statusCode", JNum 200); ("body", JNum 0); ("headers", JObj [])].

(** The duplicates of [response_with_duplicates] in the shape of an HTTP
    client: [status] as text and the payload under [data]. *)
Definition response_data_duplicates : JsValue :=
  JObj [("status", JStr "200"); ("headers", JObj []);
        ("data", JArr [JObj [("id", JStr "a")]; JObj [("id", JStr "a")]])].

Definition response_404_duplicates : JsValue :=
  JObj [("statusCode", JNum 404); ("headers", JObj []);
        ("body", JArr [JObj [("id", JStr "a")]; JObj [("id", JStr "a")]])].

(** *** The media type of body schemas *)

Definition yang_media : string := "application/yang-data+json".

(** The schema read from the content entry of the yang media type; the empty
    schema when there is no such entry or it has no schema. *)
Definition schema_read (entry : option JsValue) : Exec JsValue :=
  match entry with
  | None => Ret (JObj [])
  | Some media =>
      if is_nullish media then Ret (JObj [])
      else s ← GetV media "schema";
           Ret (match s with JUndefined => JObj [] | _ => s end)
  end.

(** An operation that declares its bodies under application/json only, with
    a schema that only admits strings. *)
Definition json_content : JsValue :=
  JObj [("application/json", JObj [("schema", JObj [("type", JStr "string")])])].

Definition json_operation : JsValue :=
  JObj [("requestBody", JObj [("content", json_content); ("required", JBool true)]);
        ("responses", JObj [("200", JObj [("content", json_content)])])].

Definition json_doc : JsValue :=
  JObj [("openapi", JStr "3.0.0");
        ("paths", JObj [("/things", JObj [("post", json_operation)])])].

Definition json_validator : OpenApiValidator :=
  mkValidator (mkAjv false constructed_RULES) json_doc false.

(** An operation that declares its bodies under both media types: strings
    under application/json, integers under application/yang-data+json. *)
Definition yang_content : JsValue :=
  JObj [("application/json", JObj [("schema", JObj [("type", JStr "string")])]);
        ("application/yang-data+json", JObj [("schema", JObj [("type", JStr "integer")])])].

Definition yang_operation : JsValue :=
  JObj [("requestBody", JObj [("content", yang_content); ("required", JBool true)]);
        ("responses", JObj [("200", JObj [("content", yang_content)])])].

Definition yang_doc : JsValue :=
  JObj [("openapi", JStr "3.0.0");
        ("paths", JObj [("/things", JObj [("post", yang_operation)])])].

Definition yang_validator : OpenApiValidator :=
  mkValidator (mkAjv false constructed_RULES) yang_doc false.

Definition request_text_body : JsValue :=
  JObj [("query", JObj []); ("headers", JObj []); ("params", JObj []);
        ("body", JStr "five")].

Definition response_text_body : JsValue :=
  JObj [("statusCode", JNum 200); ("headers", JObj []); ("body", JStr "five")].

Definition request_number_body : JsValue :=
  JObj [("query", JObj []); ("headers", JObj []); ("params", JObj []);
        ("body", JNum 5)].

Definition response_number_body : JsValue :=
  JObj [("statusCode", JNum 200); ("headers", JObj []); ("body", JNum 5)].

(** *** Further sample inputs and specification-side definitions *)

(** The keywords the constructor adds by name only. *)
Definition passthrough_keywords : list string :=
  (["example"; "xml"; "externalDocs"] ++ ignoredExtensionKeywords)%list.

(** The fields of a request that are handed to the validator. *)
Definition picked_fields : list string := ["query"; "headers"; "params"; "body"].

Definition read_fields : list string :=
  (picked_fields ++ ["cookies"; "signedCookies"])%list.

(** The object the request handler validates, given the merged cookies. *)
Definition request_to_validate (props : list (string * JsValue)) (cookies : JsValue)
  : JsValue :=
  JObj (obj_set "cookies" cookies (lodash_pick props picked_fields)).

Definition outcome_of (errors : list ErrorObject) : Outcome :=
  match errors with [] => Next | _ => NextError errors end.

(** A stand-in for the path matcher: a template matches the path equal to
    it. *)
Definition exact_path (template : string) : Exec (JsValue -> bool) :=
  Ret (fun reqPath => strict_eq reqPath (JStr template)).

Definition request_for (method path : string) : JsValue :=
  JObj [("method", JStr method); ("path", JStr path);
        ("query", JObj []); ("headers", JObj []); ("params", JObj []);
        ("body", JObj [("name", JStr "seven")])].

Definition request_with_cookies : JsValue :=
  JObj [("query", JObj []); ("headers", JObj []); ("params", JObj []);
        ("cookies", JObj [("theme", JStr "dark"); ("session", JStr "forged")]);
        ("signedCookies", JObj [("session", JStr "s1")])].

Definition request_signed_only : JsValue :=
  JObj [("query", JObj []); ("headers", JObj []); ("params", JObj []);
        ("signedCookies", JObj [("session", JStr "s1")])].

(** The error thrown for a path the document does not declare, and for a
    method a declared path does not offer. *)
Definition path_not_found (path : string) : JsError :=
  Error ("Path=" +:+ path +:+ " not found from OpenAPI document").

Definition method_not_found (method path : string) : JsError :=
  Error ("Path=" +:+ path +:+ " with method=" +:+ method
           +:+ " not found from OpenAPI document").

(** Two elements whose values for the key fields [a] and [b] differ but whose
    comma-joined identifiers coincide. *)
Definition comma_left (s t u : string) : JsValue :=
  JObj [("a", JStr (s +:+ "," +:+ t)); ("b", JStr u)].

Definition comma_right (s t u : string) : JsValue :=
  JObj [("a", JStr s); ("b", JStr (t +:+ "," +:+ u))].

(** An element that lacks [b] and whose [a] spells the identifier of
    [complete s t]. *)
Definition lacking_b (s t : string) : JsValue := JObj [("a", JStr (s +:+ "," +:+ t))].

Definition complete (s t : string) : JsValue := JObj [("a", JStr s); ("b", JStr t)].

(** [request_with_id] as express would hand it over, with fields the
    handler has no use for. *)
Definition request_with_id_and_more : JsValue :=
  JObj (("ip", JStr "::1") :: ("method", JStr "POST") :: fields request_with_id).

(** An operation without a usable responses object. *)
Definition no_responses (op : JsValue) : bool :=
  match op with
  | JUndefined | JNull => true
  | JObj props => is_nullish (obj_get props "responses")
  | _ => false
  end.




(** The response schema around a body schema: the body and the headers are
    required, the headers are an object. *)
Definition response_schema (body : JsValue) : JsValue :=
  JObj [("type", JStr "object");
        ("properties",
         JObj [("body", body);
               ("headers", JObj [("type", JStr "object"); ("properties", JObj [])])]);
        ("required", JStrings ["headers"; "body"])].

Section Normalized.

Variable resolveReference : JsValue -> JsValue -> Exec JsValue.
Variable mapOasSchemaToJsonSchema : JsValue -> JsValue -> bool -> bool -> Exec JsValue.

(** Validation of a normalized response: the response object of the
    operation is selected by the status code, the response schema is built
    around the body schema of that object and compiled with the registry of
    the instance, and the body and the headers are validated against it. *)
Definition validate_normalized (operation : JsValue) (this : OpenApiValidator)
    (r : ResolvedResponse) : Exec Outcome :=
  responseObject ← _getResponseObject resolveReference this operation (statusCode r);
  bodySchema ← lodash_get responseObject yang_path (JObj []);
  bodySchema ← resolveReference (_document this) bodySchema;
  schema ← mapOasSchemaToJsonSchema (response_schema bodySchema) (_document this)
             (disallowAdditionalPropertiesByDefault this) true;
  validator ← compile (_ajv this) schema;
  errors ← validator (JObj [("body", body r); ("headers", headers r)]);
  Ret (outcome_of errors).

End Normalized.
(** * Properties *)

(** ** The [Exec] monad *)

Lemma bind_Ret {A B} (m : Exec A) (f : A -> Exec B) (b : B) :
  m ≫= f = Ret b -> exists a, m = Ret a /\ f a = Ret b.
Proof. destruct m as [a| |]; simpl; intros H; try discriminate. eauto. Qed.

Lemma bind_Ret_l {A B} (a : A) (f : A -> Exec B) : Ret a ≫= f = f a.
Proof. reflexivity. Qed.

Lemma Get_own props k :
  inherited k = false -> Get (JObj props) k = Ret (obj_get props k).
Proof.
  intros H. unfold Get, obj_get. destruct (assoc k props); [reflexivity|].
  by rewrite H.
Qed.

(** Invert a hypothesis [x ← m; k = Ret b] into its two steps. *)
Ltac exec_inv H :=
  let a := fresh "a" in
  let Ha := fresh "Hstep" in
  apply bind_Ret in H; destruct H as (a & Ha & H).

(** ** The registry *)

Lemma constructor_ajv_eq (all : bool) :
  constructor_ajv all = Ret (mkAjv all constructed_RULES).
Proof. destruct all; vm_compute; reflexivity. Qed.

Lemma constructor_inv doc options this :
  constructor doc options = Ret this ->
  this = mkValidator (mkAjv (ajvOptions_allErrors options) constructed_RULES) doc
           (strict_eq (option_disallowAdditionalPropertiesByDefault options) (JBool true)) /\
  exists openapi, GetV doc "openapi" = Ret openapi /\ semver_satisfies openapi = Ret true.
Proof.
  unfold constructor. intros H.
  exec_inv H. exec_inv H.
  destruct a0; simpl in H.
  - rewrite constructor_ajv_eq in H. simpl in H. inversion H; subst. eauto.
  - exec_inv H. exec_inv H. discriminate.
Qed.

Lemma addKeyword_removeKeyword kw def ajv :
  addKeyword kw def (removeKeyword kw ajv) =
  Ret (mkAjv (allErrors ajv) (<[kw := def]> (delete kw (RULES ajv)))).
Proof. unfold addKeyword, removeKeyword; simpl. by rewrite lookup_delete_eq. Qed.

Lemma constructed_x_empty : constructed_RULES !! "x-empty" = Some x_empty_keyword.
Proof. vm_compute. reflexivity. Qed.

(** ** x-empty *)

Lemma strict_eq_JNull v : strict_eq v JNull = true <-> v = JNull.
Proof. destruct v; simpl; split; intros; congruence. Qed.

Lemma x_empty_accepts_iff (items : list JsValue) :
  x_empty (JArr items) = Ret [] <-> items = [JNull].
Proof.
  unfold x_empty, pass.
  destruct items as [|v [|w rest]]; simpl.
  - split; intros; discriminate.
  - destruct (strict_eq v JNull) eqn:E.
    + apply strict_eq_JNull in E. subst. split; reflexivity.
    + split; intros H; [discriminate|].
      inversion H; subst. discriminate.
  - split; intros; discriminate.
Qed.

Lemma x_empty_rejects (items : list JsValue) :
  items <> [JNull] -> x_empty (JArr items) = Ret [x_empty_error].
Proof.
  intros Hne. pose proof (x_empty_accepts_iff items) as Hiff.
  unfold x_empty, pass in *.
  destruct ((length items =? 1)%nat && strict_eq (nth 0 items JUndefined) JNull).
  - exfalso. apply Hne, Hiff. reflexivity.
  - reflexivity.
Qed.

(** C9: under the x-empty keyword as the constructor registers it, with the
    annotation [x-empty: true], an array is accepted if and only if it is
    the one-element array [[null]]; every other array is rejected with the
    keyword's error.  In particular [[null]] passes and [[]], [[null, null]]
    and [[1]] fail. *)
Theorem x_empty_accepts_exactly_null_singleton
    (doc : JsValue) (options : ValidatorConfig) (this : OpenApiValidator)
    (parentSchema : JsValue) (items : list JsValue) :
  constructor doc options = Ret this ->
  let run data := keyword_eval (_ajv this) "x-empty" (JBool true) parentSchema (JArr data) in
  (run items = Ret [] <-> items = [JNull]) /\
  (items <> [JNull] -> run items = Ret [x_empty_error]) /\
  run [JNull] = Ret [] /\
  run [] = Ret [x_empty_error] /\
  run [JNull; JNull] = Ret [x_empty_error] /\
  run [JNum 1] = Ret [x_empty_error].
Proof.
  intros Hnew run.
  apply constructor_inv in Hnew as [-> _].
  assert (Hrun : forall data, run data = x_empty (JArr data)).
  { intros data. unfold run, keyword_eval. simpl RULES.
    rewrite constructed_x_empty. reflexivity. }
  rewrite !Hrun.
  split; [apply x_empty_accepts_iff|].
  split; [apply x_empty_rejects|].
  repeat split; reflexivity.
Qed.

Lemma x_empty_accepts_exactly_null_singleton_witness :
  constructor doc_3_0_0 config_default = Ret new_3_0_0 /\
  keyword_eval (_ajv new_3_0_0) "x-empty" (JBool true) (JObj []) (JArr [JNull]) = Ret [].
Proof.
  assert (H : constructor doc_3_0_0 config_default = Ret new_3_0_0)
    by (vm_compute; reflexivity).
  split; [exact H|].
  exact (proj1 (proj2 (proj2
    (x_empty_accepts_exactly_null_singleton doc_3_0_0 config_default
       new_3_0_0 (JObj []) [JNull] H)))).
Defined.

(** ** x-range *)











(** C1: on the specification's own example the code decides as stated (3, 10 and 20
    pass; 6, 21 and 0 fail, as numbers and as strings), but the converted
    value is never the one compared.  Under the type hint [int64] and the
    range [0 .. 2^53] the string "9007199254740993" (2^53 + 1) is accepted by
    the keyword code, by the keyword as the constructor registers it, and by
    a validator compiled from the schema node, although its BigInt
    conversion lies outside the range.  Under that hint a string that is no
    integer literal makes the validator throw a SyntaxError. *)
Theorem x_range_compares_unconverted_value :
  let ranges := JArr (map range_obj ranges_1_5_10_20) in
  let rejects v := mkError "x-range"
    ("Value " +:+ v +:+ " does not meet the range restrictions: 1 .. 5 | 10 .. 20") in
  (x_range ranges (JObj []) (JNum 3) = Ret [] /\
   x_range ranges (JObj []) (JNum 10) = Ret [] /\
   x_range ranges (JObj []) (JStr "20") = Ret [] /\
   x_range ranges (JObj []) (JNum 6) = Ret [rejects "6"] /\
   x_range ranges (JObj []) (JStr "21") = Ret [rejects "21"] /\
   x_range ranges (JObj []) (JNum 0) = Ret [rejects "0"]) /\
  (x_range_specified (JStr "int64") [(0, 9007199254740992)%Z] (JStr "9007199254740993")
     = Ret false /\
   x_range (JArr [range_obj (0, 9007199254740992)%Z]) int64_parent
     (JStr "9007199254740993") = Ret [] /\
   keyword_eval (_ajv new_3_0_0) "x-range" (JArr [range_obj (0, 9007199254740992)%Z])
     int64_parent (JStr "9007199254740993") = Ret [] /\
   (validator ← compile (_ajv new_3_0_0) int64_parent;
    validator (JStr "9007199254740993")) = Ret [] /\
   (validator ← compile (_ajv new_3_0_0) int64_parent; validator (JStr "hello"))
     = Throw (SyntaxError "Cannot convert hello to a BigInt")).
Proof. vm_compute. repeat split; reflexivity. Qed.

(** ** x-key *)

Lemma strict_eq_eq a b : strict_eq a b = true -> a = b.
Proof.
  destruct a, b; simpl; intros H; try discriminate; try reflexivity.
  - apply Bool.eqb_prop in H. congruence.
  - apply Z.eqb_eq in H. congruence.
  - apply String.eqb_eq in H. congruence.
Qed.

Lemma strict_eq_refl_leaf a : key_leaf a = true -> strict_eq a a = true.
Proof.
  destruct a; simpl; intros H; try discriminate; try reflexivity.
  - apply Bool.eqb_reflx.
  - apply Z.eqb_refl.
  - apply String.eqb_refl.
Qed.

Lemma Set_has_elem seen id : Set_has seen id = true -> id ∈ seen.
Proof.
  unfold Set_has. intros H. apply existsb_exists in H as (x & Hin & Heq).
  apply strict_eq_eq in Heq. subst. by apply list_elem_of_In.
Qed.

Lemma elem_Set_has seen id : key_leaf id = true -> id ∈ seen -> Set_has seen id = true.
Proof.
  intros Hleaf Hin. unfold Set_has. apply existsb_exists.
  exists id. split; [by apply list_elem_of_In|by apply strict_eq_refl_leaf].
Qed.

Lemma key_value_leaf v : key_value v = true -> key_leaf v = true.
Proof.
  destruct v; try (intros H; exact H). unfold key_value, key_leaf, MAX_SAFE_INTEGER.
  intros H. apply Z.leb_le in H. apply Z.ltb_lt. lia.
Qed.

Lemma ToString_leaf v : key_leaf v = true -> ToString v = Ret (text v).
Proof.
  unfold text. destruct v as [| |[|]|z|s| |]; simpl; intros H;
    try discriminate; try reflexivity.
  unfold NumberToString. rewrite H. reflexivity.
Qed.

Lemma js_concat_leaf a b :
  key_leaf a = true -> key_leaf b = true ->
  js_concat a b = Ret (JStr (text a +:+ text b)).
Proof.
  intros Ha Hb. unfold js_concat.
  rewrite (ToString_leaf _ Ha), bind_Ret_l, (ToString_leaf _ Hb). reflexivity.
Qed.

Lemma append_assoc (a b c : string) : (a +:+ b) +:+ c = a +:+ (b +:+ c).
Proof.
  induction a as [|x a IH]; [reflexivity|].
  change (String x ((a +:+ b) +:+ c) = String x (a +:+ (b +:+ c))).
  by rewrite IH.
Qed.

Lemma concat_comma_cons a t ts :
  String.concat "," ((a +:+ "," +:+ t) :: ts) = a +:+ "," +:+ String.concat "," (t :: ts).
Proof.
  destruct ts as [|u r]; [reflexivity|].
  change (String.concat "," ((a +:+ "," +:+ t) :: u :: r))
    with ((a +:+ "," +:+ t) +:+ "," +:+ String.concat "," (u :: r)).
  change (String.concat "," (t :: u :: r))
    with (t +:+ "," +:+ String.concat "," (u :: r)).
  rewrite !append_assoc. reflexivity.
Qed.

Lemma fold_concat_comma ts acc :
  fold_left (fun a t => a +:+ "," +:+ t) ts acc = String.concat "," (acc :: ts).
Proof.
  revert acc. induction ts as [|t ts IH]; intros acc; [reflexivity|].
  simpl fold_left. rewrite IH. apply concat_comma_cons.
Qed.

Lemma text_JStr s : text (JStr s) = s.
Proof. reflexivity. Qed.

(** The inner loop past the first key: the identifier is text from here on. *)
Lemma x_key_id_rest props keys i id :
  key_leaf id = true ->
  forallb (fun k => negb (inherited k) && key_value (obj_get props k)) keys = true ->
  match find (fun k => is_nullish (obj_get props k)) keys with
  | Some key =>
      exists partial,
        x_key_id (JObj props) keys (S i) id = Ret (partial, Some (x_key_missing key)) /\
        key_leaf partial = true
  | None =>
      x_key_id (JObj props) keys (S i) id =
      Ret (match keys with
           | [] => id
           | _ => JStr (fold_left (fun a t => a +:+ "," +:+ t)
                          (map (fun k => text (obj_get props k)) keys) (text id))
           end, None)
  end.
Proof.
  revert i id. induction keys as [|k rest IH]; intros i id Hid Hkeys.
  - reflexivity.
  - cbn [forallb] in Hkeys.
    apply andb_prop in Hkeys as [[Hown%negb_true_iff Hv%key_value_leaf]%andb_prop Hrest].
    cbn [find x_key_id]. rewrite (Get_own _ _ Hown), bind_Ret_l.
    destruct (is_nullish (obj_get props k)) eqn:Hnull.
    + exists id. split; [reflexivity|exact Hid].
    + change ((S i =? 0)%nat) with false. cbv iota.
      rewrite (js_concat_leaf id (JStr ",") Hid eq_refl), !bind_Ret_l.
      rewrite (js_concat_leaf (JStr _) _ eq_refl Hv), bind_Ret_l.
      rewrite !text_JStr.
      specialize (IH (S i) (JStr ((text id +:+ ",") +:+ text (obj_get props k)))
                    eq_refl Hrest).
      rewrite !text_JStr in IH.
      destruct (find (fun k0 => is_nullish (obj_get props k0)) rest) as [key|].
      * exact IH.
      * rewrite IH. f_equal. f_equal. cbn [map fold_left].
        rewrite append_assoc.
        destruct rest; reflexivity.
Qed.

Lemma x_key_id_spec keys item :
  keyed_item keys item = true ->
  match first_missing keys item with
  | Some key =>
      exists partial,
        x_key_id item keys 0 (JStr "") = Ret (partial, Some (x_key_missing key)) /\
        key_leaf partial = true
  | None =>
      x_key_id item keys 0 (JStr "") = Ret (composite_id keys item, None) /\
      key_leaf (composite_id keys item) = true
  end.
Proof.
  destruct item as [| | | | | |props]; try discriminate.
  unfold keyed_item, first_missing, composite_id. cbn [fields].
  destruct keys as [|k rest]; intros Hkeys.
  - split; reflexivity.
  - cbn [forallb] in Hkeys.
    apply andb_prop in Hkeys as [[Hown%negb_true_iff Hv]%andb_prop Hrest].
    pose proof (key_value_leaf _ Hv) as Hleaf.
    cbn [find x_key_id]. rewrite (Get_own _ _ Hown), bind_Ret_l.
    destruct (is_nullish (obj_get props k)) eqn:Hnull.
    + exists (JStr ""). split; reflexivity.
    + change ((0 =? 0)%nat) with true. cbv iota. rewrite bind_Ret_l.
      pose proof (x_key_id_rest props rest 0 (obj_get props k) Hleaf Hrest) as H.
      destruct (find (fun k0 => is_nullish (obj_get props k0)) rest) as [key|].
      * exact H.
      * rewrite H. destruct rest as [|k' rest'].
        -- split; [reflexivity|exact Hleaf].
        -- split; [|reflexivity].
           rewrite fold_concat_comma, <- (map_map (obj_get props) text).
           reflexivity.
Qed.

(** Without [allErrors] the generated loop returns exactly the first failure
    of the walk over the elements. *)
Lemma x_key_items_first keys items seen :
  forallb (keyed_item keys) items = true ->
  x_key_items false keys items seen =
  Ret (option_list (report <$> first_failure keys items seen)).
Proof.
  revert seen. induction items as [|item rest IH]; intros seen Hitems.
  - reflexivity.
  - cbn [forallb] in Hitems. apply andb_prop in Hitems as [Hitem Hrest].
    cbn [x_key_items first_failure].
    pose proof (x_key_id_spec keys item Hitem) as Hid.
    destruct (first_missing keys item) as [key|].
    + destruct Hid as (partial & -> & _). reflexivity.
    + destruct Hid as [-> Hleaf]. rewrite bind_Ret_l. cbn [fst snd].
      destruct (Set_has seen (composite_id keys item)).
      * rewrite (ToString_leaf _ Hleaf). reflexivity.
      * rewrite (IH _ Hrest). reflexivity.
Qed.

(** With [allErrors] the loop goes on after a missing key, but the first
    error it records is still the first failure of the walk over the elements. *)
Lemma x_key_items_head keys items seen :
  forallb (keyed_item keys) items = true ->
  exists errs,
    x_key_items true keys items seen = Ret errs /\
    hd_error errs = report <$> first_failure keys items seen.
Proof.
  revert seen. induction items as [|item rest IH]; intros seen Hitems.
  - exists []. split; reflexivity.
  - cbn [forallb] in Hitems. apply andb_prop in Hitems as [Hitem Hrest].
    cbn [x_key_items first_failure].
    pose proof (x_key_id_spec keys item Hitem) as Hid.
    destruct (first_missing keys item) as [key|].
    + destruct Hid as (partial & -> & Hleaf). rewrite bind_Ret_l. cbn [fst snd].
      destruct (Set_has seen partial).
      * rewrite (ToString_leaf _ Hleaf). eexists. split; reflexivity.
      * destruct (IH (partial :: seen) Hrest) as (more & -> & _).
        eexists. split; reflexivity.
    + destruct Hid as [-> Hleaf]. rewrite bind_Ret_l. cbn [fst snd].
      destruct (Set_has seen (composite_id keys item)).
      * rewrite (ToString_leaf _ Hleaf). eexists. split; reflexivity.
      * destruct (IH (composite_id keys item :: seen) Hrest) as (more & -> & Hhd).
        exists more. split; [reflexivity|exact Hhd].
Qed.

(** The walk finds no failure exactly when no element lacks a key field and
    no two elements share an identifier. *)
Lemma first_failure_None keys items seen :
  forallb (keyed_item keys) items = true ->
  first_failure keys items seen = None <->
  Forall (fun item => first_missing keys item = None) items /\
  NoDup (map (composite_id keys) items) /\
  (forall item, item ∈ items -> composite_id keys item ∉ seen).
Proof.
  revert seen. induction items as [|item rest IH]; intros seen Hitems.
  - split; [|reflexivity]. intros _.
    split; [constructor|]. split; [constructor|]. intros item Hin. inversion Hin.
  - cbn [forallb] in Hitems. apply andb_prop in Hitems as [Hitem Hrest].
    cbn [first_failure map].
    pose proof (x_key_id_spec keys item Hitem) as Hid.
    destruct (first_missing keys item) as [key|] eqn:Hmiss.
    + split; [discriminate|]. intros (Hall & _ & _).
      inversion Hall; subst. congruence.
    + destruct Hid as [_ Hleaf].
      destruct (Set_has seen (composite_id keys item)) eqn:Hseen.
      * split; [discriminate|]. intros (_ & _ & Hfresh).
        exfalso. apply (Hfresh item); [by left|]. by apply Set_has_elem.
      * rewrite (IH _ Hrest). split.
        -- intros (Hall & Hnodup & Hfresh). split; [by constructor|]. split.
           ++ constructor; [|exact Hnodup]. intros Hin.
              apply list_elem_of_fmap in Hin as (other & Heq & Hother).
              apply (Hfresh other Hother). rewrite <- Heq. by left.
           ++ intros other Hother Hin. apply elem_of_cons in Hother as [->|Hother].
              ** apply elem_Set_has in Hin; [congruence|exact Hleaf].
              ** apply (Hfresh other Hother). by right.
        -- intros (Hall & Hnodup & Hfresh).
           inversion Hall; subst. apply NoDup_cons in Hnodup as [Hnotin Hnodup].
           split; [assumption|]. split; [assumption|].
           intros other Hother Hin. apply elem_of_cons in Hin as [Heq|Hin].
           ++ apply Hnotin. rewrite <- Heq. by apply list_elem_of_fmap_2.
           ++ apply (Hfresh other); [by right|exact Hin].
Qed.

(** ** Keyword variants installed by [validate] *)

Lemma validate_keywords_eq method ajv :
  validate_keywords method ajv =
  Ret (mkAjv (allErrors ajv) (keywords_for method (RULES ajv))).
Proof.
  unfold validate_keywords, keywords_for, is_write_method.
  destruct ((method =? "post") || (method =? "patch") || (method =? "put"));
    rewrite addKeyword_removeKeyword, bind_Ret_l;
    destruct (method =? "patch"); rewrite addKeyword_removeKeyword; reflexivity.
Qed.

Lemma keywords_for_x_key method rules :
  keywords_for method rules !! "x-key" =
  Some (if method =? "patch" then annotation else x_key_keyword).
Proof. unfold keywords_for. apply lookup_insert_eq. Qed.

Lemma keywords_for_readOnly method rules :
  keywords_for method rules !! "readOnly" =
  Some (if is_write_method method then readOnly_keyword else annotation).
Proof.
  unfold keywords_for.
  rewrite lookup_insert_ne by discriminate.
  rewrite lookup_delete_ne by discriminate.
  apply lookup_insert_eq.
Qed.

Lemma keywords_for_other method rules kw :
  kw <> "readOnly" -> kw <> "x-key" ->
  keywords_for method rules !! kw = rules !! kw.
Proof.
  intros H1 H2. unfold keywords_for.
  rewrite lookup_insert_ne by congruence.
  rewrite lookup_delete_ne by congruence.
  rewrite lookup_insert_ne by congruence.
  by rewrite lookup_delete_ne by congruence.
Qed.

Section ValidateFacts.

Variable resolveReference : JsValue -> JsValue -> Exec JsValue.
Variable mapOasSchemaToJsonSchema : JsValue -> JsValue -> bool -> bool -> Exec JsValue.
Variable parameters_resolve : JsValue -> JsValue -> JsValue -> Exec JsValue.
Variable parameters_buildSchema : JsValue -> Exec JsValue.

(** What a successful call of [validate] leaves behind and returns. *)
Lemma validate_inv this method path this' handler :
  validate resolveReference mapOasSchemaToJsonSchema parameters_resolve
    parameters_buildSchema this method path = Ret (this', handler) ->
  exists schema jsonSchema,
    validate_schema_for resolveReference parameters_resolve parameters_buildSchema
      this method path = Ret schema /\
    mapOasSchemaToJsonSchema schema (_document this)
      (disallowAdditionalPropertiesByDefault this)
      ((method =? "put") || (method =? "post")) = Ret jsonSchema /\
    this' = mkValidator (mkAjv (allErrors (_ajv this))
                           (keywords_for method (RULES (_ajv this))))
              (_document this) (disallowAdditionalPropertiesByDefault this) /\
    exists validator,
      compile (_ajv this') jsonSchema = Ret validator /\
      handler = request_handler validator.
Proof.
  unfold validate. intros H.
  exec_inv H. exec_inv H. rewrite validate_keywords_eq, bind_Ret_l in H.
  exec_inv H. inversion H; subst. exists a, a0. eauto 10.
Qed.

(** What a call of [validate] leaves behind, whether or not it returns. *)
Lemma validate_leaves_cases this method path :
  let left := validate_leaves resolveReference mapOasSchemaToJsonSchema
                parameters_resolve parameters_buildSchema this method path in
  left = this \/
  left = mkValidator (mkAjv (allErrors (_ajv this))
                        (keywords_for method (RULES (_ajv this))))
           (_document this) (disallowAdditionalPropertiesByDefault this).
Proof.
  unfold validate_leaves.
  destruct (validate_schema_for _ _ _ this method path) as [schema| |];
    cbn [mbind Exec_bind]; auto.
  destruct (mapOasSchemaToJsonSchema schema _ _ _) as [jsonSchema| |];
    cbn [mbind Exec_bind]; auto.
  rewrite validate_keywords_eq. auto.
Qed.

(** A call of [validate] that returns leaves behind what
    [validate_leaves] says. *)
Lemma validate_leaves_returned this method path this' handler :
  validate resolveReference mapOasSchemaToJsonSchema parameters_resolve
    parameters_buildSchema this method path = Ret (this', handler) ->
  validate_leaves resolveReference mapOasSchemaToJsonSchema parameters_resolve
    parameters_buildSchema this method path = this'.
Proof.
  intros H. apply validate_inv in H as (schema & jsonSchema & Hs & Hm & -> & _).
  unfold validate_leaves. rewrite Hs, bind_Ret_l, Hm, bind_Ret_l.
  by rewrite validate_keywords_eq.
Qed.

End ValidateFacts.

Lemma x_key_of_checked ajv ks items :
  RULES ajv !! "x-key" = Some x_key_keyword ->
  x_key_of ajv ks items = x_key_items (allErrors ajv) (split_on "," ks) items [].
Proof. intros H. unfold x_key_of, keyword_eval. rewrite H. reflexivity. Qed.

Lemma and_then_Ret_nil all e : and_then all (Ret []) e = e.
Proof. unfold and_then. rewrite bind_Ret_l. destruct e as [x| |]; simpl; reflexivity. Qed.

Lemma and_then_nil_r all e : and_then all e (Ret []) = e.
Proof.
  unfold and_then. destruct e as [x| |]; simpl; try reflexivity.
  destruct x, all; simpl; rewrite ?app_nil_r; reflexivity.
Qed.

Lemma registered_rules_x_key_node ajv ks g :
  registered_rules ajv [("type", JStr "array"); ("x-key", JStr ks)] g
  = match RULES ajv !! "x-key" with
    | Some def => if in_group g def then ["x-key"] else []
    | None => []
    end.
Proof.
  unfold registered_rules, registration_order. cbn [List.filter].
  change (uses _ "x-empty") with false. change (uses _ "x-range") with false.
  change (uses _ "readOnly") with false. change (uses _ "x-key") with true.
  destruct (RULES ajv !! "x-empty"), (RULES ajv !! "x-range"), (RULES ajv !! "readOnly"),
    (RULES ajv !! "x-key") as [def|];
    rewrite ?andb_false_r, ?andb_true_r; reflexivity.
Qed.

(** A validator compiled from the schema node of a keyed list runs the
    x-key keyword of the registry on an array, and nothing else. *)
Lemma compile_x_key_node ajv ks def :
  RULES ajv !! "x-key" = Some def ->
  def = x_key_keyword \/ def = annotation ->
  exists validator,
    compile ajv (x_key_node ks) = Ret validator /\
    forall items, validator (JArr items) = x_key_of ajv ks items.
Proof.
  intros Hdef Hcases.
  unfold x_key_node, compile, compile_schema.
  cbn [String.eqb Ascii.eqb Bool.eqb fst snd].
  cbn [checkUnknownRules mem existsb modelled_vocabulary unmodelled_vocabulary
       String.eqb Ascii.eqb Bool.eqb orb].
  rewrite !registered_rules_x_key_node, Hdef.
  destruct Hcases as [-> | ->]; cbn [kw_code x_key_keyword annotation in_group kw_type
    existsb JSONType_eqb orb check_schemaTypes]; rewrite ?Hdef;
    (eexists; split; [reflexivity|]); intros items;
    unfold run_schema, check_type, rule_groups; cbn [map all_of];
    unfold run_group, group_used;
    rewrite !registered_rules_x_key_node, Hdef;
    cbn [kw_code x_key_keyword annotation in_group kw_type existsb JSONType_eqb orb
         vocabulary_rules core_group andb has_type List.filter app map all_of];
    rewrite ?and_then_Ret_nil, ?and_then_nil_r.
  - change (uses _ "items") with false. cbn [orb app map all_of].
    rewrite and_then_nil_r. reflexivity.
  - unfold x_key_of, keyword_eval. rewrite Hdef. reflexivity.
Qed.

(** C2: for every method other than "patch", the validator [validate]
    compiles walks an array of objects under an x-key annotation in order
    and reports as its first error the first failure of that walk: a key
    field that is undefined or null (reported by name), or an identifier
    already seen for an earlier element (reported with the identifier).
    The identifier of an element is the comma-joined text of its key values
    when several fields are named, and the value itself when one field is
    named: the number 1 and the string "1" are then different identifiers.
    It accepts exactly when no element lacks a key field and no two elements
    share an identifier.  For "patch" the keyword accepts every value.  The
    validator compiled from the schema node of a keyed list runs that
    keyword, and requests for a keyed list are accepted and rejected
    accordingly. *)
Theorem x_key_unique_unless_patch
    (resolveReference : JsValue -> JsValue -> Exec JsValue)
    (mapOasSchemaToJsonSchema : JsValue -> JsValue -> bool -> bool -> Exec JsValue)
    (parameters_resolve : JsValue -> JsValue -> JsValue -> Exec JsValue)
    (parameters_buildSchema : JsValue -> Exec JsValue)
    (this this' : OpenApiValidator) (method path : string)
    (handler : JsValue -> Exec Outcome) (ks : string) (items : list JsValue) :
  validate resolveReference mapOasSchemaToJsonSchema parameters_resolve
    parameters_buildSchema this method path = Ret (this', handler) ->
  forallb (keyed_item (split_on "," ks)) items = true ->
  let keys := split_on "," ks in
  (exists jsonSchema validator,
     compile (_ajv this') jsonSchema = Ret validator /\
     handler = request_handler validator) /\
  (exists validator,
     compile (_ajv this') (x_key_node ks) = Ret validator /\
     validator (JArr items) = x_key_of (_ajv this') ks items) /\
  (method <> "patch" ->
   exists errs,
     x_key_of (_ajv this') ks items = Ret errs /\
     hd_error errs = report <$> first_failure keys items [] /\
     (allErrors (_ajv this') = false ->
      errs = option_list (report <$> first_failure keys items [])) /\
     (errs = [] <->
      Forall (fun item => first_missing keys item = None) items /\
      NoDup (map (composite_id keys) items))) /\
  (method = "patch" ->
   forall parentSchema data,
     keyword_eval (_ajv this') "x-key" (JStr ks) parentSchema data = Ret []) /\
  validate_then_run keyed_validator "post" "/keyed" (request_with_body (JArr keyed_1_2))
    = Ret Next /\
  validate_then_run keyed_validator "post" "/keyed" (request_with_body (JArr keyed_a_a))
    = Ret (NextError [x_key_redundant "a"]) /\
  validate_then_run keyed_validator "post" "/keyed"
    (request_with_body (JArr [JObj [("id", JStr "a")]; JObj [("name", JStr "b")]]))
    = Ret (NextError [x_key_missing "id"]) /\
  validate_then_run keyed_validator "post" "/keyed"
    (request_with_body (JArr keyed_1_text_1)) = Ret Next /\
  validate_then_run keyed_validator "patch" "/keyed" (request_with_body (JArr keyed_a_a))
    = Ret Next.
Proof.
  intros Hvalidate Hitems keys.
  apply validate_inv in Hvalidate
    as (schema & jsonSchema & _ & _ & -> & validator & Hcompile & ->).
  split; [by exists jsonSchema, validator|]. split.
  { destruct (compile_x_key_node
                (mkAjv (allErrors (_ajv this)) (keywords_for method (RULES (_ajv this))))
                ks (if method =? "patch" then annotation else x_key_keyword))
      as (v & Hv & Hrun).
    - cbn [RULES]. apply keywords_for_x_key.
    - destruct (method =? "patch"); auto.
    - exists v. split; [exact Hv|apply Hrun]. }
  split; [|split; [|vm_compute; repeat split; reflexivity]].
  - intros Hmethod. apply String.eqb_neq in Hmethod.
    rewrite x_key_of_checked
      by (cbn [_ajv RULES]; rewrite keywords_for_x_key, Hmethod; reflexivity).
    cbn [_ajv allErrors]. fold keys.
    assert (Hnone : forall errs,
      hd_error errs = report <$> first_failure keys items [] ->
      errs = [] <->
      Forall (fun item => first_missing keys item = None) items /\
      NoDup (map (composite_id keys) items)).
    { intros errs Hhd.
      pose proof (first_failure_None keys items [] Hitems) as Hff.
      split.
      - intros ->. simpl in Hhd.
        destruct (first_failure keys items []); [discriminate|].
        destruct Hff as [Hff _]. destruct (Hff eq_refl) as (? & ? & _). auto.
      - intros [Hall Hnodup].
        destruct Hff as [_ Hff]. rewrite Hff in Hhd.
        + destruct errs; [reflexivity|discriminate].
        + split; [exact Hall|]. split; [exact Hnodup|].
          intros item _ Hin. inversion Hin. }
    destruct (allErrors (_ajv this)) eqn:Hall.
    + destruct (x_key_items_head keys items [] Hitems) as (errs & -> & Hhd).
      exists errs. split; [reflexivity|]. split; [exact Hhd|].
      split; [discriminate|]. by apply Hnone.
    + rewrite (x_key_items_first keys items [] Hitems).
      eexists. split; [reflexivity|].
      assert (Hhd : hd_error (option_list (report <$> first_failure keys items []))
                    = report <$> first_failure keys items [])
        by (destruct (first_failure keys items []); reflexivity).
      split; [exact Hhd|]. split; [reflexivity|]. by apply Hnone.
  - intros -> parentSchema data. unfold keyword_eval. cbn [_ajv RULES].
    rewrite keywords_for_x_key. reflexivity.
Qed.

Lemma x_key_unique_unless_patch_witness :
  validate resolve_id map_id no_parameters no_fragments items_validator "post" "/items"
    = Ret (items_after "post",
           request_handler (compiled (_ajv (items_after "post")) items_request_schema)) /\
  forallb (keyed_item (split_on "," "id")) keyed_1_2 = true /\
  exists errs, x_key_of (_ajv (items_after "post")) "id" keyed_1_2 = Ret errs /\
               hd_error errs = None.
Proof.
  assert (H1 : validate resolve_id map_id no_parameters no_fragments items_validator
                 "post" "/items"
               = Ret (items_after "post",
                      request_handler
                        (compiled (_ajv (items_after "post")) items_request_schema)))
    by reflexivity.
  assert (H2 : forallb (keyed_item (split_on "," "id")) keyed_1_2 = true)
    by reflexivity.
  split; [exact H1|]. split; [exact H2|].
  destruct (x_key_unique_unless_patch _ _ _ _ _ _ _ _ _ "id" keyed_1_2 H1 H2)
    as (_ & _ & Hpost & _).
  destruct (Hpost ltac:(discriminate)) as (errs & Hrun & Hhd & _).
  exists errs. split; [exact Hrun|exact Hhd].
Defined.

(** C2 as stated fails: the specification joins the values of the named
    fields into one text, so that a list keyed by [id] with the elements
    [{id: 1}] and [{id: "1"}] has a duplicate identifier; the validator
    accepts it. *)
Lemma x_key_number_and_text_are_distinct :
  ~ (forall method path ks items this' handler,
       validate resolve_id map_id no_parameters no_fragments keyed_validator method path
         = Ret (this', handler) ->
       method <> "patch" ->
       forallb (keyed_item (split_on "," ks)) items = true ->
       x_key_of (_ajv this') ks items
       = Ret (option_list (report <$> first_failure_joined (split_on "," ks) items []))).
Proof.
  intros Hspec.
  specialize (Hspec "post" "/keyed" "id" keyed_1_text_1 _ _ eq_refl
                ltac:(discriminate) eq_refl).
  vm_compute in Hspec. discriminate.
Qed.

(** ** readOnly *)

Lemma applies_readOnly data : applies (kw_type readOnly_keyword) data = defined data.
Proof. destruct data; reflexivity. Qed.

Lemma readOnly_variant all method rules sv parentSchema data :
  keyword_eval (mkAjv all (keywords_for method rules)) "readOnly" sv parentSchema data
  = Ret (if is_write_method method && defined data then [readOnly_error] else []).
Proof.
  unfold keyword_eval. cbn [RULES]. rewrite keywords_for_readOnly.
  destruct (is_write_method method); [|reflexivity].
  cbn [kw_code readOnly_keyword]. rewrite applies_readOnly.
  destruct (defined data); reflexivity.
Qed.

(** C3: the registry [validate] compiles with makes readOnly fail on every
    value present under POST, PUT and PATCH and makes it an annotation under
    every other method; a POST, PUT or PATCH request that carries a
    read-only field is rejected and the same GET request passes.  A GET
    response with the field passes on a fresh instance, but once
    [validate] has run for POST the response handler compiles with the
    write variant that call left in the registry, and the same GET response
    is rejected. *)
Theorem readOnly_write_variant_reaches_responses :
  (forall all method rules sv parentSchema data,
     keyword_eval (mkAjv all (keywords_for method rules)) "readOnly" sv parentSchema data
     = Ret (if is_write_method method && defined data then [readOnly_error] else [])) /\
  validate_then_run items_validator "post" "/items" request_with_id
    = Ret (NextError [readOnly_error]) /\
  validate_then_run items_validator "put" "/items" request_with_id
    = Ret (NextError [readOnly_error]) /\
  validate_then_run items_validator "patch" "/items" request_with_id
    = Ret (NextError [readOnly_error]) /\
  validate_then_run items_validator "get" "/items" request_with_id = Ret Next /\
  respond_after resolve_id map_id no_parameters no_fragments items_validator
    "get" "/items" [] response_with_id = Ret Next /\
  respond_after resolve_id map_id no_parameters no_fragments items_validator
    "get" "/items" [CallValidate "post" "/items"] response_with_id
    = Ret (NextError [readOnly_error]).
Proof.
  split; [exact readOnly_variant|].
  vm_compute. repeat split; reflexivity.
Qed.

(** ** Determinism of compilation *)

Lemma same_base_refl a : same_base a a.
Proof. unfold same_base. auto. Qed.

Lemma same_base_trans a b c : same_base a b -> same_base b c -> same_base a c.
Proof.
  intros (H1 & H2 & H3 & H4) (G1 & G2 & G3 & G4).
  repeat split; try congruence.
  intros kw Hr Hk. rewrite H4, G4; auto.
Qed.

Lemma keywords_for_same_base method (r1 r2 : gmap string KeywordDefinition) :
  (forall kw, kw <> "readOnly" -> kw <> "x-key" -> r1 !! kw = r2 !! kw) ->
  keywords_for method r1 = keywords_for method r2.
Proof.
  intros H. apply map_eq. intros kw.
  destruct (decide (kw = "x-key")) as [->|Hk].
  { by rewrite !keywords_for_x_key. }
  destruct (decide (kw = "readOnly")) as [->|Hr].
  { by rewrite !keywords_for_readOnly. }
  rewrite !keywords_for_other by assumption. by apply H.
Qed.

Section Determinism.

Variable resolveReference : JsValue -> JsValue -> Exec JsValue.
Variable mapOasSchemaToJsonSchema : JsValue -> JsValue -> bool -> bool -> Exec JsValue.
Variable parameters_resolve : JsValue -> JsValue -> JsValue -> Exec JsValue.
Variable parameters_buildSchema : JsValue -> Exec JsValue.

Lemma after_call_same_base this c :
  same_base this
    (after_call resolveReference mapOasSchemaToJsonSchema parameters_resolve
       parameters_buildSchema this c).
Proof.
  destruct c as [method path|method path]; unfold after_call.
  - destruct (validate_leaves_cases resolveReference mapOasSchemaToJsonSchema
                parameters_resolve parameters_buildSchema this method path) as [->| ->];
      [apply same_base_refl|].
    repeat split; try reflexivity.
    intros kw Hr Hk. cbn [_ajv RULES]. by rewrite keywords_for_other.
  - destruct (validateResponse _ _ this method path) as [[this' h]| |] eqn:E;
      try apply same_base_refl.
    unfold validateResponse in E. exec_inv E.
    rewrite addKeyword_removeKeyword, bind_Ret_l in E.
    inversion E; subst. repeat split; try reflexivity.
    intros kw Hr Hk. cbn [fst _ajv RULES].
    rewrite lookup_insert_ne by congruence.
    by rewrite lookup_delete_ne by congruence.
Qed.

Lemma after_calls_same_base this calls :
  same_base this
    (after_calls resolveReference mapOasSchemaToJsonSchema parameters_resolve
       parameters_buildSchema this calls).
Proof.
  revert this. induction calls as [|c calls IH]; intros this.
  - apply same_base_refl.
  - unfold after_calls. cbn [fold_left].
    eapply same_base_trans; [apply after_call_same_base|apply IH].
Qed.

(** Two instances with the same base give [validate] the same result. *)
Lemma validate_same_base_eq a b method path :
  same_base a b -> validate resolveReference mapOasSchemaToJsonSchema parameters_resolve
    parameters_buildSchema a method path = validate resolveReference mapOasSchemaToJsonSchema parameters_resolve
    parameters_buildSchema b method path.
Proof.
  destruct a as [[all1 rules1] doc1 d1], b as [[all2 rules2] doc2 d2].
  intros (Hdoc & Hd & Hall & Hrules). cbn in Hdoc, Hd, Hall, Hrules. subst.
  unfold validate. rewrite !validate_keywords_eq.
  cbn [_ajv _document disallowAdditionalPropertiesByDefault RULES allErrors].
  change (validate_schema_for resolveReference parameters_resolve parameters_buildSchema
            (mkValidator (mkAjv all2 rules1) doc2 d2) method path)
    with (validate_schema_for resolveReference parameters_resolve parameters_buildSchema
            (mkValidator (mkAjv all2 rules2) doc2 d2) method path).
  rewrite (keywords_for_same_base method rules1 rules2 Hrules). reflexivity.
Qed.

(** Two instances with the same base give [validate] the same handler. *)
Lemma validate_same_base a b method path a' handler :
  same_base a b ->
  validate resolveReference mapOasSchemaToJsonSchema parameters_resolve
    parameters_buildSchema a method path = Ret (a', handler) ->
  exists b',
    validate resolveReference mapOasSchemaToJsonSchema parameters_resolve
      parameters_buildSchema b method path = Ret (b', handler).
Proof.
  intros Hbase H. rewrite (validate_same_base_eq a b method path Hbase) in H. eauto.
Qed.

(** Request validators are deterministic: whatever calls of [validate]
    and [validateResponse] come in between, compiling (method, path) again
    yields the same handler. *)
Lemma validate_agrees_after_calls this calls method path this1 handler :
  validate resolveReference mapOasSchemaToJsonSchema parameters_resolve
    parameters_buildSchema this method path = Ret (this1, handler) ->
  exists this2,
    validate resolveReference mapOasSchemaToJsonSchema parameters_resolve
      parameters_buildSchema
      (after_calls resolveReference mapOasSchemaToJsonSchema parameters_resolve
         parameters_buildSchema this calls) method path = Ret (this2, handler).
Proof.
  intros H. eapply validate_same_base; [|exact H]. apply after_calls_same_base.
Qed.

End Determinism.

(** C6: compiling the response validator of one (operation, method) pair
    twice does not give validators that agree.  The handler returned by
    [validateResponse] for GET /list rejects a body with a duplicate key when
    it runs right away, and accepts the same body when a call of [validate]
    for PATCH came in between: the handler compiles when it runs, with the
    x-key variant the last call left in the shared registry. *)
Theorem response_validators_depend_on_calls_between :
  respond_after resolve_id map_id no_parameters no_fragments items_validator
    "get" "/list" [] response_with_duplicates
    = Ret (NextError [x_key_redundant "a"]) /\
  respond_after resolve_id map_id no_parameters no_fragments items_validator
    "get" "/list" [CallValidate "patch" "/items"] response_with_duplicates
    = Ret Next.
Proof. vm_compute. split; reflexivity. Qed.

(** ** _getResponseObject *)

Lemma decimal_digits_head fuel n acc :
  (0 <= n < 10 ^ Z.of_nat fuel)%Z -> (0 < fuel)%nat ->
  exists tail,
    decimal_digits fuel n acc = String (digit_char (leading_digit fuel n)) tail.
Proof.
  revert n acc. induction fuel as [|fuel IH]; intros n acc Hn Hfuel; [lia|].
  cbn [decimal_digits leading_digit].
  destruct (Z.eqb_spec (n / 10) 0) as [Hq|Hq].
  - assert (n < 10)%Z by (apply Z.div_small_iff in Hq; lia).
    destruct (Z.ltb_spec n 10); [|lia].
    rewrite Z.mod_small by lia. eauto.
  - assert (10 <= n)%Z.
    { destruct (Z.lt_ge_cases n 10) as [Hlt|]; [|assumption].
      exfalso. apply Hq. apply Z.div_small. lia. }
    destruct (Z.ltb_spec n 10); [lia|].
    assert (0 < fuel)%nat.
    { destruct fuel; [|lia]. simpl in Hn. lia. }
    apply IH; [|assumption].
    split; [apply Z.div_pos; lia|].
    apply Z.div_lt_upper_bound; [lia|].
    rewrite Nat2Z.inj_succ, Z.pow_succ_r in Hn by lia. lia.
Qed.

Lemma status_class_field statusCode :
  (0 <= statusCode < 10 ^ 21)%Z ->
  substring 0 1 (decimal statusCode) +:+ "XX" = status_class statusCode.
Proof.
  intros H. unfold decimal, status_class.
  destruct (Z.ltb_spec statusCode 0); [lia|].
  destruct (decimal_digits_head 22 statusCode "") as [tail ->]; [|lia|].
  - split; [lia|]. change (Z.of_nat 22) with 22%Z.
    assert (10 ^ 21 < 10 ^ 22)%Z by (apply Z.pow_lt_mono_r; lia). lia.
  - destruct tail; reflexivity.
Qed.

Lemma NumberToString_small z :
  (Z.abs z < 10 ^ 21)%Z -> NumberToString z = Ret (decimal z).
Proof.
  intros H. unfold NumberToString.
  destruct (Z.ltb_spec (Z.abs z) (10 ^ 21)); [reflexivity|lia].
Qed.

Lemma lodash_get_responses props responses key :
  obj_get props "responses" = JObj responses ->
  lodash_get (JObj props) ["responses"; key] JNull
  = Ret (match declared responses key with Some r => r | None => JNull end).
Proof.
  intros H. unfold lodash_get, declared. simpl. rewrite H. simpl.
  unfold obj_get. destruct (assoc key responses) as [v|]; [|reflexivity].
  destruct v; reflexivity.
Qed.

Lemma declared_not_null responses key r :
  declared responses key = Some r -> strict_eq r JNull = false.
Proof.
  unfold declared. destruct (assoc key responses) as [v|]; [|discriminate].
  destruct v; simpl; intros H; inversion H; reflexivity.
Qed.

(** C4: for an operation with a responses object and a status code,
    [_getResponseObject] returns (after reference resolution) the entry
    declared for the exact status-code string if there is one; otherwise the
    entry for the first digit followed by "XX"; otherwise the entry keyed
    "default"; and throws the error "No response object found" if none of
    the three is declared.  With entries for "404", "4XX" and "default",
    404 selects the exact entry, 403 the "4XX" entry and 500 "default". *)
Theorem response_selection_order
    (resolveReference : JsValue -> JsValue -> Exec JsValue)
    (this : OpenApiValidator) (props responses : list (string * JsValue))
    (statusCode : Z) :
  obj_get props "responses" = JObj responses ->
  (0 <= statusCode < 10 ^ 21)%Z ->
  _getResponseObject resolveReference this (JObj props) statusCode =
    match select_response responses statusCode with
    | Some r => resolveReference (_document this) r
    | None => Throw (Error ("No response object found with statusCode="
                              +:+ decimal statusCode))
    end /\
  _getResponseObject resolveReference this operation_404_4XX_default 404
    = resolveReference (_document this) (entry "exact") /\
  _getResponseObject resolveReference this operation_404_4XX_default 403
    = resolveReference (_document this) (entry "class") /\
  _getResponseObject resolveReference this operation_404_4XX_default 500
    = resolveReference (_document this) (entry "fallback") /\
  _getResponseObject resolveReference this operation_404_only 500
    = Throw (Error "No response object found with statusCode=500").
Proof.
  intros Hresponses Hcode. split; [|repeat split; reflexivity].
  unfold _getResponseObject, select_response.
  rewrite NumberToString_small by lia.
  rewrite bind_Ret_l.
  rewrite (lodash_get_responses props responses (decimal statusCode) Hresponses).
  rewrite bind_Ret_l, (status_class_field _ Hcode).
  rewrite (lodash_get_responses props responses (status_class statusCode) Hresponses).
  rewrite (lodash_get_responses props responses "default" Hresponses).
  destruct (declared responses (decimal statusCode)) as [r|] eqn:Hexact.
  { rewrite (declared_not_null _ _ _ Hexact), !bind_Ret_l.
    rewrite (declared_not_null _ _ _ Hexact), !bind_Ret_l.
    by rewrite (declared_not_null _ _ _ Hexact). }
  cbn [strict_eq]. rewrite bind_Ret_l.
  destruct (declared responses (status_class statusCode)) as [r|] eqn:Hclass.
  { rewrite (declared_not_null _ _ _ Hclass), !bind_Ret_l.
    by rewrite (declared_not_null _ _ _ Hclass). }
  cbn [strict_eq]. rewrite bind_Ret_l.
  destruct (declared responses "default") as [r|] eqn:Hdefault.
  { by rewrite (declared_not_null _ _ _ Hdefault). }
  reflexivity.
Qed.

Lemma response_selection_order_witness :
  obj_get (fields operation_404_4XX_default) "responses"
    = JObj [("404", entry "exact"); ("4XX", entry "class"); ("default", entry "fallback")] /\
  (0 <= 403 < 10 ^ 21)%Z /\
  _getResponseObject resolve_id items_validator operation_404_4XX_default 403
    = Ret (entry "class") /\
  _getResponseObject resolve_id items_validator operation_404_only 500
    = Throw (Error "No response object found with statusCode=500").
Proof.
  assert (H1 : obj_get (fields operation_404_4XX_default) "responses"
               = JObj [("404", entry "exact"); ("4XX", entry "class");
                       ("default", entry "fallback")]) by reflexivity.
  assert (H2 : (0 <= 403 < 10 ^ 21)%Z) by lia.
  split; [exact H1|]. split; [exact H2|]. split.
  - exact (proj1 (response_selection_order resolve_id items_validator
                    (fields operation_404_4XX_default) _ 403 H1 H2)).
  - assert (H3 : obj_get (fields operation_404_only) "responses"
                 = JObj [("404", entry "exact")]) by reflexivity.
    assert (H4 : (0 <= 500 < 10 ^ 21)%Z) by lia.
    exact (proj1 (response_selection_order resolve_id items_validator
                    (fields operation_404_only) _ 500 H3 H4)).
Defined.

(** ** The required list of the request schema *)

Lemma lodash_get_1 props key dflt :
  lodash_get (JObj props) [key] dflt
  = Ret (match obj_get props key with JUndefined => dflt | v => v end).
Proof. unfold lodash_get. simpl. destruct (obj_get props key); reflexivity. Qed.

Lemma cookies_condition cookies :
  (if negb (lodash_isEmpty cookies)
   then n ← Object_keys_length cookies; Ret (1 <? n)%nat
   else Ret false) = Ret (1 <? own_keys cookies)%nat.
Proof.
  destruct cookies as [| | | |s|items|props]; try reflexivity.
  - destruct s; reflexivity.
  - destruct items; reflexivity.
  - destruct props; reflexivity.
Qed.

(** C5, as the code has it: the required list of the request schema is
    "query", "headers", "params", then "cookies" if and only if the cookies
    fragment of the parameter schema has more than one own key, then "body"
    if and only if the request body object has [required] equal to true; and
    that list is the [required] of the object schema [validate] builds. *)
Theorem request_required_list
    (fragments requestBody : list (string * JsValue)) (body : JsValue) :
  let required :=
    (["query"; "headers"; "params"]
       ++ (if (1 <? own_keys (obj_get fragments "cookies"))%nat then ["cookies"] else [])
       ++ (if strict_eq (obj_get requestBody "required") (JBool true) then ["body"] else []))%list in
  request_required (JObj fragments) (JObj requestBody) = Ret required /\
  request_schema body (JObj fragments) (JObj requestBody)
    = Ret (JObj [("type", JStr "object");
                 ("properties", JObj (obj_spread [("body", body)] fragments));
                 ("required", JStrings required)]).
Proof.
  assert (H : request_required (JObj fragments) (JObj requestBody)
              = Ret (["query"; "headers"; "params"]
                       ++ (if (1 <? own_keys (obj_get fragments "cookies"))%nat
                           then ["cookies"] else [])
                       ++ (if strict_eq (obj_get requestBody "required") (JBool true)
                           then ["body"] else []))%list).
  { unfold request_required. cbn [GetV]. rewrite bind_Ret_l.
    rewrite cookies_condition, bind_Ret_l, lodash_get_1, bind_Ret_l.
    destruct (1 <? own_keys (obj_get fragments "cookies"))%nat;
      destruct (obj_get requestBody "required") as [| |[|]| | | |]; reflexivity. }
  split; [exact H|].
  unfold request_schema. cbn [spread_of]. rewrite bind_Ret_l, H. reflexivity.
Qed.

(** C5 as stated fails: with the parameter builder of the specification, one
    declared cookie parameter (a required one) already puts "cookies" on the
    required list. *)
Lemma one_cookie_parameter_requires_cookies :
  ~ (forall params required,
       request_required (buildSchema params) (JObj []) = Ret required ->
       ("cookies" ∈ required <-> (1 < cookie_parameters params)%nat)).
Proof.
  intros Hspec.
  specialize (Hspec [session_cookie] ["query"; "headers"; "params"; "cookies"] eq_refl).
  destruct Hspec as [Hspec _].
  assert (H : (1 < cookie_parameters [session_cookie])%nat).
  { apply Hspec. do 3 right. left. }
  vm_compute in H. lia.
Qed.

(** ** The constructor *)

Lemma compareMain_3 v :
  (0 <= minor v)%Z -> (0 <= patch v)%Z ->
  match compareMain v (mkSemVer 3 0 0 [] []) with Lt => false | _ => true end &&
  match compareMain v (mkSemVer 4 0 0 ["0"] []) with Lt => true | _ => false end
  = (major v =? 3)%Z.
Proof.
  intros Hminor Hpatch. unfold compareMain. cbn [major minor patch].
  destruct (Z.compare_spec (major v) 3) as [E|E|E];
    destruct (Z.compare_spec (major v) 4) as [F|F|F]; try lia;
    destruct (Z.eqb_spec (major v) 3); try lia;
    destruct (Z.compare_spec (minor v) 0); try lia;
    destruct (Z.compare_spec (patch v) 0); try lia; reflexivity.
Qed.

Lemma parse_digits_nonneg s acc z :
  (0 <= acc)%Z -> parse_digits s acc = Some z -> (0 <= z)%Z.
Proof.
  revert acc. induction s as [|c s IH]; intros acc Hacc H; simpl in H.
  - inversion H; subst. exact Hacc.
  - unfold digit_of in H.
    destruct ((48 <=? nat_of_ascii c)%nat && (nat_of_ascii c <=? 57)%nat);
      [|discriminate].
    apply IH in H; [exact H|lia].
Qed.

Lemma numeric_identifier_nonneg s z : numeric_identifier s = Some z -> (0 <= z)%Z.
Proof.
  unfold numeric_identifier. destruct s as [|c rest]; [discriminate|].
  destruct (Ascii.eqb c "0" && negb (rest =? "")); [discriminate|].
  destruct (parse_digits (String c rest) 0) as [z'|] eqn:E; [|discriminate].
  destruct (z' <=? MAX_SAFE_INTEGER)%Z; [|discriminate].
  intros H; inversion H; subst. eapply parse_digits_nonneg; [|exact E]. lia.
Qed.

Lemma parse_SemVer_nonneg s v :
  parse_SemVer s = Some v -> (0 <= minor v)%Z /\ (0 <= patch v)%Z.
Proof.
  unfold parse_SemVer.
  destruct (256 <? String.length s)%nat; [discriminate|].
  destruct (break_at "+" _) as [front bld].
  destruct (break_at "-" front) as [core pre].
  destruct (split_on "." core) as [|a [|b [|c [|? ?]]]]; try discriminate.
  destruct (numeric_identifier a) as [ma|] eqn:Ea; [|discriminate].
  destruct (numeric_identifier b) as [mi|] eqn:Eb; [|discriminate].
  destruct (numeric_identifier c) as [pa|] eqn:Ec; [|discriminate].
  destruct (forallb _ _ && forallb _ _); [|discriminate].
  intros H; inversion H; subst. cbn [minor patch].
  split; eapply numeric_identifier_nonneg; eassumption.
Qed.

(** The comparator set of [^3.0.0] admits exactly the release versions with
    major number 3. *)
Lemma semver_satisfies_supported openapi :
  version_modelled openapi = true ->
  semver_satisfies openapi = Ret (supported openapi).
Proof.
  unfold version_modelled, semver_satisfies, supported.
  destruct (truthy openapi) eqn:Ht; cbn [negb orb].
  - destruct openapi as [| | | |s| |]; try discriminate.
    intros ->. destruct (parse_SemVer s) as [v|] eqn:Ev; [|reflexivity].
    f_equal. unfold satisfies_caret_3_0_0, release_3.
    destruct (parse_SemVer_nonneg _ _ Ev) as [Hminor Hpatch].
    destruct (prerelease v).
    + rewrite compareMain_3 by assumption. by rewrite andb_true_r.
    + by rewrite andb_false_r.
  - intros _. destruct openapi as [| | | |s| |]; try reflexivity.
    simpl in Ht. destruct (s =? "") eqn:Es; [|discriminate].
    apply String.eqb_eq in Es. subst. reflexivity.
Qed.

(** C7, as the code has it: the constructor succeeds if and only if the
    [openapi] field is a semantic version in the range [^3.0.0], that is, a
    release version with major number 3 and any minor and patch number; for
    every other value (absent, "2.0", a prerelease, another major number) it
    throws the error "Unsupported OpenAPI / Swagger version=...".  So
    "3.0.0" and "3.0.3" are accepted, and so is "3.1.0". *)
Theorem constructor_accepts_caret_3
    (props : list (string * JsValue)) (options : ValidatorConfig) :
  let openapi := obj_get props "openapi" in
  let version := js_or openapi (obj_get props "swagger") in
  version_modelled openapi = true ->
  key_leaf version = true ->
  constructor (JObj props) options =
    (if supported openapi
     then Ret (mkValidator (mkAjv (ajvOptions_allErrors options) constructed_RULES)
                 (JObj props)
                 (strict_eq (option_disallowAdditionalPropertiesByDefault options)
                    (JBool true)))
     else Throw (Error ("Unsupported OpenAPI / Swagger version=" +:+ text version))) /\
  supported (JStr "3.0.0") = true /\
  supported (JStr "3.0.3") = true /\
  supported (JStr "3.1.0") = true /\
  supported (JStr "2.0") = false /\
  supported (JStr "4.0.0") = false /\
  supported (JStr "3.0.0-rc1") = false /\
  supported JUndefined = false.
Proof.
  intros openapi version Hmodelled Hleaf.
  split; [|repeat split; reflexivity].
  unfold constructor. cbn [GetV]. rewrite bind_Ret_l. fold openapi.
  rewrite (semver_satisfies_supported _ Hmodelled), bind_Ret_l.
  destruct (supported openapi); cbn [negb].
  - rewrite constructor_ajv_eq. reflexivity.
  - assert (Hv : (if truthy openapi then Ret openapi
                  else Ret (obj_get props "swagger")) = Ret version).
    { unfold version, js_or. destruct (truthy openapi); reflexivity. }
    rewrite Hv, bind_Ret_l, (ToString_leaf _ Hleaf). reflexivity.
Qed.

Lemma constructor_accepts_caret_3_witness :
  version_modelled (obj_get (fields (doc_with_version "3.1.0")) "openapi") = true /\
  key_leaf (js_or (obj_get (fields (doc_with_version "3.1.0")) "openapi")
              (obj_get (fields (doc_with_version "3.1.0")) "swagger")) = true /\
  constructor (doc_with_version "3.1.0") config_default
    = Ret (mkValidator (mkAjv false constructed_RULES) (doc_with_version "3.1.0") false).
Proof.
  assert (H1 : version_modelled (obj_get (fields (doc_with_version "3.1.0")) "openapi")
               = true) by reflexivity.
  assert (H2 : key_leaf (js_or (obj_get (fields (doc_with_version "3.1.0")) "openapi")
                           (obj_get (fields (doc_with_version "3.1.0")) "swagger"))
               = true) by reflexivity.
  split; [exact H1|]. split; [exact H2|].
  exact (proj1 (constructor_accepts_caret_3 (fields (doc_with_version "3.1.0"))
                  config_default H1 H2)).
Defined.

(** C7 as stated fails: an [openapi] field outside 3.0.x is accepted. *)
Lemma constructor_accepts_3_1_0 :
  ~ (forall doc options this,
       constructor doc options = Ret this ->
       exists openapi, GetV doc "openapi" = Ret openapi /\ is_3_0_x openapi = true).
Proof.
  intros Hspec.
  destruct (Hspec (doc_with_version "3.1.0") config_default
              (mkValidator (mkAjv false constructed_RULES) (doc_with_version "3.1.0") false))
    as (openapi & Hget & H30).
  - vm_compute. reflexivity.
  - inversion Hget; subst. vm_compute in H30. discriminate.
Qed.

(** ** resolveResponse *)

Lemma falsy_truthy v : falsy v = negb (truthy v).
Proof.
  destruct v as [| |[|]|z|s| |]; try reflexivity.
  - destruct z; reflexivity.
  - destruct s; reflexivity.
Qed.

Lemma first_not_falsy_or props a b :
  first_not_falsy (JObj props) a b
  = (if truthy (obj_get props a) then obj_get props a else obj_get props b).
Proof.
  unfold first_not_falsy. cbn [fields]. rewrite falsy_truthy.
  destruct (truthy (obj_get props a)); reflexivity.
Qed.

Lemma resolveResponse_object props :
  resolveResponse (JObj props) =
  (statusCodeNum ← ToNumber (first_not_falsy (JObj props) "statusCode" "status");
   match statusCodeNum with
   | Fin z =>
       if is_nullish (body_of (JObj props)) || is_nullish (headers_of (JObj props))
       then Throw (TypeError not_found_message)
       else Ret (mkResolved z (body_of (JObj props)) (headers_of (JObj props)))
   | NaN => Throw (TypeError not_found_message)
   end).
Proof.
  unfold resolveResponse, body_of, headers_of. rewrite !first_not_falsy_or.
  cbn [is_nullish GetV fields]. rewrite bind_Ret_l.
  destruct (truthy (obj_get props "statusCode")); rewrite bind_Ret_l;
    (destruct (ToNumber _) as [[|z]| |]; [| |reflexivity|reflexivity]);
    rewrite !bind_Ret_l;
    destruct (truthy (obj_get props "body")); rewrite !bind_Ret_l; reflexivity.
Qed.

(** C8: [resolveResponse] throws a TypeError exactly when the response-like
    value is null or undefined, or what [statusCode] (or [status], when
    [statusCode] is falsy) converts to is NaN, or [body] (or [data], when
    [body] is falsy) is null or undefined, or [headers] is; otherwise it
    returns the triple of status code, body and headers.  A body that is
    present but falsy (the empty string, 0, false) without [data] is thus
    not found, and a null [status] without [statusCode] gives the status
    code 0.  The handler of [validateResponse] normalizes first: when
    normalization throws, the handler throws that very error and nothing is
    selected, compiled or validated; when it returns, the handler validates
    the triple: the response object is selected by the status code and the
    body and the headers are validated against its schema. *)
Theorem resolveResponse_throws_exactly
    (resolveReference : JsValue -> JsValue -> Exec JsValue)
    (mapOasSchemaToJsonSchema : JsValue -> JsValue -> bool -> bool -> Exec JsValue)
    (operation : JsValue) (this : OpenApiValidator) (res : JsValue) :
  response_like res = true ->
  ((exists msg, resolveResponse res = Throw (TypeError msg)) <->
   is_nullish res = true \/ status_of res = None \/
   is_nullish (body_of res) = true \/ is_nullish (headers_of res) = true) /\
  (forall z, is_nullish res = false -> status_of res = Some z ->
             is_nullish (body_of res) = false -> is_nullish (headers_of res) = false ->
             resolveResponse res = Ret (mkResolved z (body_of res) (headers_of res))) /\
  (forall e, resolveResponse res = Throw e ->
             response_handler resolveReference mapOasSchemaToJsonSchema operation this res
             = Throw e) /\
  (forall r, resolveResponse res = Ret r ->
             response_handler resolveReference mapOasSchemaToJsonSchema operation this res
             = validate_normalized resolveReference mapOasSchemaToJsonSchema
                 operation this r) /\
  resolveResponse response_empty_body = Throw (TypeError not_found_message) /\
  resolveResponse response_zero_body = Throw (TypeError not_found_message) /\
  resolveResponse response_data_shape
    = Ret (mkResolved 200 (JObj [("id", JStr "7")]) (JObj [])) /\
  resolveResponse response_null_status
    = Ret (mkResolved 0 (JObj [("id", JStr "7")]) (JObj [])) /\
  respond_after resolve_id map_id no_parameters no_fragments items_validator
    "get" "/list" [] response_with_duplicates = Ret (NextError [x_key_redundant "a"]) /\
  respond_after resolve_id map_id no_parameters no_fragments items_validator
    "get" "/list" [] response_data_duplicates = Ret (NextError [x_key_redundant "a"]) /\
  respond_after resolve_id map_id no_parameters no_fragments items_validator
    "get" "/list" [] response_404_duplicates
    = Throw (Error "No response object found with statusCode=404") /\
  respond_after resolve_id map_id no_parameters no_fragments items_validator
    "get" "/list" [] response_empty_body = Throw (TypeError not_found_message).
Proof.
  intros Hlike.
  split; [|split; [|split; [|split; [|vm_compute; repeat split; reflexivity]]]].
  - destruct res as [| | | | | |props]; try discriminate.
    + split; [auto|]. intros _. eexists. reflexivity.
    + split; [auto|]. intros _. eexists. reflexivity.
    + rewrite resolveResponse_object. unfold status_of. cbn [is_nullish].
      unfold response_like in Hlike.
      destruct (ToNumber _) as [[|z]| |]; try discriminate; rewrite bind_Ret_l.
      * split; [auto|]. intros _. eexists. reflexivity.
      * destruct (is_nullish (body_of (JObj props))) eqn:Hb; cbn [orb].
        { split; [auto|]. intros _. eexists. reflexivity. }
        destruct (is_nullish (headers_of (JObj props))) eqn:Hh.
        { split; [auto|]. intros _. eexists. reflexivity. }
        split.
        -- intros [msg H]. discriminate.
        -- intros [H|[H|[H|H]]]; discriminate.
  - intros z Hres Hstatus Hbody Hheaders.
    destruct res as [| | | | | |props]; try discriminate.
    rewrite resolveResponse_object. unfold status_of in Hstatus.
    destruct (ToNumber _) as [[|z']| |]; try discriminate.
    inversion Hstatus; subst. rewrite bind_Ret_l, Hbody, Hheaders. reflexivity.
  - intros e H. unfold response_handler. rewrite H. reflexivity.
  - intros r H. unfold response_handler, validate_normalized. rewrite H. reflexivity.
Qed.

Lemma resolveResponse_throws_exactly_witness :
  response_like response_empty_body = true /\
  exists msg, resolveResponse response_empty_body = Throw (TypeError msg).
Proof.
  assert (H : response_like response_empty_body = true) by reflexivity.
  split; [exact H|].
  apply (proj1 (resolveResponse_throws_exactly resolve_id map_id JNull items_validator
                  response_empty_body H)).
  right. right. left. reflexivity.
Defined.

(** C8 as stated fails: a response whose status code, body and headers are
    all there, the body being the empty string, is not normalized but makes
    [resolveResponse] throw. *)
Lemma resolveResponse_rejects_empty_body :
  ~ (forall res, response_like res = true ->
       ((exists msg, resolveResponse res = Throw (TypeError msg)) <->
        determined res = false) /\
       (determined res = true -> exists r, resolveResponse res = Ret r)).
Proof.
  intros Hspec.
  destruct (Hspec response_empty_body eq_refl) as [_ Hreturns].
  destruct (Hreturns eq_refl) as [r Hr]. vm_compute in Hr. discriminate.
Qed.

(** ** The media type of body schemas *)

Lemma registered_rules_nil ajv g : registered_rules ajv [] g = [].
Proof.
  unfold registered_rules, registration_order. cbn [List.filter].
  change (uses [] _) with false.
  destruct (RULES ajv !! "x-empty"), (RULES ajv !! "x-range"), (RULES ajv !! "readOnly"),
    (RULES ajv !! "x-key"); rewrite ?andb_false_r; reflexivity.
Qed.

(** A validator compiled from the empty schema accepts every value. *)
Lemma compile_empty_schema ajv :
  exists validator,
    compile ajv (JObj []) = Ret validator /\ forall data, validator data = Ret [].
Proof.
  unfold compile, compile_schema. cbn [checkUnknownRules]. rewrite !registered_rules_nil.
  eexists. split; [reflexivity|]. intros data.
  unfold run_schema, check_type, rule_groups. cbn [map all_of].
  unfold run_group, group_used. rewrite !registered_rules_nil.
  reflexivity.
Qed.

Lemma lodash_get_yang props content :
  obj_get props "content" = JObj content ->
  lodash_get (JObj props) yang_path (JObj []) = schema_read (assoc yang_media content).
Proof.
  intros H. unfold lodash_get, yang_path, schema_read. simpl. rewrite H. simpl.
  unfold obj_get, yang_media.
  destruct (assoc "application/yang-data+json" content) as [media|]; [|reflexivity].
  simpl. destruct (is_nullish media) eqn:Hn; [reflexivity|].
  destruct (GetV media "schema") as [s| |]; reflexivity.
Qed.

Section BodySchema.

Variable resolveReference : JsValue -> JsValue -> Exec JsValue.
Variable mapOasSchemaToJsonSchema : JsValue -> JsValue -> bool -> bool -> Exec JsValue.
Variable parameters_resolve : JsValue -> JsValue -> JsValue -> Exec JsValue.
Variable parameters_buildSchema : JsValue -> Exec JsValue.

(** The request schema of an operation, given the content of its request
    body object. *)
Lemma validate_schema_for_yang this method path item op declared rb content :
  _getPathItemObject this path = Ret item ->
  _getOperationObject this method path = Ret (JObj op) ->
  obj_get op "requestBody" = JObj declared ->
  resolveReference (_document this) (JObj declared) = Ret (JObj rb) ->
  obj_get rb "content" = JObj content ->
  validate_schema_for resolveReference parameters_resolve parameters_buildSchema
    this method path
  = (bodySchema ← schema_read (assoc yang_media content);
     pathParameters ← GetV item "parameters";
     params ← parameters_resolve (_document this) pathParameters (obj_get op "parameters");
     parametersSchema ← parameters_buildSchema params;
     body ← resolveReference (_document this) bodySchema;
     request_schema body parametersSchema (JObj rb)).
Proof.
  intros Hitem Hop Hdeclared Hrb Hcontent. unfold validate_schema_for.
  rewrite Hitem, bind_Ret_l, Hop, bind_Ret_l.
  assert (Hget : lodash_get (JObj op) ["requestBody"] (JObj []) = Ret (JObj declared)).
  { unfold lodash_get. simpl. rewrite Hdeclared. reflexivity. }
  rewrite Hget, bind_Ret_l, Hrb, bind_Ret_l, (lodash_get_yang _ _ Hcontent).
  reflexivity.
Qed.

(** The response handler, given the content of the selected response
    object. *)
Lemma response_handler_yang operation this res r ro content :
  resolveResponse res = Ret r ->
  _getResponseObject resolveReference this operation (statusCode r) = Ret (JObj ro) ->
  obj_get ro "content" = JObj content ->
  response_handler resolveReference mapOasSchemaToJsonSchema operation this res
  = (bodySchema ← schema_read (assoc yang_media content);
     bodySchema ← resolveReference (_document this) bodySchema;
     schema ← mapOasSchemaToJsonSchema (response_schema bodySchema) (_document this)
                (disallowAdditionalPropertiesByDefault this) true;
     validator ← compile (_ajv this) schema;
     errors ← validator (JObj [("body", body r); ("headers", headers r)]);
     Ret (outcome_of errors)).
Proof.
  intros Hres Hro Hcontent. unfold response_handler.
  rewrite Hres, bind_Ret_l, Hro, bind_Ret_l, (lodash_get_yang _ _ Hcontent).
  reflexivity.
Qed.

End BodySchema.

(** C10: the body schema of a request body object or of a response object is
    what its content entry for "application/yang-data+json" holds, whatever
    other media types it declares; without such an entry it is the empty
    schema, and a validator compiled from the empty schema accepts every
    value.  The request schema [validate] builds for an operation has as
    body schema what the content of the operation's request body object
    holds under that media type, and the response handler compiles and runs
    the response schema around what the content of the selected response
    object holds under it.  For an operation whose bodies are declared under
    application/json only, as strings, a request and a response with a
    number as body pass; for one that declares strings under
    application/json and integers under application/yang-data+json, a number
    passes and a string is rejected as not being an integer. *)
Theorem body_schema_only_from_yang_media
    (props content : list (string * JsValue)) :
  obj_get props "content" = JObj content ->
  lodash_get (JObj props) yang_path (JObj []) = schema_read (assoc yang_media content) /\
  (assoc yang_media content = None ->
   lodash_get (JObj props) yang_path (JObj []) = Ret (JObj [])) /\
  (forall schema, assoc yang_media content = Some (JObj [("schema", schema)]) ->
                  schema <> JUndefined ->
                  lodash_get (JObj props) yang_path (JObj []) = Ret schema) /\
  (forall ajv, exists validator,
     compile ajv (JObj []) = Ret validator /\ forall data, validator data = Ret []) /\
  (forall resolveReference parameters_resolve parameters_buildSchema
          this method path item op declared,
     _getPathItemObject this path = Ret item ->
     _getOperationObject this method path = Ret (JObj op) ->
     obj_get op "requestBody" = JObj declared ->
     resolveReference (_document this) (JObj declared) = Ret (JObj props) ->
     validate_schema_for resolveReference parameters_resolve parameters_buildSchema
       this method path
     = (bodySchema ← schema_read (assoc yang_media content);
        pathParameters ← GetV item "parameters";
        params ← parameters_resolve (_document this) pathParameters
                   (obj_get op "parameters");
        parametersSchema ← parameters_buildSchema params;
        body ← resolveReference (_document this) bodySchema;
        request_schema body parametersSchema (JObj props))) /\
  (forall resolveReference mapOasSchemaToJsonSchema operation this res r,
     resolveResponse res = Ret r ->
     _getResponseObject resolveReference this operation (statusCode r) = Ret (JObj props) ->
     response_handler resolveReference mapOasSchemaToJsonSchema operation this res
     = (bodySchema ← schema_read (assoc yang_media content);
        bodySchema ← resolveReference (_document this) bodySchema;
        schema ← mapOasSchemaToJsonSchema (response_schema bodySchema) (_document this)
                   (disallowAdditionalPropertiesByDefault this) true;
        validator ← compile (_ajv this) schema;
        errors ← validator (JObj [("body", body r); ("headers", headers r)]);
        Ret (outcome_of errors))) /\
  validate_then_run json_validator "post" "/things" request_number_body = Ret Next /\
  respond_after resolve_id map_id no_parameters no_fragments json_validator
    "post" "/things" [] response_number_body = Ret Next /\
  validate_then_run yang_validator "post" "/things" request_number_body = Ret Next /\
  validate_then_run yang_validator "post" "/things" request_text_body
    = Ret (NextError [type_error "integer"]) /\
  respond_after resolve_id map_id no_parameters no_fragments yang_validator
    "post" "/things" [] response_number_body = Ret Next /\
  respond_after resolve_id map_id no_parameters no_fragments yang_validator
    "post" "/things" [] response_text_body = Ret (NextError [type_error "integer"]).
Proof.
  intros Hcontent.
  split; [by apply lodash_get_yang|].
  split; [intros Hnone; rewrite (lodash_get_yang _ _ Hcontent), Hnone; reflexivity|].
  split.
  { intros schema Hsome Hdef. rewrite (lodash_get_yang _ _ Hcontent), Hsome.
    cbn. destruct schema; try reflexivity. congruence. }
  split; [exact compile_empty_schema|].
  split.
  { intros R P B this method path item op declared Hitem Hop Hdeclared Hrb.
    by apply (validate_schema_for_yang R P B this method path item op declared props). }
  split.
  { intros R M operation this res r Hres Hro.
    by apply (response_handler_yang R M operation this res r props). }
  vm_compute. repeat split; reflexivity.
Qed.

Lemma body_schema_only_from_yang_media_witness :
  obj_get (fields (obj_get (fields json_operation) "requestBody")) "content"
    = JObj (fields json_content) /\
  lodash_get (obj_get (fields json_operation) "requestBody") yang_path (JObj [])
    = Ret (JObj []).
Proof.
  assert (H : obj_get (fields (obj_get (fields json_operation) "requestBody")) "content"
              = JObj (fields json_content)) by reflexivity.
  split; [exact H|].
  exact (proj1 (proj2 (body_schema_only_from_yang_media _ _ H)) eq_refl).
Defined.

(** * Further properties of the code *)

(** ** The registry across calls *)

Lemma same_base_sym a b : same_base a b -> same_base b a.
Proof.
  intros (H1 & H2 & H3 & H4). repeat split; try congruence.
  intros kw Hr Hk. symmetry. by apply H4.
Qed.

Section CallsFacts.

Variable resolveReference : JsValue -> JsValue -> Exec JsValue.
Variable mapOasSchemaToJsonSchema : JsValue -> JsValue -> bool -> bool -> Exec JsValue.
Variable parameters_resolve : JsValue -> JsValue -> JsValue -> Exec JsValue.
Variable parameters_buildSchema : JsValue -> Exec JsValue.

(** X1: no sequence of calls of [validate] and [validateResponse] changes
    the document, the additional-properties flag, the allErrors option, or
    the definition of any keyword other than readOnly and x-key. *)
Theorem calls_change_only_readOnly_and_x_key (this : OpenApiValidator) (calls : list Call) :
  _document (after_calls resolveReference mapOasSchemaToJsonSchema
     parameters_resolve parameters_buildSchema this calls) = _document this /\
  disallowAdditionalPropertiesByDefault (after_calls resolveReference mapOasSchemaToJsonSchema
     parameters_resolve parameters_buildSchema this calls)
    = disallowAdditionalPropertiesByDefault this /\
  allErrors (_ajv (after_calls resolveReference mapOasSchemaToJsonSchema
     parameters_resolve parameters_buildSchema this calls)) = allErrors (_ajv this) /\
  forall kw, kw <> "readOnly" -> kw <> "x-key" ->
             RULES (_ajv (after_calls resolveReference mapOasSchemaToJsonSchema
     parameters_resolve parameters_buildSchema this calls)) !! kw = RULES (_ajv this) !! kw.
Proof.
  destruct (after_calls_same_base resolveReference mapOasSchemaToJsonSchema
              parameters_resolve parameters_buildSchema this calls)
    as (H1 & H2 & H3 & H4).
  repeat split; try congruence. intros kw Hr Hk. symmetry. by apply H4.
Qed.

(** X2: [validate] forgets the history of the instance: after any calls of
    [validate] and [validateResponse], a call of [validate] returns the same
    handler, leaves the same instance behind, or throws the same error, as
    it does on the instance before those calls. *)
Theorem validate_forgets_calls (this : OpenApiValidator) (calls : list Call)
    (method path : string) :
  validate resolveReference mapOasSchemaToJsonSchema parameters_resolve
    parameters_buildSchema
    (after_calls resolveReference mapOasSchemaToJsonSchema
       parameters_resolve parameters_buildSchema this calls) method path
  = validate resolveReference mapOasSchemaToJsonSchema parameters_resolve
      parameters_buildSchema this method path.
Proof.
  apply validate_same_base_eq, same_base_sym, after_calls_same_base.
Qed.

(** Keywords other than readOnly and x-key stay as the constructor defined
    them. *)
Lemma constructed_keyword_stable doc options this calls kw :
  constructor doc options = Ret this ->
  kw <> "readOnly" -> kw <> "x-key" ->
  RULES (_ajv (after_calls resolveReference mapOasSchemaToJsonSchema
                 parameters_resolve parameters_buildSchema this calls)) !! kw
  = constructed_RULES !! kw.
Proof.
  intros Hnew Hr Hk. apply constructor_inv in Hnew as [-> _].
  destruct (after_calls_same_base resolveReference mapOasSchemaToJsonSchema
              parameters_resolve parameters_buildSchema
              (mkValidator (mkAjv (ajvOptions_allErrors options) constructed_RULES) doc
                 (strict_eq (option_disallowAdditionalPropertiesByDefault options)
                    (JBool true))) calls)
    as (_ & _ & _ & H).
  symmetry. by apply H.
Qed.

(** X3: on an instance built by the constructor, and after any calls, the
    x-empty keyword does not look at its annotation: [x-empty: false] (or any
    other value) enforces the same check as [x-empty: true], so an array
    passes if and only if it is [[null]]; a value that is not an array is
    never rejected by the keyword. *)
Theorem x_empty_ignores_its_annotation
    (doc : JsValue) (options : ValidatorConfig) (this : OpenApiValidator)
    (calls : list Call) (schemaValue parentSchema : JsValue) :
  constructor doc options = Ret this ->
  let run data :=
    keyword_eval
      (_ajv (after_calls resolveReference mapOasSchemaToJsonSchema
               parameters_resolve parameters_buildSchema this calls))
      "x-empty" schemaValue parentSchema data in
  (forall items, run (JArr items) = Ret [] <-> items = [JNull]) /\
  (forall items, items <> [JNull] -> run (JArr items) = Ret [x_empty_error]) /\
  (forall data, has_type TArray data = false -> run data = Ret []).
Proof.
  intros Hnew run.
  assert (Hrun : forall data,
            run data = if has_type TArray data then x_empty data else Ret []).
  { intros data. unfold run, keyword_eval.
    rewrite (constructed_keyword_stable _ _ _ _ _ Hnew) by discriminate.
    rewrite constructed_x_empty. cbn [kw_code kw_type x_empty_keyword applies existsb].
    by rewrite orb_false_r. }
  split; [|split].
  - intros items. rewrite Hrun. apply x_empty_accepts_iff.
  - intros items Hne. rewrite Hrun. by apply x_empty_rejects.
  - intros data Hdata. by rewrite Hrun, Hdata.
Qed.

Lemma passthrough_is_annotation kw :
  In kw passthrough_keywords ->
  kw <> "readOnly" /\ kw <> "x-key" /\ constructed_RULES !! kw = Some annotation.
Proof.
  unfold passthrough_keywords, ignoredExtensionKeywords. cbn [app In].
  intros H.
  repeat (destruct H as [<-|H];
          [split; [discriminate|split; [discriminate|vm_compute; reflexivity]]|]).
  destruct H.
Qed.

(** X4: the keywords the constructor adds by name only (example, xml,
    externalDocs and the thirteen ignored extension keywords, x-type among
    them) never produce an error, for any annotation and any value, on an
    instance built by the constructor and after any calls. *)
Theorem passthrough_keywords_validate_nothing
    (doc : JsValue) (options : ValidatorConfig) (this : OpenApiValidator)
    (calls : list Call) (kw : string) (schemaValue parentSchema data : JsValue) :
  constructor doc options = Ret this ->
  In kw passthrough_keywords ->
  keyword_eval
    (_ajv (after_calls resolveReference mapOasSchemaToJsonSchema
             parameters_resolve parameters_buildSchema this calls))
    kw schemaValue parentSchema data = Ret [].
Proof.
  intros Hnew Hkw.
  destruct (passthrough_is_annotation kw Hkw) as (Hr & Hk & Hlookup).
  unfold keyword_eval.
  rewrite (constructed_keyword_stable _ _ _ _ _ Hnew Hr Hk), Hlookup. reflexivity.
Qed.

(** X5: [validateResponse] installs the x-key uniqueness check whatever the
    method is, "patch" included, and leaves every other keyword (readOnly
    among them), the document and the options as it found them; the handler
    it returns is the response handler of the operation declared for the
    method and path. *)
Theorem validateResponse_installs_x_key
    (this this' : OpenApiValidator) (method path : string)
    (handler : OpenApiValidator -> JsValue -> Exec Outcome) :
  validateResponse resolveReference mapOasSchemaToJsonSchema this method path
    = Ret (this', handler) ->
  RULES (_ajv this') !! "x-key" = Some x_key_keyword /\
  (forall kw, kw <> "x-key" -> RULES (_ajv this') !! kw = RULES (_ajv this) !! kw) /\
  allErrors (_ajv this') = allErrors (_ajv this) /\
  _document this' = _document this /\
  disallowAdditionalPropertiesByDefault this'
    = disallowAdditionalPropertiesByDefault this /\
  exists operation,
    _getOperationObject this method path = Ret operation /\
    handler = response_handler resolveReference mapOasSchemaToJsonSchema operation.
Proof.
  unfold validateResponse. intros H. exec_inv H.
  rewrite addKeyword_removeKeyword, bind_Ret_l in H. inversion H; subst.
  cbn [_ajv RULES allErrors _document disallowAdditionalPropertiesByDefault].
  split; [apply lookup_insert_eq|].
  split.
  { intros kw Hk. rewrite lookup_insert_ne by congruence.
    by rewrite lookup_delete_ne by congruence. }
  repeat split. by exists a.
Qed.

End CallsFacts.

Lemma x_empty_ignores_its_annotation_witness :
  constructor items_doc config_default = Ret items_validator /\
  keyword_eval
    (_ajv (after_calls resolve_id map_id no_parameters no_fragments items_validator
             [CallValidate "post" "/items"]))
    "x-empty" (JBool false) (JObj []) (JArr []) = Ret [x_empty_error].
Proof.
  assert (H : constructor items_doc config_default = Ret items_validator)
    by (vm_compute; reflexivity).
  split; [exact H|].
  apply (proj1 (proj2 (x_empty_ignores_its_annotation resolve_id map_id no_parameters
                         no_fragments items_doc config_default items_validator
                         [CallValidate "post" "/items"] (JBool false) (JObj []) H))).
  discriminate.
Defined.

Lemma passthrough_keywords_validate_nothing_witness :
  constructor items_doc config_default = Ret items_validator /\
  In "x-type" passthrough_keywords /\
  keyword_eval
    (_ajv (after_calls resolve_id map_id no_parameters no_fragments items_validator
             [CallValidateResponse "get" "/list"]))
    "x-type" (JStr "int64") (JObj []) (JStr "12") = Ret [].
Proof.
  assert (H1 : constructor items_doc config_default = Ret items_validator)
    by (vm_compute; reflexivity).
  assert (H2 : In "x-type" passthrough_keywords)
    by (vm_compute; do 12 right; left; reflexivity).
  split; [exact H1|]. split; [exact H2|].
  exact (passthrough_keywords_validate_nothing resolve_id map_id no_parameters
           no_fragments items_doc config_default items_validator
           [CallValidateResponse "get" "/list"] "x-type" (JStr "int64") (JObj [])
           (JStr "12") H1 H2).
Defined.

Lemma validateResponse_installs_x_key_witness :
  validateResponse resolve_id map_id (items_after "patch") "patch" "/list"
    = Ret (mkValidator
             (mkAjv false (<["x-key" := x_key_keyword]>
                             (delete "x-key" (keywords_for "patch" constructed_RULES))))
             items_doc false,
           response_handler resolve_id map_id list_operation) /\
  RULES (_ajv (mkValidator
                 (mkAjv false (<["x-key" := x_key_keyword]>
                                 (delete "x-key" (keywords_for "patch" constructed_RULES))))
                 items_doc false)) !! "x-key" = Some x_key_keyword.
Proof.
  assert (H : validateResponse resolve_id map_id (items_after "patch") "patch" "/list"
              = Ret (mkValidator
                       (mkAjv false
                          (<["x-key" := x_key_keyword]>
                             (delete "x-key" (keywords_for "patch" constructed_RULES))))
                       items_doc false,
                     response_handler resolve_id map_id list_operation))
    by reflexivity.
  split; [exact H|].
  exact (proj1 (validateResponse_installs_x_key resolve_id map_id _ _ _ _ _ H)).
Defined.

(** ** Paths and methods the document does not declare *)

Lemma obj_get_JObj props k inner :
  obj_get props k = JObj inner -> assoc k props = Some (JObj inner).
Proof. unfold obj_get. destruct (assoc k props); simpl; intros H; [by subst|discriminate]. Qed.

Section Undeclared.

Variable resolveReference : JsValue -> JsValue -> Exec JsValue.
Variable mapOasSchemaToJsonSchema : JsValue -> JsValue -> bool -> bool -> Exec JsValue.
Variable parameters_resolve : JsValue -> JsValue -> JsValue -> Exec JsValue.
Variable parameters_buildSchema : JsValue -> Exec JsValue.

(** X6: for a path the document does not declare, [validate] throws the
    error "Path=<path> not found from OpenAPI document" while
    [validateResponse] throws "Path=<path> with method=<method> not found
    from OpenAPI document"; for a declared path that does not offer the
    method, both throw the latter.  Neither returns a handler. *)
Theorem undeclared_routes_throw
    (this : OpenApiValidator) (d ps : list (string * JsValue)) (method path : string) :
  _document this = JObj d ->
  obj_get d "paths" = JObj ps ->
  (assoc path ps = None ->
   validate resolveReference mapOasSchemaToJsonSchema parameters_resolve
     parameters_buildSchema this method path = Throw (path_not_found path) /\
   validateResponse resolveReference mapOasSchemaToJsonSchema this method path
     = Throw (method_not_found method path)) /\
  (forall item,
     assoc path ps = Some (JObj item) -> assoc method item = None ->
     validate resolveReference mapOasSchemaToJsonSchema parameters_resolve
       parameters_buildSchema this method path = Throw (method_not_found method path) /\
     validateResponse resolveReference mapOasSchemaToJsonSchema this method path
       = Throw (method_not_found method path)).
Proof.
  intros Hdoc Hpaths. apply obj_get_JObj in Hpaths.
  unfold validate, validateResponse, validate_schema_for,
    _getPathItemObject, _getOperationObject.
  rewrite Hdoc. cbn [lodash_has GetV]. rewrite Hpaths.
  split.
  - intros Hnone. rewrite Hnone. split; reflexivity.
  - intros item Hitem Hmethod. rewrite Hitem. cbn [lodash_has]. rewrite Hmethod.
    unfold obj_get. rewrite Hpaths. cbn [default GetV]. unfold obj_get.
    rewrite ?Hitem. split; reflexivity.
Qed.

End Undeclared.

Lemma undeclared_routes_throw_witness :
  _document items_validator = JObj (fields items_doc) /\
  obj_get (fields items_doc) "paths" = JObj (fields (obj_get (fields items_doc) "paths")) /\
  validate resolve_id map_id no_parameters no_fragments items_validator "get" "/nowhere"
    = Throw (path_not_found "/nowhere") /\
  validateResponse resolve_id map_id items_validator "get" "/nowhere"
    = Throw (method_not_found "get" "/nowhere").
Proof.
  assert (H1 : _document items_validator = JObj (fields items_doc)) by reflexivity.
  assert (H2 : obj_get (fields items_doc) "paths"
               = JObj (fields (obj_get (fields items_doc) "paths"))) by reflexivity.
  split; [exact H1|]. split; [exact H2|].
  exact (proj1 (undeclared_routes_throw resolve_id map_id no_parameters no_fragments
                  items_validator _ _ "get" "/nowhere" H1 H2) eq_refl).
Defined.

(** ** The request handler *)

Lemma assoc_obj_set k k' v props :
  assoc k (obj_set k' v props) = if k' =? k then Some v else assoc k props.
Proof.
  induction props as [|[k0 v0] rest IH]; cbn [obj_set assoc].
  - reflexivity.
  - destruct (k0 =? k') eqn:E0.
    + apply String.eqb_eq in E0. subst. cbn [assoc].
      destruct (k' =? k); reflexivity.
    + cbn [assoc]. rewrite IH.
      destruct (k0 =? k) eqn:E1; [|reflexivity].
      apply String.eqb_eq in E1. subst.
      rewrite String.eqb_sym, E0. reflexivity.
Qed.

Lemma assoc_not_in k (props : list (string * JsValue)) :
  ~ In k (map fst props) -> assoc k props = None.
Proof.
  induction props as [|[k0 v0] rest IH]; cbn [map fst In assoc]; intros H; [reflexivity|].
  destruct (String.eqb_spec k0 k) as [->|Hne].
  - exfalso. apply H. by left.
  - apply IH. intros Hin. apply H. by right.
Qed.

Lemma assoc_obj_spread k a b :
  NoDup (map fst b) ->
  assoc k (obj_spread a b) =
  match assoc k b with Some v => Some v | None => assoc k a end.
Proof.
  unfold obj_spread. revert a.
  induction b as [|[k0 v0] rest IH]; intros a Hnodup; cbn [fold_left assoc].
  - reflexivity.
  - cbn [map fst] in Hnodup. apply NoDup_cons in Hnodup as [Hnotin Hnodup].
    rewrite (IH _ Hnodup). cbn [fst snd]. rewrite assoc_obj_set.
    destruct (String.eqb_spec k0 k) as [->|Hne]; [|reflexivity].
    rewrite assoc_not_in; [reflexivity|].
    intros Hin. apply Hnotin. by apply list_elem_of_In.
Qed.

Lemma lodash_pick_agree p p' keys :
  (forall k, In k keys -> assoc k p = assoc k p') ->
  lodash_pick p keys = lodash_pick p' keys.
Proof.
  induction keys as [|k rest IH]; intros H; cbn [lodash_pick]; [reflexivity|].
  rewrite <- (H k) by (by left). rewrite IH; [reflexivity|].
  intros k' Hin. apply H. by right.
Qed.

(** X7: when [req.cookies] is an object, the request handler validates the
    picked request fields together with one [cookies] object in which every
    signed cookie is present with its signed value and every other cookie
    keeps its ordinary value: on a name that occurs in both, the signed
    value wins. *)
Theorem request_cookies_signed_win
    (validator : ValidateFunction) (props c s : list (string * JsValue)) :
  obj_get props "cookies" = JObj c ->
  spread_of (obj_get props "signedCookies") = Ret s ->
  NoDup (map fst s) ->
  request_handler validator (JObj props)
    = (errors ← validator (request_to_validate props (JObj (obj_spread c s)));
       Ret (outcome_of errors)) /\
  forall k, assoc k (obj_spread c s)
            = match assoc k s with Some v => Some v | None => assoc k c end.
Proof.
  intros Hc Hs Hnodup. split; [|intros k; by apply assoc_obj_spread].
  unfold request_handler, request_to_validate, outcome_of, picked_fields.
  cbn [GetV]. rewrite !bind_Ret_l, Hc. cbn [truthy spread_of].
  rewrite !bind_Ret_l, Hs, !bind_Ret_l. reflexivity.
Qed.

(** X8: when [req.cookies] is missing or falsy, the validated object has
    [cookies] undefined, whatever [req.signedCookies] holds: signed cookies
    alone are not validated. *)
Theorem request_without_cookies_drops_signed
    (validator : ValidateFunction) (props : list (string * JsValue)) :
  truthy (obj_get props "cookies") = false ->
  request_handler validator (JObj props)
    = (errors ← validator (request_to_validate props JUndefined);
       Ret (outcome_of errors)).
Proof.
  intros Hc. unfold request_handler, request_to_validate, outcome_of, picked_fields.
  cbn [GetV]. rewrite !bind_Ret_l, Hc, !bind_Ret_l. reflexivity.
Qed.

(** X9: the request handler reads six fields of the request and nothing
    else: two requests that agree on query, headers, params, body, cookies
    and signedCookies get the same outcome from the same validator. *)
Theorem request_handler_reads_six_fields
    (validator : ValidateFunction) (p p' : list (string * JsValue)) :
  (forall k, In k read_fields -> assoc k p = assoc k p') ->
  request_handler validator (JObj p) = request_handler validator (JObj p').
Proof.
  intros H. unfold request_handler. cbn [GetV]. unfold obj_get.
  rewrite (lodash_pick_agree p p' ["query"; "headers"; "params"; "body"])
    by (intros k Hk; apply H; unfold read_fields, picked_fields;
        apply in_or_app; by left).
  rewrite (H "cookies") by (vm_compute; tauto).
  rewrite (H "signedCookies") by (vm_compute; tauto).
  reflexivity.
Qed.

Lemma request_cookies_signed_win_witness :
  obj_get (fields request_with_cookies) "cookies"
    = JObj [("theme", JStr "dark"); ("session", JStr "forged")] /\
  spread_of (obj_get (fields request_with_cookies) "signedCookies")
    = Ret [("session", JStr "s1")] /\
  NoDup (map fst [("session", JStr "s1")]) /\
  assoc "session" (obj_spread [("theme", JStr "dark"); ("session", JStr "forged")]
                     [("session", JStr "s1")]) = Some (JStr "s1").
Proof.
  assert (H1 : obj_get (fields request_with_cookies) "cookies"
               = JObj [("theme", JStr "dark"); ("session", JStr "forged")])
    by reflexivity.
  assert (H2 : spread_of (obj_get (fields request_with_cookies) "signedCookies")
               = Ret [("session", JStr "s1")]) by reflexivity.
  assert (H3 : NoDup (map fst [("session", JStr "s1")])).
  { simpl. apply NoDup_cons. split; [intros H; inversion H|apply NoDup_nil_2]. }
  split; [exact H1|]. split; [exact H2|]. split; [exact H3|].
  exact (proj2 (request_cookies_signed_win (compiled (_ajv items_validator) (JObj []))
                  _ _ _ H1 H2 H3) "session").
Defined.

Lemma request_without_cookies_drops_signed_witness :
  truthy (obj_get (fields request_signed_only) "cookies") = false /\
  request_handler (compiled (_ajv items_validator) (JObj [("required", JStrings ["cookies"])]))
    request_signed_only
    = Ret (NextError [mkError "required" "must have required property 'cookies'"]).
Proof.
  assert (H : truthy (obj_get (fields request_signed_only) "cookies") = false)
    by reflexivity.
  split; [exact H|].
  rewrite (request_without_cookies_drops_signed _ (fields request_signed_only) H).
  reflexivity.
Defined.

Lemma request_handler_reads_six_fields_witness :
  (forall k, In k read_fields ->
             assoc k (fields request_with_id) = assoc k (fields request_with_id_and_more)) /\
  request_handler (compiled (_ajv (items_after "post")) items_request_schema) request_with_id
    = request_handler (compiled (_ajv (items_after "post")) items_request_schema)
        request_with_id_and_more.
Proof.
  assert (H : forall k, In k read_fields ->
                        assoc k (fields request_with_id)
                        = assoc k (fields request_with_id_and_more)).
  { intros k Hk. vm_compute in Hk.
    repeat (destruct Hk as [<-|Hk]; [reflexivity|]). destruct Hk. }
  split; [exact H|].
  exact (request_handler_reads_six_fields _ _ _ H).
Defined.

(** ** x-range *)

Lemma constructed_x_range : constructed_RULES !! "x-range" = Some x_range_keyword.
Proof. vm_compute. reflexivity. Qed.



(** X11: under an [int64] or [uint64] type hint, a string that holds a
    character no numeric literal can contain does not fail validation: the
    BigInt conversion throws a SyntaxError out of the validator, whatever
    the ranges are. *)
Theorem x_range_int64_throws_on_text
    (all : bool) (schemaValue : JsValue) (props : list (string * JsValue)) (s : string) :
  classify s = SNotNumeric ->
  is_64bit_hint (obj_get props "x-type") = true ->
  x_range schemaValue (JObj props) (JStr s)
    = Throw (SyntaxError ("Cannot convert " +:+ s +:+ " to a BigInt")) /\
  keyword_eval (mkAjv all constructed_RULES) "x-range" schemaValue (JObj props) (JStr s)
    = Throw (SyntaxError ("Cannot convert " +:+ s +:+ " to a BigInt")).
Proof.
  intros Hclass Hhint.
  assert (H : x_range schemaValue (JObj props) (JStr s)
              = Throw (SyntaxError ("Cannot convert " +:+ s +:+ " to a BigInt"))).
  { unfold x_range. cbn [GetV]. rewrite bind_Ret_l.
    unfold is_64bit_hint in Hhint. rewrite Hhint.
    unfold StringToBigInt. rewrite Hclass. reflexivity. }
  split; [exact H|].
  unfold keyword_eval. cbn [RULES]. rewrite constructed_x_range. exact H.
Qed.

Lemma x_range_int64_throws_on_text_witness :
  classify "hello" = SNotNumeric /\
  is_64bit_hint (obj_get (fields int64_parent) "x-type") = true /\
  x_range (JArr [range_obj (0, 9007199254740992)%Z]) int64_parent (JStr "hello")
    = Throw (SyntaxError "Cannot convert hello to a BigInt").
Proof.
  assert (H1 : classify "hello" = SNotNumeric) by reflexivity.
  assert (H2 : is_64bit_hint (obj_get (fields int64_parent) "x-type") = true)
    by reflexivity.
  split; [exact H1|]. split; [exact H2|].
  exact (proj1 (x_range_int64_throws_on_text false _ (fields int64_parent) "hello" H1 H2)).
Defined.

(** ** x-key *)

Lemma x_key_id_complete keys item :
  keyed_item keys item = true -> first_missing keys item = None ->
  x_key_id item keys 0 (JStr "") = Ret (composite_id keys item, None) /\
  key_leaf (composite_id keys item) = true.
Proof.
  intros Hitem Hnone. pose proof (x_key_id_spec keys item Hitem) as H.
  by rewrite Hnone in H.
Qed.

(** Two complete elements with the same identifier: the second is reported,
    with or without [allErrors]. *)
Lemma x_key_two_equal all keys i1 i2 :
  keyed_item keys i1 = true -> keyed_item keys i2 = true ->
  first_missing keys i1 = None -> first_missing keys i2 = None ->
  composite_id keys i1 = composite_id keys i2 ->
  x_key_items all keys [i1; i2] []
    = Ret [x_key_redundant (text (composite_id keys i2))].
Proof.
  intros H1 H2 M1 M2 Heq.
  destruct (x_key_id_complete keys i1 H1 M1) as [E1 L1].
  destruct (x_key_id_complete keys i2 H2 M2) as [E2 L2].
  cbn [x_key_items]. rewrite E1, bind_Ret_l. cbn [fst snd Set_has existsb].
  rewrite E2, bind_Ret_l. cbn [fst snd Set_has existsb].
  rewrite Heq, (strict_eq_refl_leaf _ L2). cbn [orb].
  rewrite (ToString_leaf _ L2).
  destruct all; reflexivity.
Qed.

Lemma length_append (a b : string) :
  String.length (a +:+ b) = (String.length a + String.length b)%nat.
Proof.
  induction a as [|c a IH]; [reflexivity|].
  change (S (String.length (a +:+ b)) = S (String.length a + String.length b)).
  by rewrite IH.
Qed.

(** X12: identifiers are joined with commas and nothing escapes a comma
    inside a value.  For the key "a,b", an element with [a = s,t] and
    [b = u] and an element with [a = s] and [b = t,u] have different key
    values and the same identifier: an array holding just these two is
    rejected as having the redundant key [s,t,u]. *)
Theorem x_key_comma_in_value_collides (all : bool) (s t u : string) :
  obj_get (fields (comma_left s t u)) "a" <> obj_get (fields (comma_right s t u)) "a" /\
  x_key all (JStr "a,b") (JArr [comma_left s t u; comma_right s t u])
    = Ret [x_key_redundant (s +:+ "," +:+ t +:+ "," +:+ u)].
Proof.
  split.
  - cbn. intros H. inversion H as [Hs].
    apply (f_equal String.length) in Hs.
    rewrite !length_append in Hs. cbn in Hs. lia.
  - unfold x_key. change (split_on "," "a,b") with ["a"; "b"].
    rewrite (x_key_two_equal all ["a"; "b"] (comma_left s t u) (comma_right s t u));
      try reflexivity.
    unfold composite_id, comma_left, comma_right. cbn.
    by rewrite !append_assoc.
Qed.

(** X13: with [allErrors], an element that lacks a key field still leaves
    its partly built identifier in the set of seen identifiers.  For the key
    "a,b", after an element that has only [a = s,t], the complete element
    with [a = s] and [b = t] is reported as redundant although no element
    before it has both key fields; without [allErrors] the walk stops at the
    missing key. *)
Theorem x_key_remembers_partial_identifier (s t : string) :
  x_key true (JStr "a,b") (JArr [lacking_b s t; complete s t])
    = Ret [x_key_missing "b"; x_key_redundant (s +:+ "," +:+ t)] /\
  x_key false (JStr "a,b") (JArr [lacking_b s t; complete s t])
    = Ret [x_key_missing "b"] /\
  forall all, x_key all (JStr "a,b") (JArr [complete s t]) = Ret [].
Proof.
  unfold x_key. change (split_on "," "a,b") with ["a"; "b"].
  split; [|split; [reflexivity|intros all; destruct all; reflexivity]].
  cbn. rewrite !append_assoc, String.eqb_refl. reflexivity.
Qed.

(** ** readOnly *)

Section ReadOnlyFacts.

Variable resolveReference : JsValue -> JsValue -> Exec JsValue.
Variable mapOasSchemaToJsonSchema : JsValue -> JsValue -> bool -> bool -> Exec JsValue.
Variable parameters_resolve : JsValue -> JsValue -> JsValue -> Exec JsValue.
Variable parameters_buildSchema : JsValue -> Exec JsValue.

(** X14: in the registry [validate] leaves behind for "post", "put" or
    "patch", the readOnly keyword rejects every value that is present,
    whatever its annotation says: a property declared [readOnly: false] is
    rejected like one declared [readOnly: true].  For every other method the
    keyword rejects nothing. *)
Theorem readOnly_ignores_its_annotation
    (this this' : OpenApiValidator) (method path : string)
    (handler : JsValue -> Exec Outcome) (schemaValue parentSchema data : JsValue) :
  validate resolveReference mapOasSchemaToJsonSchema parameters_resolve
    parameters_buildSchema this method path = Ret (this', handler) ->
  defined data = true ->
  keyword_eval (_ajv this') "readOnly" schemaValue parentSchema data
    = Ret (if (method =? "post") || (method =? "patch") || (method =? "put")
           then [readOnly_error] else []).
Proof.
  intros Hvalidate Hdata.
  apply validate_inv in Hvalidate as (_ & _ & _ & _ & -> & _).
  cbn [_ajv]. rewrite readOnly_variant, Hdata, andb_true_r. reflexivity.
Qed.

End ReadOnlyFacts.

Lemma readOnly_ignores_its_annotation_witness :
  validate resolve_id map_id no_parameters no_fragments items_validator "put" "/items"
    = Ret (items_after "put",
           request_handler (compiled (_ajv (items_after "put")) items_request_schema)) /\
  defined (JStr "7") = true /\
  keyword_eval (_ajv (items_after "put")) "readOnly" (JBool false) (JObj []) (JStr "7")
    = Ret [readOnly_error].
Proof.
  assert (H1 : validate resolve_id map_id no_parameters no_fragments items_validator
                 "put" "/items"
               = Ret (items_after "put",
                      request_handler
                        (compiled (_ajv (items_after "put")) items_request_schema)))
    by reflexivity.
  assert (H2 : defined (JStr "7") = true) by reflexivity.
  split; [exact H1|]. split; [exact H2|].
  exact (readOnly_ignores_its_annotation resolve_id map_id no_parameters no_fragments
           _ _ _ _ _ (JBool false) (JObj []) (JStr "7") H1 H2).
Defined.

(** ** Operations without responses *)

(** X15: for an operation that has no responses object (or is itself null
    or undefined), [_getResponseObject] throws the error "No response object
    found with statusCode=<code>" for every status code, negative ones
    included; it does not throw a TypeError and does not consult the
    reference resolver. *)
Theorem no_responses_no_response_object
    (resolveReference : JsValue -> JsValue -> Exec JsValue)
    (this : OpenApiValidator) (op : JsValue) (statusCode : Z) :
  no_responses op = true ->
  (Z.abs statusCode < 10 ^ 21)%Z ->
  _getResponseObject resolveReference this op statusCode
    = Throw (Error ("No response object found with statusCode=" +:+ decimal statusCode)).
Proof.
  intros Hop Hcode. unfold _getResponseObject.
  rewrite NumberToString_small by exact Hcode. rewrite bind_Ret_l.
  assert (Hget : forall key, lodash_get op ["responses"; key] JNull = Ret JNull).
  { intros key. destruct op as [| | | | | |props]; try discriminate; try reflexivity.
    unfold lodash_get. simpl. simpl in Hop.
    destruct (obj_get props "responses"); try discriminate; reflexivity. }
  rewrite !Hget. reflexivity.
Qed.

Lemma no_responses_no_response_object_witness :
  no_responses (JObj [("summary", JStr "list items")]) = true /\
  (Z.abs (-1) < 10 ^ 21)%Z /\
  _getResponseObject resolve_id items_validator (JObj [("summary", JStr "list items")]) (-1)
    = Throw (Error "No response object found with statusCode=-1").
Proof.
  assert (H1 : no_responses (JObj [("summary", JStr "list items")]) = true)
    by reflexivity.
  assert (H2 : (Z.abs (-1) < 10 ^ 21)%Z) by (simpl; lia).
  split; [exact H1|]. split; [exact H2|].
  exact (no_responses_no_response_object resolve_id items_validator _ (-1) H1 H2).
Defined.

(** ** match *)

Section MatchFacts.

Variable resolveReference : JsValue -> JsValue -> Exec JsValue.
Variable mapOasSchemaToJsonSchema : JsValue -> JsValue -> bool -> bool -> Exec JsValue.
Variable parameters_resolve : JsValue -> JsValue -> JsValue -> Exec JsValue.
Variable parameters_buildSchema : JsValue -> Exec JsValue.
Variable pathToRegexp : string -> Exec (JsValue -> bool).

Lemma path_regexps_none templates paths reqPath :
  path_regexps pathToRegexp templates = Ret paths ->
  (forall template regex, In template templates ->
     pathToRegexp template = Ret regex -> regex reqPath = false) ->
  find (fun p => p.2 reqPath) paths = None.
Proof.
  revert paths. induction templates as [|t rest IH]; intros paths H Hnone;
    cbn [path_regexps] in H.
  - inversion H. reflexivity.
  - exec_inv H. exec_inv H. inversion H; subst. cbn [find snd].
    rewrite (Hnone t a) by (by left || assumption).
    apply IH; [assumption|]. intros template regex Hin. apply Hnone. by right.
Qed.

Lemma path_regexps_first pre t post paths rt reqPath :
  path_regexps pathToRegexp (pre ++ t :: post)%list = Ret paths ->
  (forall template regex, In template pre ->
     pathToRegexp template = Ret regex -> regex reqPath = false) ->
  pathToRegexp t = Ret rt -> rt reqPath = true ->
  find (fun p => p.2 reqPath) paths = Some (t, rt).
Proof.
  revert paths. induction pre as [|p pre IH]; intros paths H Hpre Ht Hrt;
    cbn [app path_regexps] in H.
  - rewrite Ht, bind_Ret_l in H. exec_inv H. inversion H; subst.
    cbn [find snd]. by rewrite Hrt.
  - exec_inv H. exec_inv H. inversion H; subst. cbn [find snd].
    rewrite (Hpre p a) by (by left || assumption).
    apply IH; try assumption. intros template regex Hin. apply Hpre. by right.
Qed.

Lemma match_inv this options h documentPaths templates :
  match_ resolveReference mapOasSchemaToJsonSchema parameters_resolve
    parameters_buildSchema pathToRegexp this options = Ret h ->
  GetV (_document this) "paths" = Ret documentPaths ->
  lodash_keys documentPaths = Ret templates ->
  exists paths,
    path_regexps pathToRegexp templates = Ret paths /\
    h = matchAndValidate resolveReference mapOasSchemaToJsonSchema parameters_resolve
          parameters_buildSchema options paths.
Proof.
  unfold match_. intros H Hpaths Hkeys.
  rewrite Hpaths, bind_Ret_l, Hkeys, bind_Ret_l in H. exec_inv H.
  inversion H; subst. eauto.
Qed.

(** X16: when no path template of the document matches the path of the
    request, the handler of [match] leaves the instance alone and does not
    validate: it calls [next()] if [allowNoMatch] is truthy, and otherwise
    [next] with the error "Path=<path> with method=<method> not found from
    OpenAPI document", the method in lower case. *)
Theorem match_without_template
    (this now : OpenApiValidator) (options : MatchOptions)
    (h : OpenApiValidator -> JsValue -> Exec (OpenApiValidator * MatchOutcome))
    (documentPaths : JsValue) (templates : list string)
    (props : list (string * JsValue)) (m lm : string) :
  match_ resolveReference mapOasSchemaToJsonSchema parameters_resolve
    parameters_buildSchema pathToRegexp this options = Ret h ->
  GetV (_document this) "paths" = Ret documentPaths ->
  lodash_keys documentPaths = Ret templates ->
  (forall template regex, In template templates ->
     pathToRegexp template = Ret regex -> regex (obj_get props "path") = false) ->
  obj_get props "method" = JStr m ->
  toLowerCase m = Ret lm ->
  key_leaf (obj_get props "path") = true ->
  h now (JObj props)
    = Ret (now,
           if truthy (allowNoMatch options) then MNext
           else MError (Error ("Path=" +:+ text (obj_get props "path")
                                 +:+ " with method=" +:+ lm
                                 +:+ " not found from OpenAPI document"))).
Proof.
  intros Hmatch Hpaths Hkeys Hnone Hmethod Hlower Hleaf.
  destruct (match_inv _ _ _ _ _ Hmatch Hpaths Hkeys) as (paths & Hregexps & ->).
  unfold matchAndValidate. cbn [GetV]. rewrite bind_Ret_l.
  rewrite (path_regexps_none _ _ _ Hregexps Hnone).
  rewrite bind_Ret_l, Hmethod, Hlower, bind_Ret_l.
  destruct (truthy (allowNoMatch options)); cbn [negb]; [reflexivity|].
  rewrite (ToString_leaf _ Hleaf). reflexivity.
Qed.

(** X17: when some template matches, the handler of [match] calls
    [validate] for the first template of the document, in the order of its
    keys, that matches the path of the request, with the method of the
    request in lower case, and hands the request to the handler it gets.
    Every such request therefore leaves the registry holding the readOnly
    and x-key variants of its own method. *)
Theorem match_first_template
    (this now : OpenApiValidator) (options : MatchOptions)
    (h : OpenApiValidator -> JsValue -> Exec (OpenApiValidator * MatchOutcome))
    (documentPaths : JsValue) (pre post : list string) (t : string)
    (rt : JsValue -> bool) (props : list (string * JsValue)) (m lm : string) :
  match_ resolveReference mapOasSchemaToJsonSchema parameters_resolve
    parameters_buildSchema pathToRegexp this options = Ret h ->
  GetV (_document this) "paths" = Ret documentPaths ->
  lodash_keys documentPaths = Ret (pre ++ t :: post)%list ->
  (forall template regex, In template pre ->
     pathToRegexp template = Ret regex -> regex (obj_get props "path") = false) ->
  pathToRegexp t = Ret rt ->
  rt (obj_get props "path") = true ->
  obj_get props "method" = JStr m ->
  toLowerCase m = Ret lm ->
  h now (JObj props)
    = (r ← validate resolveReference mapOasSchemaToJsonSchema parameters_resolve
             parameters_buildSchema now lm t;
       outcome ← r.2 (JObj props);
       Ret (r.1, of_outcome outcome)) /\
  forall after outcome,
    h now (JObj props) = Ret (after, outcome) ->
    _ajv after = mkAjv (allErrors (_ajv now)) (keywords_for lm (RULES (_ajv now))).
Proof.
  intros Hmatch Hpaths Hkeys Hpre Ht Hrt Hmethod Hlower.
  destruct (match_inv _ _ _ _ _ Hmatch Hpaths Hkeys) as (paths & Hregexps & ->).
  assert (Hrun : matchAndValidate resolveReference mapOasSchemaToJsonSchema
                   parameters_resolve parameters_buildSchema options paths now (JObj props)
                 = (r ← validate resolveReference mapOasSchemaToJsonSchema
                          parameters_resolve parameters_buildSchema now lm t;
                    outcome ← r.2 (JObj props);
                    Ret (r.1, of_outcome outcome))).
  { unfold matchAndValidate. cbn [GetV]. rewrite bind_Ret_l.
    rewrite (path_regexps_first _ _ _ _ _ _ Hregexps Hpre Ht Hrt).
    rewrite bind_Ret_l, Hmethod, Hlower, bind_Ret_l. reflexivity. }
  split; [exact Hrun|].
  intros after outcome H. rewrite Hrun in H.
  exec_inv H. destruct a as [this' handler]. exec_inv H. inversion H; subst.
  apply validate_inv in Hstep as (_ & _ & _ & _ & -> & _). reflexivity.
Qed.

End MatchFacts.

Lemma match_without_template_witness :
  exists h,
    match_ resolve_id map_id no_parameters no_fragments exact_path
      items_validator (mkMatchOptions JUndefined) = Ret h /\
    h items_validator (request_for "GET" "/nowhere")
      = Ret (items_validator,
             MError (Error "Path=/nowhere with method=get not found from OpenAPI document")).
Proof.
  eexists. split; [reflexivity|].
  apply (match_without_template resolve_id map_id no_parameters no_fragments exact_path
           items_validator items_validator (mkMatchOptions JUndefined) _
           (obj_get (fields items_doc) "paths") ["/items"; "/list"]
           (fields (request_for "GET" "/nowhere")) "GET" "get");
    try reflexivity.
  intros template regex [<-|[<-|[]]] H; inversion H; reflexivity.
Defined.

Lemma match_first_template_witness :
  exists h,
    match_ resolve_id map_id no_parameters no_fragments exact_path
      items_validator (mkMatchOptions JUndefined) = Ret h /\
    h items_validator (request_for "PATCH" "/list")
      = (r ← validate resolve_id map_id no_parameters no_fragments
               items_validator "patch" "/list";
         outcome ← r.2 (request_for "PATCH" "/list");
         Ret (r.1, of_outcome outcome)) /\
    forall after outcome,
      h items_validator (request_for "PATCH" "/list") = Ret (after, outcome) ->
      _ajv after = mkAjv (allErrors (_ajv items_validator))
                     (keywords_for "patch" (RULES (_ajv items_validator))).
Proof.
  eexists. split; [reflexivity|].
  apply (match_first_template resolve_id map_id no_parameters no_fragments exact_path
           items_validator items_validator (mkMatchOptions JUndefined) _
           (obj_get (fields items_doc) "paths") ["/items"] [] "/list"
           (fun reqPath => strict_eq reqPath (JStr "/list"))
           (fields (request_for "PATCH" "/list")) "PATCH" "patch");
    try reflexivity.
  intros template regex [<-|[]] H; inversion H; reflexivity.
Defined.
